(** * The sync engine of browser-laptop: [js/state/syncUtil.js] and [app/sync.js]

    A shallow embedding of the record builder, the object-id registry, the
    transport-safe serialisation and the dispatcher, followed by the
    properties of the specification that were checked against them. *)

From Stdlib Require Import List String Ascii ZArith Bool Lia Arith.
From Stdlib.Strings Require Import Byte.
From Stdlib Require Import DecimalString.
Import ListNotations.
Open Scope string_scope.

(** ** JavaScript data

    The values the engine handles are plain data: records that went through
    [toJS()], byte buffers, and primitives.  Numbers are the integer-valued
    ones (time stamps, indices, enum codes, bytes); an object is the list of
    its own enumerable properties in enumeration order.  An own property
    called [__proto__] is outside this model ([toJS()] never produces one). *)

Unset Elimination Schemes.
Inductive val : Type :=
| JUndefined
| JNull
| JBool (b : bool)
| JNum (n : Z)
| JStr (s : string)
| JArray (xs : list val)
| JUint8Array (bs : list byte)
| JObject (props : list (string * val)).
Set Elimination Schemes.

Definition props := list (string * val).

Section ValueInduction.
Variable P : val -> Prop.
Hypothesis Hundef : P JUndefined.
Hypothesis Hnull : P JNull.
Hypothesis Hbool : forall b, P (JBool b).
Hypothesis Hnum : forall n, P (JNum n).
Hypothesis Hstr : forall s, P (JStr s).
Hypothesis Harr : forall xs, Forall P xs -> P (JArray xs).
Hypothesis Hu8 : forall bs, P (JUint8Array bs).
Hypothesis Hobj : forall o, Forall (fun kv => P (snd kv)) o -> P (JObject o).

Fixpoint val_ind (v : val) : P v :=
  match v with
  | JUndefined => Hundef
  | JNull => Hnull
  | JBool b => Hbool b
  | JNum n => Hnum n
  | JStr s => Hstr s
  | JArray xs =>
      Harr xs ((fix all (l : list val) : Forall P l :=
                  match l with
                  | [] => Forall_nil _
                  | x :: r => Forall_cons x (val_ind x) (all r)
                  end) xs)
  | JUint8Array bs => Hu8 bs
  | JObject o =>
      Hobj o ((fix all (l : props) : Forall (fun kv => P (snd kv)) l :=
                 match l with
                 | [] => Forall_nil _
                 | kv :: r => Forall_cons kv (val_ind (snd kv)) (all r)
                 end) o)
  end.
End ValueInduction.

(** [!!v] *)
Definition truthy (v : val) : bool :=
  match v with
  | JUndefined | JNull => false
  | JBool b => b
  | JNum n => negb (n =? 0)%Z
  | JStr s => negb (s =? "")
  | JArray _ | JUint8Array _ | JObject _ => true
  end.

(** [a || b] on already evaluated operands *)
Definition js_or (a b : val) : val := if truthy a then a else b.

Definition byte_num (b : byte) : val := JNum (Z.of_N (Byte.to_N b)).

(** [Array.from(u8)] and [List(u8).toJS()] *)
Definition array_of_bytes (bs : list byte) : val := JArray (map byte_num bs).

(** *** Own properties *)

Fixpoint obj_get (k : string) (o : props) : val :=
  match o with
  | [] => JUndefined
  | (k', v) :: r => if k =? k' then v else obj_get k r
  end.

Fixpoint has_own (k : string) (o : props) : bool :=
  match o with
  | [] => false
  | (k', _) :: r => (k =? k') || has_own k r
  end.

(** [o[k] = v]: an existing property keeps its place, a new one goes last. *)
Fixpoint obj_set (k : string) (v : val) (o : props) : props :=
  match o with
  | [] => [(k, v)]
  | (k', v') :: r => if k =? k' then (k, v) :: r else (k', v') :: obj_set k v r
  end.

Definition keys (o : props) : list string := map fst o.

(** [Object.assign(target, src)] *)
Definition Object_assign (target src : props) : props :=
  fold_left (fun acc kv => obj_set (fst kv) (snd kv) acc) src target.

(** The members every object literal inherits from [Object.prototype]. *)
Definition Object_prototype_names : list string :=
  [ "constructor"; "hasOwnProperty"; "isPrototypeOf"; "propertyIsEnumerable";
    "toLocaleString"; "toString"; "valueOf"; "__defineGetter__";
    "__defineSetter__"; "__lookupGetter__"; "__lookupSetter__"; "__proto__" ].

Definition inherited (k : string) : bool :=
  existsb (String.eqb k) Object_prototype_names.

(** [k in o] for an object literal [o]: own or inherited. *)
Definition js_in (k : string) (o : props) : bool := has_own k o || inherited k.

(** *** Exceptions and conversions *)

Inductive exn : Type :=
| Error (msg : string)          (* [throw new Error(msg)] *)
| TypeError                     (* raised by the runtime *)
| NotData.                      (* not an exception of the code: the value
                                   read is a built-in function object,
                                   which [val] does not represent; the code
                                   goes on with it, and the model says
                                   nothing about the rest of such a run *)

Inductive result (A : Type) : Type :=
| Ok (a : A)
| Throw (e : exn).
Arguments Ok {A} a.
Arguments Throw {A} e.

Definition string_of_Z (n : Z) : string := NilZero.string_of_int (Z.to_int n).

Fixpoint join_strings (l : list string) : string :=
  match l with
  | [] => ""
  | [s] => s
  | s :: r => s ++ "," ++ join_strings r
  end.

Fixpoint all_ok {A} (l : list (result A)) : result (list A) :=
  match l with
  | [] => Ok []
  | Throw e :: _ => Throw e
  | Ok a :: r => match all_ok r with Ok t => Ok (a :: t) | Throw e => Throw e end
  end.

(** [String(v)], also what a template literal and a computed member access
    apply.  An object literal answers ["[object Object]"] unless it carries an
    own [toString], which in plain data is not callable. *)
Fixpoint to_string (v : val) : result string :=
  match v with
  | JUndefined => Ok "undefined"
  | JNull => Ok "null"
  | JBool true => Ok "true"
  | JBool false => Ok "false"
  | JNum n => Ok (string_of_Z n)
  | JStr s => Ok s
  | JArray xs =>
      match all_ok (map (fun x => match x with
                                  | JUndefined | JNull => Ok ""
                                  | _ => to_string x
                                  end) xs) with
      | Ok l => Ok (join_strings l)
      | Throw e => Throw e
      end
  | JUint8Array bs =>
      Ok (join_strings (map (fun b => string_of_Z (Z.of_N (Byte.to_N b))) bs))
  | JObject o => if has_own "toString" o then Throw TypeError
                 else Ok "[object Object]"
  end.

(** [table[key]] on an object literal [table] *)
Definition member (table : props) (key : val) : result val :=
  match to_string key with
  | Throw e => Throw e
  | Ok k => if has_own k table then Ok (obj_get k table)
            else if inherited k then Throw NotData
            else Ok JUndefined
  end.

Definition is_str (x : string) (v : val) : bool :=
  match v with JStr s => s =? x | _ => false end.

Definition str_includes (x s : string) : bool :=
  match index 0 x s with Some _ => true | None => false end.

(** [tags.includes(x)] on a val held in an Immutable collection: a List
    searches its elements, a Map its values. *)
Definition imm_includes (tags : val) (x : string) : result bool :=
  match tags with
  | JArray xs => Ok (existsb (is_str x) xs)
  | JObject o => Ok (existsb (fun kv => is_str x (snd kv)) o)
  | JStr s => Ok (str_includes x s)
  | JUint8Array _ => Ok false
  | _ => Throw TypeError
  end.

(** [tags.includes(x)] on plain data: only arrays, strings and typed arrays
    have the method. *)
Definition plain_includes (tags : val) (x : string) : result bool :=
  match tags with
  | JArray xs => Ok (existsb (is_str x) xs)
  | JStr s => Ok (str_includes x s)
  | JUint8Array _ => Ok false
  | _ => Throw TypeError
  end.

(** ** [syncUtil.js]: transport-safe copies *)

(** What the loop of [deepArrayify] does to one property. *)
Fixpoint arrayify_field (v : val) : val :=
  match v with
  | JArray _ => v                              (* [instanceof Array]: skipped *)
  | JUint8Array bs => array_of_bytes bs        (* [Array.from] *)
  | JNull => JObject []                        (* [typeof null === 'object'] *)
  | JObject o => JObject (map (fun kv => (fst kv, arrayify_field (snd kv))) o)
  | _ => v
  end.

(** [Object.assign({}, o)] lists the own properties of [o] in the same order:
    on data the copy is [o] itself (see [Object_assign_copy]). *)
Definition deepArrayify (sourceObject : props) : props :=
  map (fun kv => (fst kv, arrayify_field (snd kv))) sourceObject.

Definition ipcSafeObject (object : props) : props := deepArrayify object.

(** Following a path of property names through nested objects. *)
Fixpoint get_path (path : list string) (v : val) : val :=
  match path with
  | [] => v
  | k :: r => match v with
              | JObject o => get_path r (obj_get k o)
              | _ => JUndefined
              end
  end.

(** ** The engine's surroundings

    What the two modules reach through [require]: the action bus
    ([appActions]), the message channel ([e.sender.send]), the application
    state ([AppStore.getState()]), the random source, the clock, the console
    and the interval set, gathered in one state that every operation
    threads. *)

(** Calls on [appActions] *)
Inductive app_action : Type :=
| setObjectId_request (objectId : list byte) (objectPath : list val)
| saveSyncInitData (seed deviceId lastFetchTimestamp : val).

(** Names of [constants/sync/messages] *)
Inductive message : Type :=
| GET_INIT_DATA | GOT_INIT_DATA | SAVE_INIT_DATA | SYNC_READY | SYNC_DEBUG
| SEND_SYNC_RECORDS | DELETE_SYNC_CATEGORY | DELETE_SYNC_SITE_SETTINGS
| FETCH_SYNC_RECORDS | GET_EXISTING_OBJECTS | RESOLVE_SYNC_RECORDS
| RESOLVED_SYNC_RECORDS.

(** The part of the application state the engine reads.  A site is an
    Immutable Map given by its [toJS()] image, [None] an empty slot of the
    list. *)
Record app_state : Type := {
  sites : option (list (option props));
  siteSettings : option (list (string * props));
  lastFetchTimestamp : val
}.

Record world : Type := {
  deviceId : val;                        (* [let deviceId] of sync.js *)
  startAt : val;                         (* [let startAt] captured by [poll] *)
  pollIntervalId : option Z;             (* the period [poll] was given to
                                            [setInterval] with *)
  registered : nat;                      (* callbacks given to appDispatcher *)
  handlers : list message;               (* [ipcMain.on] subscriptions *)
  appState : app_state;
  entropy : nat -> byte;                 (* the bytes [crypto] will deliver *)
  drawn : nat;                           (* how many were consumed *)
  clock : Z;                             (* [Date.now()], milliseconds *)
  dispatched : list app_action;          (* oldest first *)
  channel : list (message * list val);   (* oldest first *)
  console : list string                  (* oldest first *)
}.

Definition with_deviceId (d : val) (w : world) : world :=
  {| deviceId := d; startAt := startAt w; pollIntervalId := pollIntervalId w;
     registered := registered w; handlers := handlers w;
     appState := appState w; entropy := entropy w; drawn := drawn w;
     clock := clock w; dispatched := dispatched w; channel := channel w;
     console := console w |}.

Definition with_startAt (s : val) (w : world) : world :=
  {| deviceId := deviceId w; startAt := s; pollIntervalId := pollIntervalId w;
     registered := registered w; handlers := handlers w;
     appState := appState w; entropy := entropy w; drawn := drawn w;
     clock := clock w; dispatched := dispatched w; channel := channel w;
     console := console w |}.

Definition with_pollIntervalId (p : option Z) (w : world) : world :=
  {| deviceId := deviceId w; startAt := startAt w; pollIntervalId := p;
     registered := registered w; handlers := handlers w;
     appState := appState w; entropy := entropy w; drawn := drawn w;
     clock := clock w; dispatched := dispatched w; channel := channel w;
     console := console w |}.

Definition with_registered (n : nat) (w : world) : world :=
  {| deviceId := deviceId w; startAt := startAt w;
     pollIntervalId := pollIntervalId w;
     registered := n; handlers := handlers w;
     appState := appState w; entropy := entropy w; drawn := drawn w;
     clock := clock w; dispatched := dispatched w; channel := channel w;
     console := console w |}.

Definition with_handlers (h : list message) (w : world) : world :=
  {| deviceId := deviceId w; startAt := startAt w;
     pollIntervalId := pollIntervalId w;
     registered := registered w; handlers := h;
     appState := appState w; entropy := entropy w; drawn := drawn w;
     clock := clock w; dispatched := dispatched w; channel := channel w;
     console := console w |}.

Definition with_drawn (n : nat) (w : world) : world :=
  {| deviceId := deviceId w; startAt := startAt w;
     pollIntervalId := pollIntervalId w;
     registered := registered w; handlers := handlers w;
     appState := appState w; entropy := entropy w; drawn := n;
     clock := clock w; dispatched := dispatched w; channel := channel w;
     console := console w |}.

Definition with_clock (t : Z) (w : world) : world :=
  {| deviceId := deviceId w; startAt := startAt w;
     pollIntervalId := pollIntervalId w;
     registered := registered w; handlers := handlers w;
     appState := appState w; entropy := entropy w; drawn := drawn w;
     clock := t; dispatched := dispatched w; channel := channel w;
     console := console w |}.

Definition with_dispatched (l : list app_action) (w : world) : world :=
  {| deviceId := deviceId w; startAt := startAt w;
     pollIntervalId := pollIntervalId w;
     registered := registered w; handlers := handlers w;
     appState := appState w; entropy := entropy w; drawn := drawn w;
     clock := clock w; dispatched := l; channel := channel w;
     console := console w |}.

Definition with_channel (l : list (message * list val)) (w : world) : world :=
  {| deviceId := deviceId w; startAt := startAt w;
     pollIntervalId := pollIntervalId w;
     registered := registered w; handlers := handlers w;
     appState := appState w; entropy := entropy w; drawn := drawn w;
     clock := clock w; dispatched := dispatched w; channel := l;
     console := console w |}.

Definition with_console (l : list string) (w : world) : world :=
  {| deviceId := deviceId w; startAt := startAt w;
     pollIntervalId := pollIntervalId w;
     registered := registered w; handlers := handlers w;
     appState := appState w; entropy := entropy w; drawn := drawn w;
     clock := clock w; dispatched := dispatched w; channel := channel w;
     console := l |}.

(** *** State and exceptions

    A computation runs from a state to an outcome and the state it left
    behind; what was done before a [throw] stays done. *)

Definition M (A : Type) : Type := world -> result A * world.

Definition ret {A} (a : A) : M A := fun w => (Ok a, w).

Definition throw {A} (e : exn) : M A := fun w => (Throw e, w).

Definition bind {A B} (m : M A) (k : A -> M B) : M B :=
  fun w => match m w with
           | (Ok a, w') => k a w'
           | (Throw e, w') => (Throw e, w')
           end.

Declare Scope engine_scope.
Delimit Scope engine_scope with engine.
Notation "x <- m ;; k" := (bind m (fun x => k))
  (at level 61, m at next level, right associativity) : engine_scope.
Notation "m ;; k" := (bind m (fun _ => k))
  (at level 61, right associativity) : engine_scope.
Open Scope engine_scope.

Definition lift {A} (r : result A) : M A := fun w => (r, w).

Definition get_world : M world := fun w => (Ok w, w).

Definition modify (f : world -> world) : M unit := fun w => (Ok tt, f w).

(** [l.map(f)] with an effectful [f] *)
Fixpoint map_M {A B} (f : A -> M B) (l : list A) : M (list B) :=
  match l with
  | [] => ret []
  | x :: r => y <- f x ;; t <- map_M f r ;; ret (y :: t)
  end.

(** [crypto.randomBytes(n)] *)
Definition randomBytes (n : nat) : M (list byte) :=
  fun w => (Ok (map (entropy w) (seq (drawn w) n)), with_drawn (drawn w + n) w).

Definition dispatch (a : app_action) : M unit :=
  modify (fun w => with_dispatched (dispatched w ++ [a]) w).

(** [e.sender.send(name, ...args)] *)
Definition send (name : message) (args : list val) : M unit :=
  modify (fun w => with_channel (channel w ++ [(name, args)]) w).

Definition console_log (line : string) : M unit :=
  modify (fun w => with_console (console w ++ [line]) w).

(** ** [syncUtil.js] *)

(** An argument documented as [Immutable.Map]: either a Map, given by its
    [toJS()] image, or some plain datum that has no [toJS]. *)
Inductive item : Type :=
| Plain (v : val)
| ImmMap (o : props).

(** [v.k] on plain data, for a name [k] no prototype defines *)
Definition plain_prop (k : string) (v : val) : val :=
  match v with JObject o => obj_get k o | _ => JUndefined end.

(** The test [!item || !item.toJS] *)
Definition not_immutable (v : val) : bool :=
  negb (truthy v) || negb (truthy (plain_prop "toJS" v)).

Definition siteSettingDefaults : props :=
  [ ("hostPattern", JStr "");
    ("zoomLevel", JNum 0);
    ("shieldsUp", JBool true);
    ("adControl", JNum 1);
    ("cookieControl", JNum 0);
    ("safeBrowsing", JBool true);
    ("noScript", JBool false);
    ("httpsEverywhere", JBool true);
    ("fingerprintingProtection", JBool false);
    ("ledgerPayments", JBool true);
    ("ledgerPaymentsShown", JBool true) ].

(** [setObjectId(item)]; [None] is the bare [return].  A plain datum that
    passes the first test has data where [get] is called. *)
Definition setObjectId (it : item) : M (option item) :=
  match it with
  | Plain v => if not_immutable v then ret None else throw TypeError
  | ImmMap o =>
      if truthy (obj_get "objectId" o) then ret (Some it)
      else bs <- randomBytes 16 ;;
           ret (Some (ImmMap (obj_set "objectId" (array_of_bytes bs) o)))
  end.

(** [now()]: [Math.floor(Date.now() / 1000)] *)
Definition now : M val := fun w => (Ok (JNum (clock w / 1000)), w).

Definition isSyncable (type : string) (it : props) : result bool :=
  if (type =? "bookmark") && truthy (obj_get "tags" it) then
    match imm_includes (obj_get "tags" it) "bookmark" with
    | Throw e => Throw e
    | Ok true => Ok true
    | Ok false => imm_includes (obj_get "tags" it) "bookmark-folder"
    end
  else if type =? "siteSetting" then
    Ok (existsb (fun field => has_own field it) (keys siteSettingDefaults))
  else Ok false.

Definition newObjectId (objectPath : list val) : M val :=
  bs <- randomBytes 16 ;;
  dispatch (setObjectId_request bs objectPath) ;;
  ret (array_of_bytes bs).

(** What the builders return: [{name, objectId, value}] *)
Record record_data : Type := {
  name : string;
  objectId : val;
  value : val
}.

Definition siteData_defaults : props :=
  [ ("location", JStr ""); ("title", JStr ""); ("customTitle", JStr "");
    ("lastAccessedTime", JNum 0); ("creationTime", JNum 0) ].

(** The loop [for (let field in site) if (field in siteData) ...] *)
Definition copy_site_fields (site : props) : props :=
  fold_left (fun siteData field =>
               if js_in field siteData
               then obj_set field (obj_get field site) siteData
               else siteData)
            (keys site) siteData_defaults.

Definition is_number (v : val) : bool :=
  match v with JNum _ => true | _ => false end.

(** [v.length] on plain data *)
Definition js_length (v : val) : val :=
  match v with
  | JArray xs => JNum (Z.of_nat (List.length xs))
  | JStr s => JNum (Z.of_nat (String.length s))
  | JUint8Array bs => JNum (Z.of_nat (List.length bs))
  | JObject o => obj_get "length" o
  | _ => JUndefined
  end.

(** [site.objectId || newObjectId(path)] *)
Definition objectId_or_new (o : props) (path : list val) : M val :=
  if truthy (obj_get "objectId" o) then ret (obj_get "objectId" o)
  else newObjectId path.

(** The [value] of a bookmark record *)
Definition bookmark_value (site siteData : props) (isFolder : bool) : val :=
  JObject [ ("site", JObject siteData);
            ("isFolder", JBool isFolder);
            ("folderId", js_or (obj_get "folderId" site) (JNum 0));
            ("parentFolderId", js_or (obj_get "parentFolderId" site) (JNum 0)) ].

(** [isPlainObj(o)] of Immutable, which decides whether [fromJS] converts
    an object: [o.constructor] is [Object] (what an object literal inherits)
    or [undefined].  An own [constructor] property holding any other datum
    makes it false. *)
Definition isPlainObj (o : props) : bool :=
  negb (has_own "constructor" o)
  || match obj_get "constructor" o with JUndefined => true | _ => false end.

(** [isSyncable('bookmark', Immutable.fromJS(site))].  [fromJS] makes a Map
    of [site] only when [isPlainObj] holds of it; what it leaves as it is has
    no [get].  In the same way an object under [tags] becomes a Map, which
    has [includes], or stays a plain object, which has not. *)
Definition isSyncable_fromJS (site : props) : result bool :=
  if isPlainObj site then
    match obj_get "tags" site with
    | JObject tags => if isPlainObj tags then isSyncable "bookmark" site
                      else Throw TypeError
    | _ => isSyncable "bookmark" site
    end
  else Throw TypeError.

Definition createSiteData (site : props) (siteIndex : val)
  : M (option record_data) :=
  let siteData := copy_site_fields site in
  let tags := obj_get "tags" site in
  syncable <- lift (isSyncable_fromJS site) ;;
  if syncable then
    if negb (truthy (obj_get "objectId" site)) && negb (is_number siteIndex)
    then throw (Error "Missing bookmark objectId.")
    else
      id <- objectId_or_new site [JStr "sites"; siteIndex] ;;
      isFolder <- lift (plain_includes tags "bookmark-folder") ;;
      ret (Some {| name := "bookmark";
                   objectId := id;
                   value := bookmark_value site siteData isFolder |})
  else if negb (truthy tags) || negb (truthy (js_length tags)) then
    if negb (truthy (obj_get "objectId" site)) && negb (is_number siteIndex)
    then throw (Error "Missing historySite objectId.")
    else
      id <- objectId_or_new site [JStr "sites"; siteIndex] ;;
      ret (Some {| name := "historySite";
                   objectId := id;
                   value := JObject siteData |})
  else ret None.

Definition adControlEnum : props :=
  [ ("showBraveAds", JNum 0); ("blockAds", JNum 1);
    ("allowAdsAndTracking", JNum 2) ].

Definition cookieControlEnum : props :=
  [ ("block3rdPartyCookie", JNum 0); ("allowAllCookies", JNum 1) ].

(** One round of the loop [for (let field in setting)] *)
Definition copy_setting_field (setting : props) (acc : result props)
    (field : string) : result props :=
  match acc with
  | Throw e => Throw e
  | Ok value =>
      if field =? "adControl" then
        match member adControlEnum (obj_get "adControl" setting) with
        | Ok code => Ok (obj_set "adControl" code value)
        | Throw e => Throw e
        end
      else if field =? "cookieControl" then
        match member cookieControlEnum (obj_get "cookieControl" setting) with
        | Ok code => Ok (obj_set "cookieControl" code value)
        | Throw e => Throw e
        end
      else if js_in field value then
        Ok (obj_set field (obj_get field setting) value)
      else Ok value
  end.

(** [value] as [createSiteSettingsData] leaves it before it returns *)
Definition siteSettings_value (hostPattern : val) (setting : props)
  : result props :=
  fold_left (copy_setting_field setting) (keys setting)
    (Ok (Object_assign (Object_assign [] siteSettingDefaults)
                       [("hostPattern", hostPattern)])).

Definition createSiteSettingsData (hostPattern : val) (setting : props)
  : M record_data :=
  value <- lift (siteSettings_value hostPattern setting) ;;
  id <- objectId_or_new setting [JStr "siteSettings"; hostPattern] ;;
  ret {| name := "siteSetting"; objectId := id; value := JObject value |}.

(** ** [sync.js] *)

(** Constants of [constants/syncConstants], and any other action type *)
Inductive action_type : Type :=
| SYNC_ADD_SITE | SYNC_UPDATE_SITE | SYNC_REMOVE_SITE | SYNC_CLEAR_HISTORY
| SYNC_ADD_SITE_SETTING | SYNC_UPDATE_SITE_SETTING | SYNC_REMOVE_SITE_SETTING
| SYNC_CLEAR_SITE_SETTINGS
| OTHER_ACTION.

(** An action as the dispatcher hands it over; an action without an [item]
    has [Plain JUndefined] there. *)
Record action : Type := {
  actionType : action_type;
  action_item : item;
  hostPattern : val
}.

Section SyncJs.

(** Tables and settings that live outside the two modules. *)
Variable CATEGORY_MAP : props.        (* [syncUtil.CATEGORY_MAP], which
                                         syncUtil.js does not define *)
Variables CREATE UPDATE DELETE : val. (* [proto.actions] *)
Variable categoryNames : list string. (* [Object.keys(proto.categories)] *)
Variable fetchInterval : Z.           (* [appConfig.sync.fetchInterval] *)

(** [log(message)]; the console line is kept without its time prefix. *)
Definition log (message : string) : M unit := console_log message.

(** The record [sendSyncRecords] builds for one element of [data] *)
Definition sync_record (action deviceId : val) (it : option record_data)
  : val :=
  match it with
  | None => JUndefined
  | Some d =>
      if negb (truthy (JStr (name d))) || negb (truthy (value d))
      then JUndefined
      else JObject (obj_set (name d) (value d)
                      [ ("action", action); ("deviceId", deviceId);
                        ("objectId", objectId d) ])
  end.

(** [sendSyncRecords(sender, action, data)]; an element of [data] that is
    [undefined] is [None]. *)
Definition sendSyncRecords (action : val) (data : list (option record_data))
  : M unit :=
  w <- get_world ;;
  if negb (truthy (deviceId w)) then
    throw (Error "Cannot build a sync record because deviceId is not set")
  else
    match data with
    | [] => ret tt
    | first :: _ =>
        match first with
        | None => throw TypeError          (* [data[0].name] *)
        | Some d =>
            category <- lift (member CATEGORY_MAP (JStr (name d))) ;;
            send SEND_SYNC_RECORDS
                 [category; JArray (map (sync_record action (deviceId w)) data)]
        end
    end.

Definition doAction (a : action) : M unit :=
  match action_item a with
  | Plain v => if not_immutable v then ret tt else throw TypeError
  | ImmMap o =>
      if negb (truthy (obj_get "objectId" o)) then
        shown <- lift (to_string (JObject o)) ;;
        log ("Missing object ID! " ++ shown)
      else
        match actionType a with
        | SYNC_ADD_SITE =>
            d <- createSiteData o JUndefined ;; sendSyncRecords CREATE [d]
        | SYNC_UPDATE_SITE =>
            d <- createSiteData o JUndefined ;; sendSyncRecords UPDATE [d]
        | SYNC_REMOVE_SITE =>
            d <- createSiteData o JUndefined ;; sendSyncRecords DELETE [d]
        | SYNC_CLEAR_HISTORY =>
            send DELETE_SYNC_CATEGORY [obj_get "historySite" CATEGORY_MAP]
        | SYNC_ADD_SITE_SETTING =>
            syncable <- lift (isSyncable "siteSetting" o) ;;
            if syncable
            then d <- createSiteSettingsData (hostPattern a) o ;;
                 sendSyncRecords CREATE [Some d]
            else ret tt
        | SYNC_UPDATE_SITE_SETTING =>
            syncable <- lift (isSyncable "siteSetting" o) ;;
            if syncable
            then d <- createSiteSettingsData (hostPattern a) o ;;
                 sendSyncRecords UPDATE [Some d]
            else ret tt
        | SYNC_REMOVE_SITE_SETTING =>
            d <- createSiteSettingsData (hostPattern a) o ;;
            sendSyncRecords DELETE [Some d]
        | SYNC_CLEAR_SITE_SETTINGS => send DELETE_SYNC_SITE_SETTINGS []
        | OTHER_ACTION => ret tt
        end
  end.

(** The closure [poll] of [onSyncReady] *)
Definition poll : M unit :=
  w <- get_world ;;
  send FETCH_SYNC_RECORDS [JArray (map JStr categoryNames); startAt w] ;;
  t <- now ;;
  modify (with_startAt t) ;;
  dispatch (saveSyncInitData JNull JNull t).

(** The callback of [sites.forEach] *)
Definition backfill_site (i : nat) (site : option props) : M unit :=
  match site with
  | None => ret tt
  | Some s =>
      if truthy (obj_get "objectId" s) then ret tt
      else
        syncable <- lift (isSyncable "bookmark" s) ;;
        if syncable
        then d <- createSiteData s (JNum (Z.of_nat i)) ;;
             sendSyncRecords CREATE [d]
        else ret tt
  end.

(** [l.forEach(body)], the index counted from [i]; an exception ends it. *)
Fixpoint for_each_from {A} (body : nat -> A -> M unit) (i : nat)
    (l : list A) : M unit :=
  match l with
  | [] => ret tt
  | x :: r => body i x ;; for_each_from body (S i) r
  end.

Definition device_record (id : val) : record_data :=
  {| name := "device"; objectId := id;
     value := JObject [("name", JStr "browser-laptop")] |}.

Definition syncable_settings (l : list (string * props))
  : list (string * props) :=
  filter (fun kv => match isSyncable "siteSetting" (snd kv) with
                    | Ok b => b
                    | Throw _ => false
                    end) l.

Definition onSyncReady (isFirstRun : bool) : M unit :=
  modify (fun w => with_registered (S (registered w)) w) ;;
  (if isFirstRun
   then id <- newObjectId [JStr "sync"] ;;
        sendSyncRecords CREATE [Some (device_record id)]
   else ret tt) ;;
  w <- get_world ;;
  let appState := appState w in
  for_each_from backfill_site 0
    (match sites appState with Some l => l | None => [] end) ;;
  match siteSettings appState with
  | None => throw TypeError                 (* [undefined.filter] *)
  | Some settings =>
      records <- map_M (fun kv => createSiteSettingsData (JStr (fst kv)) (snd kv))
                       (syncable_settings settings) ;;
      sendSyncRecords UPDATE (map Some records) ;;
      modify (fun w => with_handlers
                (handlers w ++ [GET_EXISTING_OBJECTS; RESOLVED_SYNC_RECORDS]) w) ;;
      modify (with_startAt (js_or (lastFetchTimestamp appState) (JNum 0))) ;;
      poll ;;
      modify (with_pollIntervalId (Some fetchInterval))
  end.

End SyncJs.

(** ** [syncUtil.js]: finding an object by its id *)

(** [is(a, b)] of Immutable between a value held in the state and a plain
    value of an incoming record: equal primitives are, collections and
    buffers of the two sides never are. *)
Definition prim_is (a b : val) : bool :=
  match a, b with
  | JUndefined, JUndefined => true
  | JNull, JNull => true
  | JBool x, JBool y => Bool.eqb x y
  | JNum x, JNum y => (x =? y)%Z
  | JStr x, JStr y => (x =? y)%string
  | _, _ => false
  end.

(** Two Lists are equal when they have the same size and, place by place,
    elements that [is] holds equal. *)
Fixpoint list_is (xs ys : list val) : bool :=
  match xs, ys with
  | [], [] => true
  | x :: xs', y :: ys' => prim_is x y && list_is xs' ys'
  | _, _ => false
  end.

(** [itemObjectId.equals(objectId)] for a truthy value of the state and the
    List [objectId]: a List compares as above, a Map is never equal to a
    List, and nothing else has the method. *)
Definition imm_equals (itemObjectId : val) (objectId : list val)
  : result bool :=
  match itemObjectId with
  | JArray xs => Ok (list_is xs objectId)
  | JObject _ => Ok false
  | _ => Throw TypeError
  end.

(** The predicate given to [findEntry] *)
Definition id_matches (objectId : list val) (it : props) : result bool :=
  if truthy (obj_get "objectId" it)
  then imm_equals (obj_get "objectId" it) objectId
  else Ok false.

(** [sites.findEntry(...)], the index counted from [i]; an empty slot has no
    [get]. *)
Fixpoint find_site_entry (objectId : list val) (i : nat)
    (l : list (option props)) : result (option (val * props)) :=
  match l with
  | [] => Ok None
  | None :: _ => Throw TypeError
  | Some site :: r =>
      match id_matches objectId site with
      | Throw e => Throw e
      | Ok true => Ok (Some (JNum (Z.of_nat i), site))
      | Ok false => find_site_entry objectId (S i) r
      end
  end.

(** [siteSettings.findEntry(...)] *)
Fixpoint find_setting_entry (objectId : list val) (l : list (string * props))
  : result (option (val * props)) :=
  match l with
  | [] => Ok None
  | (hostPattern, siteSetting) :: r =>
      match id_matches objectId siteSetting with
      | Throw e => Throw e
      | Ok true => Ok (Some (JStr hostPattern, siteSetting))
      | Ok false => find_setting_entry objectId r
      end
  end.

(** [getObjectById(objectId, category)]; [objectId] lists the elements of
    the List, which [getExistingObject] builds from a plain record.  [None]
    is the [undefined] of a search without a match. *)
Definition getObjectById (objectId : list val) (category : val)
  : M (option (val * props)) :=
  w <- get_world ;;
  if is_str "BOOKMARKS" category || is_str "HISTORY_SITES" category then
    match sites (appState w) with
    | None => throw TypeError
    | Some l => lift (find_site_entry objectId 0 l)
    end
  else if is_str "PREFERENCES" category then
    match siteSettings (appState w) with
    | None => throw TypeError
    | Some l => lift (find_setting_entry objectId l)
    end
  else
    shown <- lift (to_string category) ;;
    throw (Error ("Invalid object category: " ++ shown)).

Section Resolving.

(** What lies outside the two modules. *)
Variable CREATE : val.                (* [proto.actions.CREATE] *)
Variable stored_deviceId : val.       (* [appState.getIn(['sync', 'deviceId'])],
                                         a part of the state [app_state]
                                         leaves out *)
Variable Immutable_List : val -> result (list val).
                                      (* the elements of
                                         [new Immutable.List(v)] *)
Variable categoryNames : list string. (* [Object.keys(proto.categories)] *)

(** The object [getExistingObject] returns for a built item *)
Definition existing_record (d : record_data) : val :=
  JObject (obj_set (name d) (value d)
             [ ("action", CREATE); ("deviceId", stored_deviceId);
               ("objectData", JStr (name d)); ("objectId", objectId d) ]).

Definition getExistingObject (categoryName : val) (syncRecord : props)
  : M val :=
  objectId <- lift (Immutable_List (obj_get "objectId" syncRecord)) ;;
  appStoreKeyValue <- getObjectById objectId categoryName ;;
  match appStoreKeyValue with
  | None => ret JNull
  | Some (key, existingObject) =>
      item <- (if is_str "BOOKMARKS" categoryName
                  || is_str "HISTORY_SITES" categoryName
               then createSiteData existingObject JUndefined
               else if is_str "PREFERENCES" categoryName
               then d <- createSiteSettingsData key existingObject ;;
                    ret (Some d)
               else shown <- lift (to_string categoryName) ;;
                    throw (Error ("Invalid category: " ++ shown))) ;;
      match item with
      | None => throw TypeError               (* [item.name] *)
      | Some d => ret (existing_record d)
      end
  end.

(** The listener of [GET_EXISTING_OBJECTS]; [records] is [None] when the
    message came without an array. *)
Definition on_GET_EXISTING_OBJECTS (categoryName : val)
    (records : option (list props)) : M unit :=
  match records with
  | None => throw TypeError                   (* [records.length] *)
  | Some rs =>
      shown <- lift (to_string categoryName) ;;
      log ("getting existing objects for "
           ++ string_of_Z (Z.of_nat (List.length rs)) ++ " " ++ shown) ;;
      if negb (existsb (fun n => is_str n categoryName) categoryNames)
         || match rs with [] => true | _ => false end
      then ret tt
      else
        recordsAndExistingObjects <-
          map_M (fun record =>
                   existingObject <- getExistingObject categoryName record ;;
                   ret (JArray [JObject (ipcSafeObject record); existingObject]))
                rs ;;
        send RESOLVE_SYNC_RECORDS
             [categoryName; JArray recordsAndExistingObjects]
  end.

End Resolving.

(** ** [sync.js]: bootstrap *)

Section Bootstrap.

Variable config : props.              (* [appConfig.sync] *)
Variable Array_from : val -> result (list val).
                                      (* the elements of [Array.from(v)] *)
Variable Immutable_List : val -> result (list val).

Definition is_true (v : val) : bool :=
  match v with JBool true => true | _ => false end.

(** The listener of [GET_INIT_DATA] *)
Definition on_GET_INIT_DATA (initialState : props) : M unit :=
  let seed := js_or (obj_get "seed" initialState) JNull in
  modify (with_deviceId (js_or (obj_get "deviceId" initialState) JNull)) ;;
  w <- get_world ;;
  send GOT_INIT_DATA [seed; deviceId w; JObject config].

(** The listener of [SAVE_INIT_DATA] *)
Definition on_SAVE_INIT_DATA (seed newDeviceId : val) : M unit :=
  w <- get_world ;;
  (if negb (truthy (deviceId w)) && truthy newDeviceId
   then xs <- lift (Array_from newDeviceId) ;;
        modify (with_deviceId (JArray xs))
   else ret tt) ;;
  s <- lift (Immutable_List seed) ;;
  d <- lift (Immutable_List newDeviceId) ;;
  dispatch (saveSyncInitData (JArray s) (JArray d) JUndefined).

(** [init(initialState)]: the four listeners, when sync is enabled *)
Definition init : M unit :=
  if is_true (obj_get "enabled" config)
  then modify (fun w => with_handlers
                 (handlers w ++
                  [GET_INIT_DATA; SAVE_INIT_DATA; SYNC_READY; SYNC_DEBUG]) w)
  else ret tt.

(** Whether [SYNC_READY] will count as a first run *)
Definition is_first_run (initialState : props) : bool :=
  negb (truthy (obj_get "seed" initialState))
  && negb (truthy (obj_get "deviceId" initialState)).

End Bootstrap.

(** ** Vocabulary of the statements *)

(** Modelled from the spec: the inverse reading of the enum table, which
    [applySyncRecord] (called by sync.js, absent from syncUtil.js) applies to
    resolved records; the spec describes one fixed bidirectional table between
    strings and small integers. *)
Fixpoint key_of_code (code : Z) (table : props) : val :=
  match table with
  | [] => JUndefined
  | (k, JNum n) :: r => if (n =? code)%Z then JStr k else key_of_code code r
  | _ :: r => key_of_code code r
  end.

Definition adControl_inverse (code : val) : val :=
  match code with JNum n => key_of_code n adControlEnum | _ => JUndefined end.

(** *** States *)

(** What the other fields of the state have in common before and after *)
Definition same_engine (w w' : world) : Prop :=
  deviceId w' = deviceId w /\ startAt w' = startAt w /\
  pollIntervalId w' = pollIntervalId w /\ registered w' = registered w /\
  handlers w' = handlers w /\ appState w' = appState w /\
  entropy w' = entropy w /\ clock w' = clock w.

(** A computation that touches nothing but the random source, the action
    bus, the channel and the console *)
Definition quiet {A} (m : M A) : Prop :=
  forall w, same_engine w (snd (m w)).

(** The [n] bytes a random source holds from position [p] on *)
Definition bytes_at (source : nat -> byte) (p n : nat) : list byte :=
  map source (seq p n).

(** The state once an id was drawn and its assignment requested for the
    object at [path] *)
Definition id_requested (path : list val) (w : world) : world :=
  with_dispatched
    (dispatched w ++ [setObjectId_request (bytes_at (entropy w) (drawn w) 16) path])
    (with_drawn (drawn w + 16) w).

(** The id [o.objectId || newObjectId(path)] answers in state [w], and the
    state it leaves *)
Definition assigned_id (o : props) (w : world) : val :=
  if truthy (obj_get "objectId" o) then obj_get "objectId" o
  else array_of_bytes (bytes_at (entropy w) (drawn w) 16).

Definition after_assignment (o : props) (path : list val) (w : world)
  : world :=
  if truthy (obj_get "objectId" o) then w else id_requested path w.

(** *** Site settings *)

(** The schema of a site-setting record, in the order of its defaults *)
Definition schema_fields : list string := keys siteSettingDefaults.

(** [value] before the loop: the defaults under the given host pattern *)
Definition initial_value (hostPattern : val) : props :=
  ("hostPattern", hostPattern) :: tl siteSettingDefaults.

(** What the loop of [createSiteSettingsData] writes under [field] when it
    writes: the enum code for the two enum fields, the input's own value for
    any other. *)
Definition assigned (setting : props) (field : string) : result val :=
  if field =? "adControl"
  then member adControlEnum (obj_get "adControl" setting)
  else if field =? "cookieControl"
  then member cookieControlEnum (obj_get "cookieControl" setting)
  else Ok (obj_get field setting).

Definition is_enum_field (field : string) : bool :=
  (field =? "adControl") || (field =? "cookieControl").

(** An enum field that is absent, or holds a string [Object.prototype] does
    not know *)
Definition enum_field_ok (setting : props) (field : string) : Prop :=
  has_own field setting = false \/
  exists s, obj_get field setting = JStr s /\ inherited s = false.

(** The write action [doAction] uses for a site-setting action *)
Definition setting_write (CREATE UPDATE DELETE : val) (t : action_type)
  : option val :=
  match t with
  | SYNC_ADD_SITE_SETTING => Some CREATE
  | SYNC_UPDATE_SITE_SETTING => Some UPDATE
  | SYNC_REMOVE_SITE_SETTING => Some DELETE
  | _ => None
  end.

(** *** Messages *)

(** The record sent for [name], [value] under [action] *)
Definition record_of (action deviceId id : val) (name : string) (value : val)
  : val :=
  JObject [ ("action", action); ("deviceId", deviceId); ("objectId", id);
            (name, value) ].

(** The message that carries the single record [name: value] *)
Definition single_record_message (CATEGORY_MAP : props)
    (action deviceId id : val) (name : string) (value : val)
  : message * list val :=
  ( SEND_SYNC_RECORDS,
    [ obj_get name CATEGORY_MAP;
      JArray [record_of action deviceId id name value] ] ).

Definition fetch_message (categoryNames : list string) (since : val)
  : message * list val :=
  (FETCH_SYNC_RECORDS, [JArray (map JStr categoryNames); since]).



(** *** Engine start *)

Definition has_tag (t : string) (site : props) : bool :=
  match obj_get "tags" site with
  | JArray ts => existsb (is_str t) ts
  | _ => false
  end.

Definition sites_of (st : app_state) : list (option props) :=
  match sites st with Some l => l | None => [] end.

(** The application state as the application keeps it: a site that still
    needs an id has a list for its tags, or none; the settings are there, and
    an enum field of a setting holds one of the application's strings. *)
Definition site_well_formed (site : option props) : Prop :=
  match site with
  | None => True
  | Some s => truthy (obj_get "objectId" s) = true \/
              truthy (obj_get "tags" s) = false \/
              exists ts, obj_get "tags" s = JArray ts
  end.

Definition setting_well_formed (kv : string * props) : Prop :=
  enum_field_ok (snd kv) "adControl" /\ enum_field_ok (snd kv) "cookieControl".

Definition state_well_formed (st : app_state) : Prop :=
  Forall site_well_formed (sites_of st) /\
  exists settings, siteSettings st = Some settings /\
                   Forall setting_well_formed settings.

(** No field of the object is named like a member of [Object.prototype]. *)
Definition own_names_only (o : props) : Prop :=
  forall k, In k (keys o) -> inherited k = false.

(** A site that lacks an id and is tagged as a bookmark or as a folder *)
Definition unsynced_bookmark (site : option props) : bool :=
  match site with
  | None => false
  | Some s => negb (truthy (obj_get "objectId" s))
              && (has_tag "bookmark" s || has_tag "bookmark-folder" s)
  end.

(** The object has a field named [constructor] of its own that holds
    something: [Immutable.fromJS] leaves such an object as it is. *)
Definition own_constructor (o : props) : bool :=
  has_own "constructor" o
  && match obj_get "constructor" o with JUndefined => false | _ => true end.

(** A bookmark that still lacks an id is one [fromJS] converts *)
Definition bookmark_converts (site : option props) : Prop :=
  match site with
  | Some s => unsynced_bookmark site = true -> own_constructor s = false
  | None => True
  end.

(** The state at start-up: well formed, and a bookmark that still lacks an
    id has no field named like a member of [Object.prototype]. *)
Definition site_ready (site : option props) : Prop :=
  site_well_formed site /\
  match site with
  | Some s => unsynced_bookmark site = true -> own_names_only s
  | None => True
  end.

Definition state_ready (st : app_state) : Prop :=
  state_well_formed st /\ Forall site_ready (sites_of st).

(** Field [f] of the site where it has one of its own, [d] where not *)
Definition own_or (f : string) (site : props) (d : val) : val :=
  if has_own f site then obj_get f site else d.

(** [sd] holds the five site fields of [site] *)
Definition site_data_of (site sd : props) : Prop :=
  obj_get "location" sd = own_or "location" site (JStr "") /\
  obj_get "title" sd = own_or "title" site (JStr "") /\
  obj_get "customTitle" sd = own_or "customTitle" site (JStr "") /\
  obj_get "lastAccessedTime" sd = own_or "lastAccessedTime" site (JNum 0) /\
  obj_get "creationTime" sd = own_or "creationTime" site (JNum 0).

(** The five site fields of [site] and nothing else *)
Definition site_fields (site : props) : props :=
  [ ("location", own_or "location" site (JStr ""));
    ("title", own_or "title" site (JStr ""));
    ("customTitle", own_or "customTitle" site (JStr ""));
    ("lastAccessedTime", own_or "lastAccessedTime" site (JNum 0));
    ("creationTime", own_or "creationTime" site (JNum 0)) ].

(** The [bookmark] value of a record for [site] with site data [sd] *)
Definition bookmark_record (site sd : props) (folder : bool) : val :=
  JObject [ ("site", JObject sd);
            ("isFolder", JBool folder);
            ("folderId", js_or (obj_get "folderId" site) (JNum 0));
            ("parentFolderId", js_or (obj_get "parentFolderId" site) (JNum 0)) ].

(** For each site without an id that is tagged as a bookmark, in order: the
    id request and the message the scan produces under device id [device],
    the first id read at position [p] of the random source. *)
Fixpoint backfill_trace (CATEGORY_MAP : props) (CREATE device : val)
    (source : nat -> byte) (p i : nat) (l : list (option props))
  : list (app_action * (message * list val)) :=
  match l with
  | [] => []
  | site :: r =>
      match site with
      | Some s =>
          if unsynced_bookmark site then
            ( setObjectId_request (bytes_at source p 16)
                [JStr "sites"; JNum (Z.of_nat i)],
              single_record_message CATEGORY_MAP CREATE device
                (array_of_bytes (bytes_at source p 16)) "bookmark"
                (bookmark_record s (site_fields s)
                   (has_tag "bookmark-folder" s)) )
            :: backfill_trace CATEGORY_MAP CREATE device source
                 (p + 16) (S i) r
          else backfill_trace CATEGORY_MAP CREATE device source p (S i) r
      | None => backfill_trace CATEGORY_MAP CREATE device source p (S i) r
      end
  end.

(** The runtime runs the callback given to [setInterval], which is [poll],
    once for each element of [ts], the clock reading that time when it
    does.  When it does so is the runtime's matter: nominally one period
    after the other. *)
Fixpoint callbacks_at (categoryNames : list string) (ts : list Z) : M unit :=
  match ts with
  | [] => ret tt
  | t :: r => modify (with_clock t) ;; poll categoryNames ;;
              callbacks_at categoryNames r
  end.

(** The times before each of the runs at [ts] that follow one at [t0] *)
Fixpoint times_before (t0 : Z) (ts : list Z) : list Z :=
  match ts with
  | [] => []
  | t :: r => t0 :: times_before t r
  end.

(** ** Sample data *)

Definition sample_entropy (n : nat) : byte :=
  match Byte.of_nat n with Some b => b | None => x00 end.

Definition sample_bytes : list byte :=
  [ x00; x01; x7f; x80; xff; x10; x20; x30;
    x40; x50; x60; x70; x0a; x0b; x0c; x0d ].

Definition sample_id : val := array_of_bytes (map sample_entropy (seq 100 16)).

Definition sample_device : val := JArray [JNum 7; JNum 7; JNum 7].

Definition sample_host : val := JStr "https?://a.example".

Definition sample_CATEGORY_MAP : props :=
  [ ("bookmark", JStr "BOOKMARKS"); ("historySite", JStr "HISTORY_SITES");
    ("siteSetting", JStr "PREFERENCES"); ("device", JStr "PREFERENCES") ].

Definition sample_categoryNames : list string :=
  [ "BOOKMARKS"; "HISTORY_SITES"; "PREFERENCES" ].

(** A record as the sync library hands it over, its ids still buffers *)
Definition sample_record : props :=
  [ ("action", JNum 0);
    ("deviceId", JUint8Array [x07]);
    ("objectId", JUint8Array sample_bytes);
    ("bookmark", JObject [("site", JObject [("location", JStr "https://b.example/")]);
                          ("isFolder", JBool false)]) ].

(** Sites *)
Definition sample_bookmark : props :=
  [ ("location", JStr "https://b.example/");
    ("tags", JArray [JStr "bookmark"]);
    ("objectId", sample_id) ].

Definition sample_new_bookmark : props :=
  [ ("location", JStr "https://b.example/");
    ("title", JStr "B");
    ("tags", JArray [JStr "bookmark"]) ].

Definition sample_new_bookmark_site : props :=
  [ ("location", JStr "https://b.example/");
    ("tags", JArray [JStr "bookmark"]) ].

Definition sample_bookmark_and_folder : props :=
  [ ("location", JStr "https://d.example/");
    ("tags", JArray [JStr "bookmark"; JStr "bookmark-folder"]);
    ("objectId", sample_id) ].

Definition sample_pinned_site : props :=
  [ ("location", JStr "https://p.example/");
    ("tags", JArray [JStr "pinned"]);
    ("objectId", sample_id) ].

(** Site settings *)
Definition sample_setting_unknown_adControl : props :=
  [ ("adControl", JStr "blockEverything"); ("objectId", sample_id) ].

Definition sample_setting_inherited_name : props :=
  [ ("valueOf", JNum 1); ("objectId", sample_id) ].

(** Actions *)
Definition sample_setting_action : action :=
  {| actionType := SYNC_ADD_SITE_SETTING;
     action_item := ImmMap sample_setting_unknown_adControl;
     hostPattern := sample_host |}.

Definition sample_pinned_action : action :=
  {| actionType := SYNC_ADD_SITE;
     action_item := ImmMap sample_pinned_site;
     hostPattern := JUndefined |}.

(** States: a history entry, an empty slot, a bookmark without an id and a
    folder with one; two settings, the second without any schema field *)
Definition sample_state : app_state :=
  {| sites := Some [ Some [("location", JStr "https://a.example/")];
                     None;
                     Some sample_new_bookmark_site;
                     Some [("location", JStr "https://c.example/");
                           ("tags", JArray [JStr "bookmark-folder"]);
                           ("objectId", sample_id)] ];
     siteSettings := Some [ ("https?://a.example", [("zoomLevel", JNum 2)]);
                            ("https?://b.example", [("flash", JNum 1)]) ];
     lastFetchTimestamp := JNum 1480000000 |}.

Definition sample_world (device : val) : world :=
  {| deviceId := device; startAt := JUndefined; pollIntervalId := None;
     registered := 0; handlers := []; appState := sample_state;
     entropy := sample_entropy; drawn := 0; clock := 1480000123456;
     dispatched := []; channel := []; console := [] |}.


(** ** More sample data *)

Definition sample_plain_site : props :=
  [ ("location", JStr "https://e.example/");
    ("title", JStr "E");
    ("tags", JArray [JStr "bookmark"]);
    ("objectId", sample_id);
    ("favicon", JStr "https://e.example/favicon.ico") ].

Definition sample_setting_known : props :=
  [ ("adControl", JStr "allowAdsAndTracking");
    ("cookieControl", JStr "allowAllCookies");
    ("zoomLevel", JNum 3);
    ("flash", JNum 1);
    ("objectId", sample_id) ].

(** The write action [doAction] uses for a site action *)
Definition site_write (CREATE UPDATE DELETE : val) (t : action_type)
  : option val :=
  match t with
  | SYNC_ADD_SITE => Some CREATE
  | SYNC_UPDATE_SITE => Some UPDATE
  | SYNC_REMOVE_SITE => Some DELETE
  | _ => None
  end.

Definition sample_remove_action : action :=
  {| actionType := SYNC_REMOVE_SITE;
     action_item := ImmMap sample_plain_site;
     hostPattern := JUndefined |}.

Definition sample_history_site : props :=
  [ ("location", JStr "https://h.example/"); ("objectId", sample_id) ].

Definition sample_history_action : action :=
  {| actionType := SYNC_ADD_SITE;
     action_item := ImmMap sample_history_site;
     hostPattern := JUndefined |}.

Definition sample_unsyncable_setting_action : action :=
  {| actionType := SYNC_UPDATE_SITE_SETTING;
     action_item := ImmMap [("flash", JNum 1); ("objectId", sample_id)];
     hostPattern := sample_host |}.

Definition sample_clear_action (t : action_type) : action :=
  {| actionType := t;
     action_item := ImmMap [("objectId", sample_id)];
     hostPattern := JUndefined |}.

(** ** Vocabulary of the lookups and of the bootstrap *)

Definition is_primitive (v : val) : bool :=
  match v with
  | JArray _ | JUint8Array _ | JObject _ => false
  | _ => true
  end.

(** A site of the state that is there and whose id, if it has one, is a
    collection *)
Definition site_with_list_id (site : option props) : Prop :=
  exists s, site = Some s /\
            (truthy (obj_get "objectId" s) = false \/
             (exists xs, obj_get "objectId" s = JArray xs) \/
             (exists o, obj_get "objectId" s = JObject o)).

(** The device id is [null] or established *)
Definition device_id_settled (w : world) : Prop :=
  deviceId w = JNull \/ truthy (deviceId w) = true.

(** The pair sent back for one record *)
Definition resolved_pair (record : props) (existing : val) : val :=
  JArray [JObject (ipcSafeObject record); existing].

(** The constructor [new Immutable.List(v)] on what records hold as ids:
    nothing, an array or a byte buffer *)
Definition sample_Immutable_List (v : val) : result (list val) :=
  match v with
  | JUndefined | JNull => Ok []
  | JArray xs => Ok xs
  | JUint8Array bs => Ok (map byte_num bs)
  | _ => Throw TypeError
  end.

(** [Array.from(v)] on an array or a byte buffer *)
Definition sample_Array_from (v : val) : result (list val) :=
  match v with
  | JArray xs => Ok xs
  | JUint8Array bs => Ok (map byte_num bs)
  | _ => Ok []
  end.

Definition sample_ids : list val := map byte_num (map sample_entropy (seq 100 16)).

Definition sample_incoming : props :=
  [ ("action", JNum 1); ("objectId", JArray sample_ids);
    ("bookmark", JObject [("isFolder", JBool true)]) ].

Definition sample_unknown_incoming : props :=
  [ ("action", JNum 0); ("objectId", JArray [JNum 1; JNum 2; JNum 3]) ].

Definition sample_config : props :=
  [ ("enabled", JBool true); ("fetchInterval", JNum 60000) ].


(** A profile whose sites are all there: a history entry without an id and
    the folder bookmark that has one *)
Definition sample_lookup_sites : list (option props) :=
  [ Some [("location", JStr "https://a.example/")];
    Some [("location", JStr "https://c.example/");
          ("tags", JArray [JStr "bookmark-folder"]);
          ("objectId", sample_id)] ].

Definition sample_lookup_world : world :=
  {| deviceId := sample_device; startAt := JUndefined; pollIntervalId := None;
     registered := 0; handlers := [];
     appState := {| sites := Some sample_lookup_sites;
                    siteSettings := Some [ ("https?://a.example", [("zoomLevel", JNum 2)]) ];
                    lastFetchTimestamp := JNum 1480000000 |};
     entropy := sample_entropy; drawn := 0; clock := 1480000123456;
     dispatched := []; channel := []; console := [] |}.


(** The value of an answer, [undefined] standing for none *)
Definition answer_value (r : result val) : val :=
  match r with Ok v => v | Throw _ => JUndefined end.


(** A profile with a site setting that has an id *)
Definition sample_settings_with_id : list (string * props) :=
  [ ("https?://a.example", [("zoomLevel", JNum 2)]);
    ("https?://b.example", [("adControl", JStr "blockAds");
                            ("objectId", sample_id)]) ].

Definition sample_settings_world : world :=
  {| deviceId := sample_device; startAt := JUndefined; pollIntervalId := None;
     registered := 0; handlers := [];
     appState := {| sites := Some [];
                    siteSettings := Some sample_settings_with_id;
                    lastFetchTimestamp := JNum 1480000000 |};
     entropy := sample_entropy; drawn := 0; clock := 1480000123456;
     dispatched := []; channel := []; console := [] |}.


(** A bookmark with a field named [constructor], which [fromJS] does not
    convert, and the same tagged as pinned only *)
Definition sample_constructor_bookmark : props :=
  [ ("location", JStr "https://k.example/");
    ("constructor", JStr "K");
    ("tags", JArray [JStr "bookmark"]);
    ("objectId", sample_id) ].

Definition sample_constructor_pinned : props :=
  [ ("location", JStr "https://k.example/");
    ("constructor", JStr "K");
    ("tags", JArray [JStr "pinned"]);
    ("objectId", sample_id) ].


(** The same profile with a bookmark that has a field named [constructor] *)
Definition sample_lookup_constructor_sites : list (option props) :=
  [ Some [("location", JStr "https://a.example/")];
    Some sample_constructor_bookmark ].

Definition sample_lookup_constructor_world : world :=
  {| deviceId := sample_device; startAt := JUndefined; pollIntervalId := None;
     registered := 0; handlers := [];
     appState := {| sites := Some sample_lookup_constructor_sites;
                    siteSettings := Some [];
                    lastFetchTimestamp := JNum 1480000000 |};
     entropy := sample_entropy; drawn := 0; clock := 1480000123456;
     dispatched := []; channel := []; console := [] |}.


(** * Properties *)

(** ** Objects as property lists *)

Lemma obj_get_absent (k : string) (o : props) :
  has_own k o = false -> obj_get k o = JUndefined.
Proof.
  induction o as [|[k' v] r IH]; simpl; [reflexivity|].
  destruct (k =? k'); simpl; [discriminate | exact IH].
Qed.

Lemma has_own_keys (k : string) (o : props) :
  has_own k o = true <-> In k (keys o).
Proof.
  induction o as [|[k' v] r IH]; simpl.
  - split; [discriminate | tauto].
  - rewrite orb_true_iff, IH, String.eqb_eq. split; intros [H|H]; auto.
Qed.

Lemma obj_get_set_same (k : string) (v : val) (o : props) :
  obj_get k (obj_set k v o) = v.
Proof.
  induction o as [|[k' v'] r IH]; simpl.
  - now rewrite String.eqb_refl.
  - destruct (k =? k') eqn:E; simpl.
    + now rewrite String.eqb_refl.
    + now rewrite E.
Qed.

Lemma obj_get_set_other (k k' : string) (v : val) (o : props) :
  k <> k' -> obj_get k (obj_set k' v o) = obj_get k o.
Proof.
  intros Hne. induction o as [|[k0 v0] r IH]; simpl.
  - apply String.eqb_neq in Hne. now rewrite Hne.
  - destruct (k' =? k0) eqn:E; simpl.
    + apply String.eqb_eq in E. subst k0.
      apply String.eqb_neq in Hne. now rewrite Hne.
    + now rewrite IH.
Qed.

(** Writing an existing property keeps the list of names; a new name goes
    last. *)
Lemma keys_obj_set (k : string) (v : val) (o : props) :
  keys (obj_set k v o) = if has_own k o then keys o else (keys o ++ [k])%list.
Proof.
  induction o as [|[k' v'] r IH]; simpl; [reflexivity|].
  destruct (k =? k') eqn:E; simpl.
  - apply String.eqb_eq in E. now subst.
  - rewrite IH. now destruct (has_own k r).
Qed.

Lemma has_own_set (k k' : string) (v : val) (o : props) :
  has_own k (obj_set k' v o) = (k =? k') || has_own k o.
Proof.
  induction o as [|[k0 v0] r IH]; simpl.
  - now rewrite orb_false_r.
  - destruct (k' =? k0) eqn:E; simpl.
    + apply String.eqb_eq in E. subst k0.
      now destruct (k =? k'); simpl.
    + rewrite IH. destruct (k =? k0), (k =? k'); reflexivity.
Qed.

(** [Object.assign({}, o)] is [o] again when [o] names each property once. *)
Lemma Object_assign_onto (t o : props) :
  NoDup (keys o) -> (forall k, In k (keys o) -> has_own k t = false) ->
  Object_assign t o = (t ++ o)%list.
Proof.
  unfold Object_assign. revert t.
  induction o as [|[k v] r IH]; intros t Hnd Hfresh; simpl.
  - now rewrite app_nil_r.
  - inversion Hnd as [|? ? Hk Hr]; subst.
    assert (Hset : obj_set k v t = (t ++ [(k, v)])%list).
    { assert (Ht : has_own k t = false) by (apply Hfresh; now left).
      clear - Ht. induction t as [|[k0 v0] t IHt]; simpl in *; [reflexivity|].
      apply orb_false_iff in Ht as [E Ht]. rewrite E. now rewrite IHt. }
    rewrite Hset, IH; [now rewrite <- app_assoc | exact Hr |].
    intros k0 Hin.
    assert (Hk0 : has_own k0 (t ++ [(k, v)])%list = false).
    { assert (Ht : has_own k0 t = false) by (apply Hfresh; now right).
      assert (Hne : (k0 =? k) = false).
      { apply String.eqb_neq. intros ->. now apply Hk. }
      clear - Ht Hne. induction t as [|[k1 v1] t IHt]; simpl in *.
      - now rewrite Hne.
      - apply orb_false_iff in Ht as [E Ht]. rewrite E. now apply IHt. }
    exact Hk0.
Qed.

Lemma Object_assign_copy (o : props) :
  NoDup (keys o) -> Object_assign [] o = o.
Proof.
  intros Hnd. now rewrite Object_assign_onto.
Qed.

(** ** Transport-safe copies *)

Lemma obj_get_arrayified (k : string) (o : props) :
  obj_get k (deepArrayify o) = arrayify_field (obj_get k o).
Proof.
  unfold deepArrayify.
  induction o as [|[k' v] r IH]; simpl; [reflexivity|].
  now destruct (k =? k').
Qed.

Lemma get_path_undefined (path : list string) :
  get_path path JUndefined = JUndefined.
Proof. now destruct path. Qed.

Lemma get_path_arrayified (path : list string) (v : val) :
  get_path path v = JUndefined \/
  get_path path (arrayify_field v) = arrayify_field (get_path path v).
Proof.
  revert v. induction path as [|k r IH]; intros v; simpl.
  - now right.
  - destruct v; simpl; auto.
    fold (deepArrayify props0). rewrite obj_get_arrayified. apply IH.
Qed.

Lemma arrayify_field_idempotent (v : val) :
  arrayify_field (arrayify_field v) = arrayify_field v.
Proof.
  induction v as [| | | | |xs _|bs|o IH] using val_ind; simpl; try reflexivity.
  f_equal. rewrite map_map. simpl.
  induction IH as [|[k x] r Hx _ IHr]; simpl; [reflexivity|].
  simpl in Hx. now rewrite Hx, IHr.
Qed.

(** C3.  A byte buffer found in a record, directly or through nested
    objects, comes out of [ipcSafeObject] as the plain array of the same
    numbers in the same order (so sixteen of them for a 16-byte buffer), and
    converting twice gives what converting once gives. *)
Theorem ipcSafeObject_arrayifies_and_is_idempotent :
  (forall (record : props) (path : list string) (bs : list byte),
      get_path path (JObject record) = JUint8Array bs ->
      get_path path (JObject (ipcSafeObject record))
        = JArray (map byte_num bs) /\
      List.length (map byte_num bs) = List.length bs) /\
  (forall object : props,
      ipcSafeObject (ipcSafeObject object) = ipcSafeObject object).
Proof.
  split.
  - intros record path bs H. split; [|apply length_map].
    destruct (get_path_arrayified path (JObject record)) as [Hu|Hp].
    + rewrite Hu in H. discriminate.
    + simpl in Hp. unfold ipcSafeObject, deepArrayify. rewrite Hp, H.
      reflexivity.
  - intros object. unfold ipcSafeObject, deepArrayify.
    rewrite map_map. apply map_ext. intros [k v]. simpl.
    now rewrite arrayify_field_idempotent.
Qed.

Lemma ipcSafeObject_arrayifies_witness :
  get_path ["objectId"] (JObject sample_record) = JUint8Array sample_bytes /\
  get_path ["objectId"] (JObject (ipcSafeObject sample_record))
    = JArray (map byte_num sample_bytes) /\
  List.length (map byte_num sample_bytes) = 16%nat.
Proof.
  split; [reflexivity|].
  split.
  - apply (proj1 ipcSafeObject_arrayifies_and_is_idempotent
             sample_record ["objectId"] sample_bytes).
    reflexivity.
  - reflexivity.
Defined.

(** ** The object-id registry *)

Ltac run :=
  cbv [bind ret throw lift get_world modify dispatch send console_log log
       randomBytes now newObjectId objectId_or_new] in *.

Lemma objectId_or_new_present (o : props) (path : list val) (w : world) :
  truthy (obj_get "objectId" o) = true ->
  objectId_or_new o path w = (Ok (obj_get "objectId" o), w).
Proof.
  intros H. unfold objectId_or_new. now rewrite H.
Qed.

(** C4.  An object that carries an id keeps it: [setObjectId] answers the
    very same item, the [objectId || newObjectId(...)] of the builders answers
    the id it found, and neither draws random bytes nor issues a request, the
    state being left as it was.  A second [setObjectId] on the outcome of a
    first one changes nothing either. *)
Theorem object_id_assignment_idempotent :
  (forall (o : props) (w : world),
      truthy (obj_get "objectId" o) = true ->
      setObjectId (ImmMap o) w = (Ok (Some (ImmMap o)), w)) /\
  (forall (o : props) (path : list val) (w : world),
      truthy (obj_get "objectId" o) = true ->
      objectId_or_new o path w = (Ok (obj_get "objectId" o), w)) /\
  (forall (o : props) (w w1 : world) (it : item),
      setObjectId (ImmMap o) w = (Ok (Some it), w1) ->
      setObjectId it w1 = (Ok (Some it), w1)).
Proof.
  split; [|split].
  - intros o w H. unfold setObjectId. now rewrite H.
  - intros o path w H. now apply objectId_or_new_present.
  - intros o w w1 it H. unfold setObjectId in H.
    destruct (truthy (obj_get "objectId" o)) eqn:E.
    + run. inversion H; subst. unfold setObjectId. now rewrite E.
    + run. inversion H; subst. unfold setObjectId.
      now rewrite obj_get_set_same.
Qed.

Lemma object_id_assignment_witness :
  truthy (obj_get "objectId" sample_bookmark) = true /\
  setObjectId (ImmMap sample_bookmark) (sample_world sample_device)
    = (Ok (Some (ImmMap sample_bookmark)), sample_world sample_device) /\
  objectId_or_new sample_bookmark [JStr "sites"; JNum 2]
      (sample_world sample_device)
    = (Ok sample_id, sample_world sample_device) /\
  setObjectId (ImmMap [("location", JStr "https://a.example/")])
      (sample_world sample_device)
    = (Ok (Some (ImmMap [("location", JStr "https://a.example/");
                         ("objectId", array_of_bytes
                                        (map sample_entropy (seq 0 16)))])),
       with_drawn 16 (sample_world sample_device)) /\
  setObjectId (ImmMap [("location", JStr "https://a.example/");
                       ("objectId", array_of_bytes
                                      (map sample_entropy (seq 0 16)))])
      (with_drawn 16 (sample_world sample_device))
    = (Ok (Some (ImmMap [("location", JStr "https://a.example/");
                         ("objectId", array_of_bytes
                                        (map sample_entropy (seq 0 16)))])),
       with_drawn 16 (sample_world sample_device)).
Proof.
  destruct object_id_assignment_idempotent as (H1 & H2 & H3).
  split; [reflexivity|].
  split; [apply H1; reflexivity|].
  split; [apply (H2 sample_bookmark); reflexivity|].
  split; [reflexivity|].
  apply (H3 [("location", JStr "https://a.example/")]
            (sample_world sample_device)).
  reflexivity.
Defined.

(** ** Sending needs a device id *)

Lemma sendSyncRecords_refuses_deviceId (CATEGORY_MAP : props) (action : val)
    (data : list (option record_data)) (w : world) :
  truthy (deviceId w) = false ->
  sendSyncRecords CATEGORY_MAP action data w
  = (Throw (Error "Cannot build a sync record because deviceId is not set"), w).
Proof.
  intros H. unfold sendSyncRecords. run. now rewrite H.
Qed.

(** C2.  While [deviceId] is [null] (or anything falsy), [sendSyncRecords]
    throws whatever the action and the records are, and leaves the channel,
    like the rest of the state, untouched; put the other way round, a call
    that did put something on the channel ran with an established device
    id. *)
Theorem sendSyncRecords_refuses_without_deviceId
    (CATEGORY_MAP : props) (action : val) (data : list (option record_data))
    (w : world) :
  (truthy (deviceId w) = false ->
   sendSyncRecords CATEGORY_MAP action data w
     = (Throw (Error "Cannot build a sync record because deviceId is not set"),
        w)) /\
  (channel (snd (sendSyncRecords CATEGORY_MAP action data w)) <> channel w ->
   truthy (deviceId w) = true).
Proof.
  unfold sendSyncRecords. run.
  destruct (truthy (deviceId w)) eqn:E; simpl.
  - split; [discriminate | reflexivity].
  - split; [reflexivity | intros H; now elim H].
Qed.

Lemma sendSyncRecords_refuses_witness :
  truthy (deviceId (sample_world JNull)) = false /\
  sendSyncRecords sample_CATEGORY_MAP (JNum 0)
      [Some {| name := "device"; objectId := sample_id;
               value := JObject [("name", JStr "browser-laptop")] |}]
      (sample_world JNull)
    = (Throw (Error "Cannot build a sync record because deviceId is not set"),
       sample_world JNull) /\
  truthy (deviceId (sample_world sample_device)) = true.
Proof.
  split; [reflexivity|].
  split.
  - apply (proj1 (sendSyncRecords_refuses_without_deviceId
                    sample_CATEGORY_MAP (JNum 0) _ (sample_world JNull))).
    reflexivity.
  - apply (proj2 (sendSyncRecords_refuses_without_deviceId
                    sample_CATEGORY_MAP (JNum 0)
                    [Some {| name := "device"; objectId := sample_id;
                             value := JObject [("name", JStr "browser-laptop")] |}]
                    (sample_world sample_device))).
    simpl. discriminate.
Defined.

(** ** The enum tables *)

Lemma member_named (table : props) (k : string) :
  inherited k = false -> member table (JStr k) = Ok (obj_get k table).
Proof.
  intros H. unfold member. simpl. rewrite H.
  destruct (has_own k table) eqn:E; [reflexivity|].
  now rewrite obj_get_absent.
Qed.

(** C6.  The table of [createSiteSettingsData] sends ["blockAds"] to [1], the
    table read backwards sends [1] to ["blockAds"], and reading backwards
    after reading forwards gives back each of the three names the table
    knows. *)
Theorem adControl_round_trip :
  member adControlEnum (JStr "blockAds") = Ok (JNum 1) /\
  adControl_inverse (JNum 1) = JStr "blockAds" /\
  Forall (fun s => exists code,
              member adControlEnum (JStr s) = Ok code /\
              adControl_inverse code = JStr s)
         (keys adControlEnum) /\
  (exists value,
      siteSettings_value (JStr "https?://a.example")
        [("adControl", JStr "blockAds")] = Ok value /\
      obj_get "adControl" value = JNum 1 /\
      adControl_inverse (obj_get "adControl" value) = JStr "blockAds").
Proof.
  split; [reflexivity|].
  split; [reflexivity|].
  split.
  - repeat constructor.
    + exists (JNum 0). now split.
    + exists (JNum 1). now split.
    + exists (JNum 2). now split.
  - eexists. split; [reflexivity|]. now split.
Qed.

(** ** The loop over the fields of a site setting *)

Lemma initial_value_assigned (hostPattern : val) :
  Object_assign (Object_assign [] siteSettingDefaults)
                [("hostPattern", hostPattern)]
  = initial_value hostPattern.
Proof. reflexivity. Qed.

Lemma copy_setting_field_step (setting value : props) (field : string) :
  copy_setting_field setting (Ok value) field
  = if is_enum_field field || js_in field value
    then match assigned setting field with
         | Ok x => Ok (obj_set field x value)
         | Throw e => Throw e
         end
    else Ok value.
Proof.
  unfold copy_setting_field, is_enum_field, assigned.
  destruct (field =? "adControl") eqn:Ea.
  - apply String.eqb_eq in Ea. now subst.
  - destruct (field =? "cookieControl") eqn:Ec.
    + apply String.eqb_eq in Ec. now subst.
    + simpl. now destruct (js_in field value).
Qed.

Lemma settings_loop_throw (setting : props) (ks : list string) (e : exn) :
  fold_left (copy_setting_field setting) ks (Throw e) = Throw e.
Proof. induction ks as [|k r IH]; simpl; [reflexivity | exact IH]. Qed.

(** A field the loop never meets keeps its value. *)
Lemma settings_loop_keeps (setting : props) (f : string) :
  forall (ks : list string) (v0 v' : props),
    fold_left (copy_setting_field setting) ks (Ok v0) = Ok v' ->
    ~ In f ks -> obj_get f v' = obj_get f v0.
Proof.
  induction ks as [|k r IH]; intros v0 v' H Hnin; cbn [fold_left] in H.
  - now inversion H.
  - rewrite copy_setting_field_step in H.
    assert (Hne : f <> k) by (intros ->; apply Hnin; now left).
    assert (Hr : ~ In f r) by (intros Hin; apply Hnin; now right).
    destruct (is_enum_field k || js_in k v0).
    + destruct (assigned setting k) as [x|e].
      * rewrite (IH _ _ H Hr). now apply obj_get_set_other.
      * rewrite settings_loop_throw in H. discriminate.
    + exact (IH _ _ H Hr).
Qed.

(** A field of [value] that the input has too ends up with what the loop
    writes for it. *)
Lemma settings_loop_writes (setting : props) (f : string) (x : val) :
  assigned setting f = Ok x ->
  forall (ks : list string) (v0 v' : props),
    fold_left (copy_setting_field setting) ks (Ok v0) = Ok v' ->
    In f ks -> has_own f v0 = true -> obj_get f v' = x.
Proof.
  intros Hx. induction ks as [|k r IH]; intros v0 v' H Hin Hown; cbn [fold_left In] in *.
  - contradiction.
  - rewrite copy_setting_field_step in H.
    destruct (in_dec string_dec f r) as [Hr|Hr].
    + destruct (is_enum_field k || js_in k v0).
      * destruct (assigned setting k) as [y|e].
        -- apply (IH _ _ H Hr). rewrite has_own_set, Hown. apply orb_true_r.
        -- rewrite settings_loop_throw in H. discriminate.
      * exact (IH _ _ H Hr Hown).
    + destruct Hin as [->|Hin]; [|contradiction].
      assert (Hin' : js_in f v0 = true) by (unfold js_in; now rewrite Hown).
      rewrite Hin', orb_true_r, Hx in H.
      rewrite (settings_loop_keeps _ _ _ _ _ H Hr). apply obj_get_set_same.
Qed.

(** Unless the input has a field named like a member of [Object.prototype],
    the loop adds no property to [value]. *)
Lemma settings_loop_keys (setting : props) :
  forall (ks : list string) (v0 v' : props),
    fold_left (copy_setting_field setting) ks (Ok v0) = Ok v' ->
    (forall k, In k ks -> inherited k = false) ->
    has_own "adControl" v0 = true -> has_own "cookieControl" v0 = true ->
    keys v' = keys v0.
Proof.
  induction ks as [|k r IH]; intros v0 v' H Hinh Ha Hc; cbn [fold_left] in H.
  - now inversion H.
  - rewrite copy_setting_field_step in H.
    assert (Hown : is_enum_field k || js_in k v0 = true -> has_own k v0 = true).
    { unfold is_enum_field, js_in. rewrite (Hinh k (or_introl eq_refl)).
      rewrite orb_false_r. intros Hk.
      apply orb_true_iff in Hk as [Hk|Hk]; [|exact Hk].
      apply orb_true_iff in Hk as [Hk|Hk]; apply String.eqb_eq in Hk;
        now subst. }
    destruct (is_enum_field k || js_in k v0) eqn:E.
    + destruct (assigned setting k) as [x|e].
      * assert (Hk : keys (obj_set k x v0) = keys v0).
        { rewrite keys_obj_set. now rewrite (Hown eq_refl). }
        rewrite <- Hk. apply (IH _ _ H).
        -- intros k' Hin. apply Hinh. now right.
        -- rewrite has_own_set, Ha. apply orb_true_r.
        -- rewrite has_own_set, Hc. apply orb_true_r.
      * rewrite settings_loop_throw in H. discriminate.
    + apply (IH _ _ H); auto. intros k' Hin. apply Hinh. now right.
Qed.

(** The loop goes through when the two enum fields, where present, hold
    strings that [Object.prototype] does not know. *)
Lemma settings_loop_returns (setting : props) :
  (exists a, assigned setting "adControl" = Ok a) ->
  (exists c, assigned setting "cookieControl" = Ok c) ->
  forall (ks : list string) (v0 : props),
    exists v', fold_left (copy_setting_field setting) ks (Ok v0) = Ok v'.
Proof.
  intros [a Ha] [c Hc]. induction ks as [|k r IH]; intros v0; cbn [fold_left].
  - now exists v0.
  - rewrite copy_setting_field_step.
    destruct (is_enum_field k || js_in k v0); [|apply IH].
    assert (Hk : exists x, assigned setting k = Ok x).
    { unfold assigned in *.
      destruct (k =? "adControl"); [now exists a|].
      destruct (k =? "cookieControl"); [now exists c|].
      now eexists. }
    destruct Hk as [x Hk]. rewrite Hk. apply IH.
Qed.

Lemma enum_field_assigned (setting : props) (field : string) (table : props) :
  (field = "adControl" /\ table = adControlEnum) \/
  (field = "cookieControl" /\ table = cookieControlEnum) ->
  enum_field_ok setting field ->
  exists x, assigned setting field = Ok x /\
            (forall s, obj_get field setting = JStr s -> x = obj_get s table).
Proof.
  intros Hf [Habs|(s & Hs & Hinh)].
  - apply obj_get_absent in Habs.
    destruct Hf as [[-> ->]|[-> ->]]; unfold assigned; simpl; rewrite Habs;
      (eexists; split; [reflexivity | discriminate]).
  - exists (obj_get s table).
    destruct Hf as [[-> ->]|[-> ->]]; unfold assigned; simpl; rewrite Hs;
      (split; [now apply member_named | now intros s' [= ->]]).
Qed.

Lemma siteSettings_value_returns (hostPattern : val) (setting : props) :
  enum_field_ok setting "adControl" ->
  enum_field_ok setting "cookieControl" ->
  exists value, siteSettings_value hostPattern setting = Ok value.
Proof.
  intros Ha Hc. unfold siteSettings_value.
  destruct (enum_field_assigned setting "adControl" adControlEnum
              (or_introl (conj eq_refl eq_refl)) Ha) as (a & Ea & _).
  destruct (enum_field_assigned setting "cookieControl" cookieControlEnum
              (or_intror (conj eq_refl eq_refl)) Hc) as (c & Ec & _).
  apply settings_loop_returns; eauto.
Qed.

(** ** Dispatching a site setting *)

Lemma isSyncable_siteSetting (setting : props) (field : string) :
  In field schema_fields -> has_own field setting = true ->
  isSyncable "siteSetting" setting = Ok true.
Proof.
  intros Hin Hown. unfold isSyncable.
  change ("siteSetting" =? "bookmark") with false.
  change ("siteSetting" =? "siteSetting") with true.
  cbn [andb]. f_equal.
  apply existsb_exists. exists field. now split.
Qed.

Lemma sendSyncRecords_single (CATEGORY_MAP : props) (action : val)
    (d : record_data) (w : world) :
  truthy (deviceId w) = true -> inherited (name d) = false ->
  name d <> "" -> truthy (value d) = true ->
  has_own (name d) [("action", action); ("deviceId", deviceId w);
                    ("objectId", objectId d)] = false ->
  sendSyncRecords CATEGORY_MAP action [Some d] w
  = (Ok tt,
     with_channel
       (channel w ++ [single_record_message CATEGORY_MAP action (deviceId w)
                        (objectId d) (name d) (value d)]) w).
Proof.
  intros Hdev Hinh Hname Hval Hfresh.
  unfold sendSyncRecords. run. rewrite Hdev. simpl.
  rewrite member_named by exact Hinh. simpl.
  apply String.eqb_neq in Hname. rewrite Hname, Hval. simpl.
  simpl in Hfresh.
  apply orb_false_iff in Hfresh as [E1 Hfresh].
  apply orb_false_iff in Hfresh as [E2 Hfresh].
  apply orb_false_iff in Hfresh as [E3 _].
  now rewrite E1, E2, E3.
Qed.

Lemma doAction_site_setting (CATEGORY_MAP : props) (CREATE UPDATE DELETE : val)
    (a : action) (setting value : props) (act : val) (w : world) :
  action_item a = ImmMap setting ->
  setting_write CREATE UPDATE DELETE (actionType a) = Some act ->
  truthy (deviceId w) = true ->
  truthy (obj_get "objectId" setting) = true ->
  isSyncable "siteSetting" setting = Ok true ->
  siteSettings_value (hostPattern a) setting = Ok value ->
  doAction CATEGORY_MAP CREATE UPDATE DELETE a w
  = (Ok tt,
     with_channel
       (channel w ++ [single_record_message CATEGORY_MAP act (deviceId w)
                        (obj_get "objectId" setting) "siteSetting"
                        (JObject value)]) w).
Proof.
  intros Hitem Hact Hdev Hid Hsync Hvalue.
  assert (Hbuild : createSiteSettingsData (hostPattern a) setting w
                   = (Ok {| name := "siteSetting";
                            objectId := obj_get "objectId" setting;
                            value := JObject value |}, w)).
  { unfold createSiteSettingsData, bind, lift. rewrite Hvalue.
    rewrite objectId_or_new_present by exact Hid. reflexivity. }
  unfold doAction. rewrite Hitem, Hid. simpl.
  destruct (actionType a); try discriminate; injection Hact as <-;
    unfold bind at 1; try (unfold lift; rewrite Hsync; unfold bind at 1);
    rewrite Hbuild; now apply sendSyncRecords_single.
Qed.

(** C5, as the code has it.  No step of record building checks an enum code.
    When [adControl] or [cookieControl] holds a string the table does not
    list (and [Object.prototype] does not know), building succeeds with that
    field [undefined], and [doAction], given a device id and an item with an
    id, sends the record so built. *)
Theorem unknown_enum_string_is_sent_undefined
    (CATEGORY_MAP : props) (CREATE UPDATE DELETE : val)
    (a : action) (setting : props) (act : val) (w : world)
    (field : string) (table : props) (s : string) :
  (field = "adControl" /\ table = adControlEnum) \/
  (field = "cookieControl" /\ table = cookieControlEnum) ->
  has_own field setting = true ->
  obj_get field setting = JStr s ->
  has_own s table = false ->
  enum_field_ok setting "adControl" ->
  enum_field_ok setting "cookieControl" ->
  action_item a = ImmMap setting ->
  setting_write CREATE UPDATE DELETE (actionType a) = Some act ->
  truthy (deviceId w) = true ->
  truthy (obj_get "objectId" setting) = true ->
  exists value,
    siteSettings_value (hostPattern a) setting = Ok value /\
    obj_get field value = JUndefined /\
    doAction CATEGORY_MAP CREATE UPDATE DELETE a w
    = (Ok tt,
       with_channel
         (channel w ++ [single_record_message CATEGORY_MAP act (deviceId w)
                          (obj_get "objectId" setting) "siteSetting"
                          (JObject value)]) w).
Proof.
  intros Hf Hown Hs Hunknown Ha Hc Hitem Hact Hdev Hid.
  destruct (siteSettings_value_returns (hostPattern a) setting Ha Hc)
    as [value Hvalue].
  assert (Hok : enum_field_ok setting field)
    by (destruct Hf as [[-> _]|[-> _]]; assumption).
  destruct (enum_field_assigned setting field table Hf Hok) as (x & Ex & Hx).
  assert (Hschema : In field schema_fields).
  { destruct Hf as [[-> _]|[-> _]]; simpl; tauto. }
  exists value. split; [exact Hvalue|]. split.
  - unfold siteSettings_value in Hvalue.
    rewrite initial_value_assigned in Hvalue.
    rewrite (settings_loop_writes setting field x Ex _ _ _ Hvalue).
    + rewrite (Hx s Hs). now apply obj_get_absent.
    + now apply has_own_keys.
    + destruct Hf as [[-> _]|[-> _]]; reflexivity.
  - apply doAction_site_setting; auto.
    now apply (isSyncable_siteSetting setting field).
Qed.

Lemma unknown_enum_string_witness :
  exists value,
    siteSettings_value sample_host sample_setting_unknown_adControl
      = Ok value /\
    obj_get "adControl" value = JUndefined /\
    doAction sample_CATEGORY_MAP (JNum 0) (JNum 1) (JNum 2)
      sample_setting_action (sample_world sample_device)
    = (Ok tt,
       with_channel
         [single_record_message sample_CATEGORY_MAP (JNum 0) sample_device
            sample_id "siteSetting" (JObject value)]
         (sample_world sample_device)).
Proof.
  apply (unknown_enum_string_is_sent_undefined
           sample_CATEGORY_MAP (JNum 0) (JNum 1) (JNum 2)
           sample_setting_action sample_setting_unknown_adControl (JNum 0)
           (sample_world sample_device)
           "adControl" adControlEnum "blockEverything").
  - left. split; reflexivity.
  - reflexivity.
  - reflexivity.
  - reflexivity.
  - right. exists "blockEverything". split; reflexivity.
  - left. reflexivity.
  - reflexivity.
  - reflexivity.
  - reflexivity.
  - reflexivity.
Defined.

(** C5 as the specification words it fails: here a setting whose [adControl]
    is no name of the table is built without an error and goes out on the
    channel with [adControl] undefined. *)
Lemma unknown_adControl_reaches_the_channel :
  obj_get "adControl" sample_setting_unknown_adControl
    = JStr "blockEverything" /\
  has_own "blockEverything" adControlEnum = false /\
  exists value,
    obj_get "adControl" value = JUndefined /\
    doAction sample_CATEGORY_MAP (JNum 0) (JNum 1) (JNum 2)
      sample_setting_action (sample_world sample_device)
    = (Ok tt,
       with_channel
         [ ( SEND_SYNC_RECORDS,
             [ JStr "PREFERENCES";
               JArray [ JObject [ ("action", JNum 0);
                                  ("deviceId", sample_device);
                                  ("objectId", sample_id);
                                  ("siteSetting", JObject value) ] ] ] ) ]
         (sample_world sample_device)).
Proof.
  split; [reflexivity|]. split; [reflexivity|].
  eexists. split; [|reflexivity]. reflexivity.
Qed.

(** ** The schema of a site-setting record *)

(** Apart from inputs with a field named like a member of
    [Object.prototype], the built [value] has the eleven schema fields and no
    other: a field of the input that the schema has is written (through the
    table for the two enums), and a schema field the input lacks keeps the
    default, [hostPattern] that of the argument. *)
Lemma createSiteSettingsData_schema (hostPattern : val) (setting : props)
    (r : record_data) (w w' : world) :
  createSiteSettingsData hostPattern setting w = (Ok r, w') ->
  (forall k, In k (keys setting) -> inherited k = false) ->
  exists fields,
    value r = JObject fields /\
    name r = "siteSetting" /\
    keys fields = schema_fields /\
    (forall f, In f schema_fields -> has_own f setting = false ->
               obj_get f fields = obj_get f (initial_value hostPattern)) /\
    (forall f x, In f schema_fields -> has_own f setting = true ->
                 assigned setting f = Ok x -> obj_get f fields = x).
Proof.
  intros H Hinh. unfold createSiteSettingsData, bind, lift in H.
  destruct (siteSettings_value hostPattern setting) as [fields|e] eqn:Hv;
    [|discriminate].
  destruct (objectId_or_new setting [JStr "siteSettings"; hostPattern] w)
    as [[id|e] w1] eqn:Hid; [|discriminate].
  unfold ret in H. injection H as <- <-.
  unfold siteSettings_value in Hv. rewrite initial_value_assigned in Hv.
  exists fields. split; [reflexivity|]. split; [reflexivity|]. split; [|split].
  - now rewrite (settings_loop_keys setting _ _ _ Hv Hinh).
  - intros f _ Habs. apply (settings_loop_keeps setting f _ _ _ Hv).
    intros Hin. apply has_own_keys in Hin. congruence.
  - intros f x Hf Hown Hx.
    apply (settings_loop_writes setting f x Hx _ _ _ Hv).
    + now apply has_own_keys.
    + apply has_own_keys. exact Hf.
Qed.

(** C10 at a failing input.  [field in value] is also true of the names
    every object inherits: a setting with a field [valueOf] gets that field
    copied, and the built [value] has twelve properties. *)
Theorem inherited_field_name_is_copied :
  exists value,
    createSiteSettingsData sample_host sample_setting_inherited_name
      (sample_world sample_device)
    = (Ok {| name := "siteSetting"; objectId := sample_id;
             value := JObject value |},
       sample_world sample_device) /\
    keys value = (schema_fields ++ ["valueOf"])%list /\
    obj_get "valueOf" value = JNum 1 /\
    ~ In "valueOf" schema_fields.
Proof.
  eexists. split; [reflexivity|]. split; [reflexivity|].
  split; [reflexivity|].
  simpl. intros H. repeat (destruct H as [H|H]; [discriminate|]). exact H.
Qed.

(** ** Sites and their tags *)

Lemma isSyncable_bookmark_tags (site : props) (ts : list val) :
  obj_get "tags" site = JArray ts ->
  isSyncable "bookmark" site
  = Ok (existsb (is_str "bookmark") ts || existsb (is_str "bookmark-folder") ts).
Proof.
  intros H. unfold isSyncable. rewrite H.
  change ("bookmark" =? "bookmark") with true. cbn [andb truthy imm_includes].
  now destruct (existsb (is_str "bookmark") ts).
Qed.

Lemma isSyncable_bookmark_no_tags (site : props) :
  truthy (obj_get "tags" site) = false ->
  isSyncable "bookmark" site = Ok false.
Proof.
  intros H. unfold isSyncable. rewrite H. reflexivity.
Qed.

Lemma array_length_truthy (ts : list val) :
  truthy (js_length (JArray ts)) = negb (match ts with [] => true | _ => false end).
Proof. now destruct ts. Qed.

Lemma isPlainObj_spec (o : props) : isPlainObj o = negb (own_constructor o).
Proof.
  unfold isPlainObj, own_constructor.
  destruct (has_own "constructor" o); cbn [negb andb orb]; [|reflexivity].
  now destruct (obj_get "constructor" o).
Qed.

Lemma converted (o : props) : own_constructor o = false -> isPlainObj o = true.
Proof. intros H. now rewrite isPlainObj_spec, H. Qed.

Lemma unconverted (o : props) : own_constructor o = true -> isPlainObj o = false.
Proof. intros H. now rewrite isPlainObj_spec, H. Qed.

(** What [fromJS] does not convert has no [get]: the test throws. *)
Lemma isSyncable_fromJS_unconverted (site : props) :
  isPlainObj site = false -> isSyncable_fromJS site = Throw TypeError.
Proof. intros H. unfold isSyncable_fromJS. now rewrite H. Qed.

Lemma isSyncable_fromJS_tags (site : props) (ts : list val) :
  isPlainObj site = true ->
  obj_get "tags" site = JArray ts ->
  isSyncable_fromJS site
  = Ok (existsb (is_str "bookmark") ts || existsb (is_str "bookmark-folder") ts).
Proof.
  intros Hp H. unfold isSyncable_fromJS. rewrite Hp, H.
  now apply isSyncable_bookmark_tags.
Qed.

Lemma isSyncable_fromJS_no_tags (site : props) :
  isPlainObj site = true ->
  truthy (obj_get "tags" site) = false ->
  isSyncable_fromJS site = Ok false.
Proof.
  intros Hp H. unfold isSyncable_fromJS. rewrite Hp.
  rewrite (isSyncable_bookmark_no_tags site H).
  destruct (obj_get "tags" site); try reflexivity. discriminate.
Qed.

(** When the test on the converted site answers, it answers what the test
    on the Map of the state answers. *)
Lemma isSyncable_fromJS_ok (site : props) (b : bool) :
  isSyncable_fromJS site = Ok b -> isSyncable "bookmark" site = Ok b.
Proof.
  unfold isSyncable_fromJS.
  destruct (isPlainObj site); [|discriminate].
  destruct (obj_get "tags" site) as [| | | | | | |tags]; try exact (fun H => H).
  destruct (isPlainObj tags); [exact (fun H => H) | discriminate].
Qed.

Lemma own_names_plain (o : props) : own_names_only o -> isPlainObj o = true.
Proof.
  intros H. unfold isPlainObj.
  destruct (has_own "constructor" o) eqn:E; [|reflexivity].
  apply has_own_keys in E. apply H in E. discriminate.
Qed.

Lemma createSiteData_unconverted (site : props) (siteIndex : val) (w : world) :
  isPlainObj site = false ->
  createSiteData site siteIndex w = (Throw TypeError, w).
Proof.
  intros H. unfold createSiteData, bind, lift.
  now rewrite (isSyncable_fromJS_unconverted site H).
Qed.

(** A site with tags, none of them a bookmark tag, is no record at all. *)
Lemma createSiteData_not_syncable (site : props) (ts : list val)
    (siteIndex : val) (w : world) :
  isPlainObj site = true ->
  obj_get "tags" site = JArray ts -> ts <> [] ->
  existsb (is_str "bookmark") ts = false ->
  existsb (is_str "bookmark-folder") ts = false ->
  createSiteData site siteIndex w = (Ok None, w).
Proof.
  intros Hp Htags Hne Hb Hf. unfold createSiteData, bind, lift.
  rewrite (isSyncable_fromJS_tags site ts Hp Htags), Hb, Hf, Htags.
  cbn [orb]. rewrite array_length_truthy.
  destruct ts; [contradiction | reflexivity].
Qed.

(** C9 on the code.  For a site whose tags name no bookmark the builder
    answers [undefined] and sends nothing, but the dispatch path does not drop
    it: [doAction] hands [[undefined]] to [sendSyncRecords], which reads
    [data[0].name] before its own test for empty records and throws (a
    [TypeError] with a device id, the device-id error without one).  A site
    that has a [constructor] field of its own does not even get that far:
    the builder itself throws a [TypeError], which escapes as well. *)
Theorem non_syncable_site_throws_in_dispatch
    (CATEGORY_MAP : props) (CREATE UPDATE DELETE : val)
    (a : action) (site : props) (ts : list val) (w : world) :
  action_item a = ImmMap site ->
  In (actionType a) [SYNC_ADD_SITE; SYNC_UPDATE_SITE; SYNC_REMOVE_SITE] ->
  truthy (obj_get "objectId" site) = true ->
  obj_get "tags" site = JArray ts -> ts <> [] ->
  existsb (is_str "bookmark") ts = false ->
  existsb (is_str "bookmark-folder") ts = false ->
  createSiteData site JUndefined w
  = ((if own_constructor site then Throw TypeError else Ok None), w) /\
  doAction CATEGORY_MAP CREATE UPDATE DELETE a w
  = (Throw (if truthy (deviceId w) || own_constructor site then TypeError
            else Error "Cannot build a sync record because deviceId is not set"),
     w).
Proof.
  intros Hitem Htype Hid Htags Hne Hb Hf.
  assert (Hbuilt : createSiteData site JUndefined w
                   = ((if own_constructor site then Throw TypeError
                       else Ok None), w)).
  { destruct (own_constructor site) eqn:Hp.
    - apply createSiteData_unconverted. now apply unconverted.
    - apply (createSiteData_not_syncable site ts); try assumption.
      now apply converted. }
  split; [exact Hbuilt|].
  unfold doAction. rewrite Hitem, Hid. cbn [negb].
  assert (Hsend : forall act,
             bind (createSiteData site JUndefined)
                  (fun d => sendSyncRecords CATEGORY_MAP act [d]) w
             = (Throw (if truthy (deviceId w) || own_constructor site
                       then TypeError
                       else Error "Cannot build a sync record because deviceId is not set"),
                w)).
  { intros act. unfold bind at 1. rewrite Hbuilt.
    destruct (own_constructor site).
    - now rewrite orb_true_r.
    - rewrite orb_false_r. unfold sendSyncRecords. run.
      now destruct (truthy (deviceId w)). }
  simpl in Htype.
  destruct Htype as [<-|[<-|[<-|[]]]]; apply Hsend.
Qed.

Lemma non_syncable_site_witness :
  createSiteData sample_pinned_site JUndefined (sample_world sample_device)
    = (Ok None, sample_world sample_device) /\
  doAction sample_CATEGORY_MAP (JNum 0) (JNum 1) (JNum 2)
    sample_pinned_action (sample_world sample_device)
  = (Throw TypeError, sample_world sample_device).
Proof.
  apply (non_syncable_site_throws_in_dispatch
           sample_CATEGORY_MAP (JNum 0) (JNum 1) (JNum 2)
           sample_pinned_action sample_pinned_site [JStr "pinned"]
           (sample_world sample_device)).
  - reflexivity.
  - simpl. left. reflexivity.
  - reflexivity.
  - reflexivity.
  - discriminate.
  - reflexivity.
  - reflexivity.
Defined.

(** ** Building site records *)

Lemma objectId_or_new_spec (o : props) (path : list val) (w : world) :
  objectId_or_new o path w = (Ok (assigned_id o w), after_assignment o path w).
Proof.
  unfold objectId_or_new, assigned_id, after_assignment.
  now destruct (truthy (obj_get "objectId" o)).
Qed.

Lemma has_own_existsb (f : string) (o : props) :
  has_own f o = existsb (String.eqb f) (keys o).
Proof.
  induction o as [|[k v] r IH]; simpl; [reflexivity | now rewrite IH].
Qed.

Lemma copy_fields_get (site : props) (f : string) :
  forall (ks : list string) (siteData : props),
    has_own f siteData = true ->
    obj_get f (fold_left (fun siteData field =>
                            if js_in field siteData
                            then obj_set field (obj_get field site) siteData
                            else siteData) ks siteData)
    = if existsb (String.eqb f) ks then obj_get f site else obj_get f siteData.
Proof.
  induction ks as [|k r IH]; intros siteData Hown; cbn [fold_left existsb].
  - reflexivity.
  - destruct (js_in k siteData) eqn:Hin.
    + rewrite IH by (rewrite has_own_set, Hown; apply orb_true_r).
      destruct (f =? k) eqn:E.
      * apply String.eqb_eq in E. subst k. cbn [orb].
        rewrite obj_get_set_same. now destruct (existsb (String.eqb f) r).
      * cbn [orb]. apply String.eqb_neq in E.
        now rewrite obj_get_set_other.
    + rewrite IH by exact Hown.
      destruct (f =? k) eqn:E; [|reflexivity].
      apply String.eqb_eq in E. subst k.
      unfold js_in in Hin. rewrite Hown in Hin. discriminate.
Qed.

(** Each of the five site fields is the site's own value where it has one and
    the default otherwise. *)
Lemma copy_site_fields_get (site : props) (f : string) :
  In f (keys siteData_defaults) ->
  obj_get f (copy_site_fields site)
  = if has_own f site then obj_get f site else obj_get f siteData_defaults.
Proof.
  intros Hin. unfold copy_site_fields.
  rewrite copy_fields_get by (now apply has_own_keys).
  now rewrite has_own_existsb.
Qed.

Lemma copy_fields_keys (site : props) :
  forall (ks : list string) (siteData : props),
    (forall k, In k ks -> inherited k = false) ->
    keys (fold_left (fun siteData field =>
                       if js_in field siteData
                       then obj_set field (obj_get field site) siteData
                       else siteData) ks siteData)
    = keys siteData.
Proof.
  induction ks as [|k r IH]; intros siteData Hinh; cbn [fold_left].
  - reflexivity.
  - assert (Hr : forall k', In k' r -> inherited k' = false)
      by (intros k' Hin; apply Hinh; now right).
    unfold js_in. rewrite (Hinh k (or_introl eq_refl)), orb_false_r.
    destruct (has_own k siteData) eqn:Hown.
    + rewrite (IH _ Hr), keys_obj_set. now rewrite Hown.
    + apply (IH _ Hr).
Qed.

Lemma props_by_keys (o : props) :
  NoDup (keys o) -> o = map (fun k => (k, obj_get k o)) (keys o).
Proof.
  induction o as [|[k v] r IH]; intros Hnd; [reflexivity|].
  cbn [keys map fst] in *. inversion Hnd as [|? ? Hnin Hr]; subst.
  cbn [obj_get]. rewrite String.eqb_refl. f_equal.
  rewrite IH at 1 by exact Hr. apply map_ext_in.
  intros k' Hin. destruct (k' =? k) eqn:E; [|reflexivity].
  apply String.eqb_eq in E. subst. contradiction.
Qed.

(** Of a site without fields named like members of [Object.prototype] the
    site data is the five site fields, spelled out. *)
Lemma site_fields_plain (site : props) :
  own_names_only site -> copy_site_fields site = site_fields site.
Proof.
  intros Hinh.
  assert (Hkeys : keys (copy_site_fields site)
                  = ["location"; "title"; "customTitle"; "lastAccessedTime";
                     "creationTime"]).
  { unfold copy_site_fields.
    now rewrite (copy_fields_keys site (keys site) siteData_defaults Hinh). }
  rewrite (props_by_keys (copy_site_fields site)).
  2:{ rewrite Hkeys.
      repeat (constructor;
              [simpl; intros H;
               repeat (destruct H as [H|H]; [discriminate|]); exact H|]).
      constructor. }
  rewrite Hkeys. cbn [map]. unfold site_fields, own_or.
  rewrite !copy_site_fields_get by (simpl; tauto). reflexivity.
Qed.

Lemma copy_site_fields_data (site : props) :
  site_data_of site (copy_site_fields site).
Proof.
  unfold site_data_of, own_or.
  repeat split; rewrite copy_site_fields_get by (simpl; tauto); reflexivity.
Qed.

Lemma createSiteData_bookmark (site : props) (ts : list val) (siteIndex : val)
    (w : world) :
  isPlainObj site = true ->
  truthy (obj_get "objectId" site) = true \/ is_number siteIndex = true ->
  obj_get "tags" site = JArray ts ->
  existsb (is_str "bookmark") ts || existsb (is_str "bookmark-folder") ts = true ->
  createSiteData site siteIndex w
  = (Ok (Some {| name := "bookmark";
                 objectId := assigned_id site w;
                 value := bookmark_record site (copy_site_fields site)
                            (existsb (is_str "bookmark-folder") ts) |}),
     after_assignment site [JStr "sites"; siteIndex] w).
Proof.
  intros Hp Hid Htags Hsync. unfold createSiteData.
  unfold bind at 1. unfold lift at 1.
  rewrite (isSyncable_fromJS_tags site ts Hp Htags), Hsync.
  assert (Hguard : negb (truthy (obj_get "objectId" site))
                   && negb (is_number siteIndex) = false).
  { destruct Hid as [-> | ->]; [reflexivity | apply andb_false_r]. }
  rewrite Hguard. unfold bind at 1. rewrite objectId_or_new_spec.
  rewrite Htags. reflexivity.
Qed.

Lemma createSiteData_history (site : props) (siteIndex : val) (w : world) :
  isPlainObj site = true ->
  truthy (obj_get "objectId" site) = true \/ is_number siteIndex = true ->
  truthy (obj_get "tags" site) = false \/ obj_get "tags" site = JArray [] ->
  createSiteData site siteIndex w
  = (Ok (Some {| name := "historySite";
                 objectId := assigned_id site w;
                 value := JObject (copy_site_fields site) |}),
     after_assignment site [JStr "sites"; siteIndex] w).
Proof.
  intros Hp Hid Htags. unfold createSiteData.
  unfold bind at 1. unfold lift at 1.
  assert (Hguard : negb (truthy (obj_get "objectId" site))
                   && negb (is_number siteIndex) = false).
  { destruct Hid as [-> | ->]; [reflexivity | apply andb_false_r]. }
  destruct Htags as [Hnone|Hempty].
  - rewrite (isSyncable_fromJS_no_tags site Hp Hnone), Hnone. cbn [negb orb].
    rewrite Hguard. unfold bind. now rewrite objectId_or_new_spec.
  - rewrite (isSyncable_fromJS_tags site [] Hp Hempty), Hempty.
    cbn [existsb orb js_length truthy List.length Z.of_nat Z.eqb negb].
    rewrite Hguard. unfold bind. now rewrite objectId_or_new_spec.
Qed.

(** Without an id on the site and without a numeric index the builder
    throws. *)
Lemma createSiteData_missing_id (site : props) (siteIndex : val) (w : world) :
  isPlainObj site = true ->
  truthy (obj_get "objectId" site) = false -> is_number siteIndex = false ->
  (forall ts, obj_get "tags" site = JArray ts ->
     existsb (is_str "bookmark") ts || existsb (is_str "bookmark-folder") ts
       = true ->
     createSiteData site siteIndex w
     = (Throw (Error "Missing bookmark objectId."), w)) /\
  (truthy (obj_get "tags" site) = false \/ obj_get "tags" site = JArray [] ->
     createSiteData site siteIndex w
     = (Throw (Error "Missing historySite objectId."), w)).
Proof.
  intros Hp Hid Hidx. split.
  - intros ts Htags Hsync. unfold createSiteData, bind, lift.
    now rewrite (isSyncable_fromJS_tags site ts Hp Htags), Hsync, Hid, Hidx.
  - intros [Hnone|Hempty]; unfold createSiteData, bind, lift.
    + now rewrite (isSyncable_fromJS_no_tags site Hp Hnone), Hnone, Hid, Hidx.
    + rewrite (isSyncable_fromJS_tags site [] Hp Hempty), Hempty.
      cbn [existsb orb js_length truthy List.length Z.of_nat Z.eqb negb].
      now rewrite Hid, Hidx.
Qed.

(** C1, as the code has it.  Take a site that has an id, or a numeric index
    to request one under.  If [Immutable.fromJS] converts it (it has no
    [constructor] field of its own, or an [undefined] one), then: tags that
    include ['bookmark-folder'] give a [bookmark] record with [isFolder]
    true; tags that include ['bookmark'] and not ['bookmark-folder'] give a
    [bookmark] record with [isFolder] false; no tags (none, or the empty
    list) give a [historySite] record whose value is the site data; and the
    site data holds each of the five site fields, the site's own where it
    has one and the default where not.  If [fromJS] does not convert the
    site, the builder throws a [TypeError] and nothing else happens. *)
Theorem createSiteData_by_tags (site : props) (siteIndex : val) (w : world) :
  truthy (obj_get "objectId" site) = true \/ is_number siteIndex = true ->
  (own_constructor site = false ->
   exists sd,
     site_data_of site sd /\
     (forall ts,
         obj_get "tags" site = JArray ts ->
         existsb (is_str "bookmark-folder") ts = true ->
         createSiteData site siteIndex w
         = (Ok (Some {| name := "bookmark";
                        objectId := assigned_id site w;
                        value :=
                          JObject
                            [ ("site", JObject sd);
                              ("isFolder", JBool true);
                              ("folderId",
                               js_or (obj_get "folderId" site) (JNum 0));
                              ("parentFolderId",
                               js_or (obj_get "parentFolderId" site)
                                     (JNum 0)) ] |}),
            after_assignment site [JStr "sites"; siteIndex] w)) /\
     (forall ts,
         obj_get "tags" site = JArray ts ->
         existsb (is_str "bookmark") ts = true ->
         existsb (is_str "bookmark-folder") ts = false ->
         createSiteData site siteIndex w
         = (Ok (Some {| name := "bookmark";
                        objectId := assigned_id site w;
                        value :=
                          JObject
                            [ ("site", JObject sd);
                              ("isFolder", JBool false);
                              ("folderId",
                               js_or (obj_get "folderId" site) (JNum 0));
                              ("parentFolderId",
                               js_or (obj_get "parentFolderId" site)
                                     (JNum 0)) ] |}),
            after_assignment site [JStr "sites"; siteIndex] w)) /\
     (truthy (obj_get "tags" site) = false \/ obj_get "tags" site = JArray [] ->
      createSiteData site siteIndex w
      = (Ok (Some {| name := "historySite";
                     objectId := assigned_id site w;
                     value := JObject sd |}),
         after_assignment site [JStr "sites"; siteIndex] w))) /\
  (own_constructor site = true ->
   createSiteData site siteIndex w = (Throw TypeError, w)).
Proof.
  intros Hid.
  split; [|intros Hc; apply createSiteData_unconverted; now apply unconverted].
  intros Hp. apply converted in Hp. exists (copy_site_fields site).
  split; [apply copy_site_fields_data|]. split; [|split].
  - intros ts Htags Hfolder.
    rewrite (createSiteData_bookmark site ts siteIndex w Hp Hid Htags)
      by (rewrite Hfolder; apply orb_true_r).
    now rewrite Hfolder.
  - intros ts Htags Hb Hfolder.
    rewrite (createSiteData_bookmark site ts siteIndex w Hp Hid Htags)
      by (now rewrite Hb).
    now rewrite Hfolder.
  - now apply createSiteData_history.
Qed.

Lemma createSiteData_by_tags_witness :
  (exists sd,
      createSiteData sample_new_bookmark (JNum 2) (sample_world sample_device)
      = (Ok (Some {| name := "bookmark";
                     objectId := array_of_bytes (bytes_at sample_entropy 0 16);
                     value :=
                       JObject [ ("site", JObject sd);
                                 ("isFolder", JBool false);
                                 ("folderId", JNum 0);
                                 ("parentFolderId", JNum 0) ] |}),
         id_requested [JStr "sites"; JNum 2] (sample_world sample_device)) /\
      obj_get "title" sd = JStr "B" /\
      obj_get "creationTime" sd = JNum 0) /\
  (exists sd,
      createSiteData sample_bookmark_and_folder JUndefined
        (sample_world sample_device)
      = (Ok (Some {| name := "bookmark"; objectId := sample_id;
                     value :=
                       JObject [ ("site", JObject sd);
                                 ("isFolder", JBool true);
                                 ("folderId", JNum 0);
                                 ("parentFolderId", JNum 0) ] |}),
         sample_world sample_device)) /\
  (exists sd,
      createSiteData [("location", JStr "https://a.example/")] (JNum 0)
        (sample_world sample_device)
      = (Ok (Some {| name := "historySite";
                     objectId := array_of_bytes (bytes_at sample_entropy 0 16);
                     value := JObject sd |}),
         id_requested [JStr "sites"; JNum 0] (sample_world sample_device)) /\
      obj_get "location" sd = JStr "https://a.example/") /\
  createSiteData sample_constructor_bookmark JUndefined
    (sample_world sample_device)
  = (Throw TypeError, sample_world sample_device).
Proof.
  split; [|split; [|split]].
  - destruct (proj1 (createSiteData_by_tags sample_new_bookmark (JNum 2)
                       (sample_world sample_device) (or_intror eq_refl))
                eq_refl)
      as (sd & (_ & Ht & _ & _ & Hc) & _ & Hb & _).
    exists sd. split; [|split; [exact Ht | exact Hc]].
    apply (Hb [JStr "bookmark"]); reflexivity.
  - destruct (proj1 (createSiteData_by_tags sample_bookmark_and_folder
                       JUndefined (sample_world sample_device)
                       (or_introl eq_refl))
                eq_refl)
      as (sd & _ & Hf & _ & _).
    exists sd.
    apply (Hf [JStr "bookmark"; JStr "bookmark-folder"]); reflexivity.
  - destruct (proj1 (createSiteData_by_tags
                       [("location", JStr "https://a.example/")] (JNum 0)
                       (sample_world sample_device) (or_intror eq_refl))
                eq_refl)
      as (sd & (Hl & _) & _ & _ & Hh).
    exists sd. split; [|exact Hl].
    apply Hh. left. reflexivity.
  - apply (proj2 (createSiteData_by_tags sample_constructor_bookmark
                    JUndefined (sample_world sample_device)
                    (or_introl eq_refl))).
    reflexivity.
Defined.

(** C1 as the specification words it fails in three ways: a site tagged both
    ['bookmark'] and ['bookmark-folder'] includes ['bookmark'] and is a
    folder; a tagged site without an id, built without an index, gives no
    record but an exception; and so does a bookmark that has a field named
    [constructor]. *)
Lemma bookmark_tag_alone_does_not_decide :
  has_tag "bookmark" sample_bookmark_and_folder = true /\
  (exists site_value,
      createSiteData sample_bookmark_and_folder JUndefined
        (sample_world sample_device)
      = (Ok (Some {| name := "bookmark"; objectId := sample_id;
                     value := site_value |}),
         sample_world sample_device) /\
      plain_prop "isFolder" site_value = JBool true) /\
  has_tag "bookmark" sample_new_bookmark = true /\
  createSiteData sample_new_bookmark JUndefined (sample_world sample_device)
    = (Throw (Error "Missing bookmark objectId."), sample_world sample_device) /\
  has_tag "bookmark" sample_constructor_bookmark = true /\
  createSiteData sample_constructor_bookmark JUndefined
    (sample_world sample_device)
  = (Throw TypeError, sample_world sample_device).
Proof.
  split; [reflexivity|]. split.
  - eexists. split; reflexivity.
  - repeat split; reflexivity.
Qed.

(** ** What the operations leave alone *)

Lemma same_engine_refl (w : world) : same_engine w w.
Proof. unfold same_engine. tauto. Qed.

Lemma same_engine_trans (w1 w2 w3 : world) :
  same_engine w1 w2 -> same_engine w2 w3 -> same_engine w1 w3.
Proof.
  unfold same_engine. intros (a1 & a2 & a3 & a4 & a5 & a6 & a7 & a8)
                             (b1 & b2 & b3 & b4 & b5 & b6 & b7 & b8).
  repeat split; congruence.
Qed.

Lemma bind_ok {A B} (m : M A) (k : A -> M B) (w w' : world) (b : B) :
  bind m k w = (Ok b, w') ->
  exists a w1, m w = (Ok a, w1) /\ k a w1 = (Ok b, w').
Proof.
  unfold bind. destruct (m w) as [[a|e] w1]; [|discriminate].
  intros H. now exists a, w1.
Qed.

Lemma bind_run {A B} (m : M A) (k : A -> M B) (w w1 : world) (a : A) :
  m w = (Ok a, w1) -> bind m k w = k a w1.
Proof. intros H. unfold bind. now rewrite H. Qed.

Lemma bind_throw {A B} (m : M A) (k : A -> M B) (w w1 : world) (e : exn) :
  m w = (Throw e, w1) -> bind m k w = (Throw e, w1).
Proof. intros H. unfold bind. now rewrite H. Qed.

Lemma quiet_ret {A} (a : A) : quiet (ret a).
Proof. intros w. apply same_engine_refl. Qed.

Lemma quiet_throw {A} (e : exn) : quiet (@throw A e).
Proof. intros w. apply same_engine_refl. Qed.

Lemma quiet_lift {A} (r : result A) : quiet (lift r).
Proof. intros w. apply same_engine_refl. Qed.

Lemma quiet_get_world : quiet get_world.
Proof. intros w. apply same_engine_refl. Qed.

Lemma quiet_bind {A B} (m : M A) (k : A -> M B) :
  quiet m -> (forall a, quiet (k a)) -> quiet (bind m k).
Proof.
  intros Hm Hk w. unfold bind. specialize (Hm w).
  destruct (m w) as [[a|e] w1]; simpl in *; [|exact Hm].
  eapply same_engine_trans; [exact Hm | apply Hk].
Qed.

Lemma quiet_randomBytes (n : nat) : quiet (randomBytes n).
Proof. intros w. unfold same_engine. simpl. tauto. Qed.

Lemma quiet_dispatch (a : app_action) : quiet (dispatch a).
Proof. intros w. unfold same_engine. simpl. tauto. Qed.

Lemma quiet_send (n : message) (args : list val) : quiet (send n args).
Proof. intros w. unfold same_engine. simpl. tauto. Qed.

Lemma quiet_console_log (line : string) : quiet (console_log line).
Proof. intros w. unfold same_engine. simpl. tauto. Qed.

Create HintDb quiet.
#[local] Hint Resolve quiet_ret quiet_throw quiet_lift quiet_get_world
  quiet_randomBytes quiet_dispatch quiet_send quiet_console_log : quiet.

Ltac quiet_steps :=
  repeat first
    [ apply quiet_bind; [|intros ?]
    | match goal with
      | |- quiet (if ?b then _ else _) => destruct b
      | |- quiet (match ?x with _ => _ end) => destruct x
      end
    | solve [auto with quiet] ].

Lemma quiet_newObjectId (path : list val) : quiet (newObjectId path).
Proof. unfold newObjectId. quiet_steps. Qed.

Lemma quiet_objectId_or_new (o : props) (path : list val) :
  quiet (objectId_or_new o path).
Proof.
  unfold objectId_or_new.
  destruct (truthy (obj_get "objectId" o));
    [apply quiet_ret | apply quiet_newObjectId].
Qed.

#[local] Hint Resolve quiet_newObjectId quiet_objectId_or_new : quiet.

Lemma quiet_createSiteData (site : props) (siteIndex : val) :
  quiet (createSiteData site siteIndex).
Proof. unfold createSiteData. quiet_steps. Qed.

Lemma quiet_createSiteSettingsData (hostPattern : val) (setting : props) :
  quiet (createSiteSettingsData hostPattern setting).
Proof. unfold createSiteSettingsData. quiet_steps. Qed.

Lemma quiet_sendSyncRecords (CATEGORY_MAP : props) (action : val)
    (data : list (option record_data)) :
  quiet (sendSyncRecords CATEGORY_MAP action data).
Proof. unfold sendSyncRecords. quiet_steps. Qed.

#[local] Hint Resolve quiet_createSiteData quiet_createSiteSettingsData
  quiet_sendSyncRecords : quiet.

Lemma quiet_backfill_site (CATEGORY_MAP : props) (CREATE : val) (i : nat)
    (site : option props) :
  quiet (backfill_site CATEGORY_MAP CREATE i site).
Proof. unfold backfill_site. quiet_steps. Qed.

Lemma quiet_for_each_from {A} (body : nat -> A -> M unit) :
  (forall i x, quiet (body i x)) ->
  forall l i, quiet (for_each_from body i l).
Proof.
  intros Hbody. induction l as [|x r IH]; intros i; simpl.
  - apply quiet_ret.
  - apply quiet_bind; [apply Hbody | intros _; apply IH].
Qed.

Lemma quiet_map_M {A B} (f : A -> M B) :
  (forall x, quiet (f x)) -> forall l, quiet (map_M f l).
Proof.
  intros Hf. induction l as [|x r IH]; simpl.
  - apply quiet_ret.
  - apply quiet_bind; [apply Hf | intros y].
    apply quiet_bind; [apply IH | intros t; apply quiet_ret].
Qed.

(** The handler of the action bus never touches the watermark, the timer or
    the device id. *)
Lemma quiet_doAction (CATEGORY_MAP : props) (CREATE UPDATE DELETE : val)
    (a : action) :
  quiet (doAction CATEGORY_MAP CREATE UPDATE DELETE a).
Proof. unfold doAction, log. quiet_steps. Qed.

(** ** The scan of the sites at start-up *)

Lemma newObjectId_run (path : list val) (w : world) :
  newObjectId path w
  = (Ok (array_of_bytes (bytes_at (entropy w) (drawn w) 16)),
     id_requested path w).
Proof. reflexivity. Qed.

Lemma has_tag_array (t : string) (site : props) (ts : list val) :
  obj_get "tags" site = JArray ts -> has_tag t site = existsb (is_str t) ts.
Proof. intros H. unfold has_tag. now rewrite H. Qed.

Lemma has_tag_no_tags (t : string) (site : props) :
  truthy (obj_get "tags" site) = false -> has_tag t site = false.
Proof.
  intros H. unfold has_tag. destruct (obj_get "tags" site); try reflexivity.
  discriminate.
Qed.

(** What the callback of the scan does with one site *)
Lemma backfill_site_step (CATEGORY_MAP : props) (CREATE : val) (i : nat)
    (site : option props) (w : world) :
  truthy (deviceId w) = true -> site_ready site ->
  let t := backfill_trace CATEGORY_MAP CREATE (deviceId w) (entropy w)
             (drawn w) i [site] in
  exists w',
    backfill_site CATEGORY_MAP CREATE i site w = (Ok tt, w') /\
    drawn w' = drawn w + 16 * List.length t /\
    dispatched w' = (dispatched w ++ map fst t)%list /\
    channel w' = (channel w ++ map snd t)%list.
Proof.
  intros Hdev [Hwf Hplain].
  assert (Hstay : forall t,
            t = [] ->
            exists w',
              (Ok tt, w) = (Ok tt, w') /\
              drawn w' = drawn w + 16 * List.length t /\
              dispatched w' = (dispatched w ++ map fst t)%list /\
              channel w' = (channel w ++ map snd t)%list).
  { intros t ->. exists w. cbn. now rewrite Nat.add_0_r, !app_nil_r. }
  destruct site as [s|]; cbn [backfill_trace]; unfold backfill_site.
  2:{ now apply Hstay. }
  cbn [unsynced_bookmark] in *.
  destruct (truthy (obj_get "objectId" s)) eqn:Eid; cbn [negb andb] in *.
  { now apply Hstay. }
  destruct Hwf as [Hid|[Hnone|[ts Htags]]]; [congruence| |].
  - rewrite (isSyncable_bookmark_no_tags s Hnone).
    rewrite !(has_tag_no_tags _ s Hnone). cbn [orb].
    unfold bind, lift. now apply Hstay.
  - rewrite (isSyncable_bookmark_tags s ts Htags).
    rewrite !(has_tag_array _ s ts Htags) in *.
    destruct (existsb (is_str "bookmark") ts
              || existsb (is_str "bookmark-folder") ts) eqn:Hsync.
    2:{ unfold bind, lift. now apply Hstay. }
    specialize (Hplain eq_refl).
    unfold bind at 1. unfold lift at 1.
    erewrite bind_run
      by (apply (createSiteData_bookmark s ts);
          [now apply own_names_plain | right; reflexivity | exact Htags
          | exact Hsync]).
    unfold assigned_id, after_assignment. rewrite Eid.
    rewrite sendSyncRecords_single;
      [| exact Hdev | reflexivity | discriminate | reflexivity | reflexivity].
    eexists. split; [reflexivity|].
    rewrite (site_fields_plain s Hplain). cbn. repeat split.
Qed.

Lemma backfill_trace_cons (CATEGORY_MAP : props) (CREATE device : val)
    (source : nat -> byte) (p i : nat) (site : option props)
    (r : list (option props)) :
  backfill_trace CATEGORY_MAP CREATE device source p i (site :: r)
  = (backfill_trace CATEGORY_MAP CREATE device source p i [site]
     ++ backfill_trace CATEGORY_MAP CREATE device source
          (p + 16 * List.length
                      (backfill_trace CATEGORY_MAP CREATE device source p i [site]))
          (S i) r)%list.
Proof.
  cbn [backfill_trace]. destruct site as [s|].
  - destruct (unsynced_bookmark (Some s)); cbn [List.length app].
    + reflexivity.
    + now rewrite Nat.add_0_r.
  - cbn [List.length app]. now rewrite Nat.add_0_r.
Qed.

(** The scan goes through, and leaves what the trace says. *)
Lemma backfill_total (CATEGORY_MAP : props) (CREATE : val) :
  forall (l : list (option props)) (i : nat) (w : world),
    truthy (deviceId w) = true -> Forall site_ready l ->
    let t := backfill_trace CATEGORY_MAP CREATE (deviceId w) (entropy w)
               (drawn w) i l in
    exists w',
      for_each_from (backfill_site CATEGORY_MAP CREATE) i l w = (Ok tt, w') /\
      same_engine w w' /\
      drawn w' = drawn w + 16 * List.length t /\
      dispatched w' = (dispatched w ++ map fst t)%list /\
      channel w' = (channel w ++ map snd t)%list.
Proof.
  induction l as [|site r IH]; intros i w Hdev Hready.
  - exists w. cbn. split; [reflexivity|].
    split; [apply same_engine_refl|]. now rewrite Nat.add_0_r, !app_nil_r.
  - inversion Hready as [|? ? Hsite Hr]; subst.
    destruct (backfill_site_step CATEGORY_MAP CREATE i site w Hdev Hsite)
      as (w1 & Hsite1 & Hd & Ha & Hc).
    assert (Hq := quiet_backfill_site CATEGORY_MAP CREATE i site w).
    rewrite Hsite1 in Hq. cbn [snd] in Hq.
    assert (Hdev1 : truthy (deviceId w1) = true).
    { destruct Hq as (-> & _). exact Hdev. }
    destruct (IH (S i) w1 Hdev1 Hr) as (w' & Hrest & Hq' & Hd' & Ha' & Hc').
    intros t. subst t. rewrite backfill_trace_cons.
    exists w'. cbn [for_each_from].
    rewrite (bind_run _ _ _ _ _ Hsite1).
    split; [exact Hrest|].
    split; [eapply same_engine_trans; [exact Hq | exact Hq']|].
    destruct Hq as (Edev & _ & _ & _ & _ & _ & Eent & _).
    rewrite Edev, Eent, Hd in *.
    rewrite length_app, !map_app, !app_assoc, <- Ha, <- Hc.
    split; [|split]; try assumption.
    rewrite Hd'. lia.
Qed.


(** ** The site settings at start-up *)

Lemma createSiteSettingsData_run (hostPattern : val) (setting : props)
    (r : record_data) (w w1 : world) :
  createSiteSettingsData hostPattern setting w = (Ok r, w1) ->
  name r = "siteSetting" /\
  channel w1 = channel w /\
  exists reqs, dispatched w1 = (dispatched w ++ reqs)%list.
Proof.
  unfold createSiteSettingsData, bind, lift. intros H.
  destruct (siteSettings_value hostPattern setting) as [fields|e];
    [|discriminate].
  rewrite objectId_or_new_spec in H. unfold ret in H. injection H as <- <-.
  split; [reflexivity|]. unfold after_assignment.
  destruct (truthy (obj_get "objectId" setting)).
  - split; [reflexivity|]. exists []. now rewrite app_nil_r.
  - split; [reflexivity|]. eexists. reflexivity.
Qed.

Lemma settings_records_run :
  forall (l : list (string * props)) (w w' : world) (records : list record_data),
    map_M (fun kv => createSiteSettingsData (JStr (fst kv)) (snd kv)) l w
      = (Ok records, w') ->
    Forall (fun r => name r = "siteSetting") records /\
    channel w' = channel w /\
    exists reqs, dispatched w' = (dispatched w ++ reqs)%list.
Proof.
  induction l as [|kv l IH]; intros w w' records H; cbn [map_M] in H.
  - unfold ret in H. injection H as <- <-.
    split; [constructor|]. split; [reflexivity|].
    exists []. now rewrite app_nil_r.
  - apply bind_ok in H as (r & w1 & Hr & H).
    apply bind_ok in H as (t & w2 & Ht & H).
    unfold ret in H. injection H as <- <-.
    destruct (createSiteSettingsData_run _ _ _ _ _ Hr) as (Hn & Hc & a1 & Ha1).
    destruct (IH _ _ _ Ht) as (Hall & Hc2 & a2 & Ha2).
    split; [now constructor|]. split; [congruence|].
    exists (a1 ++ a2)%list. now rewrite Ha2, Ha1, app_assoc.
Qed.



(** ** Polling *)

Lemma poll_run (categoryNames : list string) (w : world) :
  poll categoryNames w
  = (Ok tt,
     with_dispatched
       (dispatched w ++ [saveSyncInitData JNull JNull (JNum (clock w / 1000))])
       (with_startAt (JNum (clock w / 1000))
          (with_channel (channel w ++ [fetch_message categoryNames (startAt w)])
             w))).
Proof. reflexivity. Qed.

(** ** Engine start *)

Lemma onSyncReady_phases (CATEGORY_MAP : props) (CREATE UPDATE : val)
    (categoryNames : list string) (fetchInterval : Z) (isFirstRun : bool)
    (w w' : world) :
  onSyncReady CATEGORY_MAP CREATE UPDATE categoryNames fetchInterval
    isFirstRun w = (Ok tt, w') ->
  exists w1 w2 w3 w4 settings records,
    (if isFirstRun
     then bind (newObjectId [JStr "sync"])
            (fun id => sendSyncRecords CATEGORY_MAP CREATE
                         [Some (device_record id)])
     else ret tt) (with_registered (S (registered w)) w) = (Ok tt, w1) /\
    for_each_from (backfill_site CATEGORY_MAP CREATE) 0
      (sites_of (appState w1)) w1 = (Ok tt, w2) /\
    siteSettings (appState w1) = Some settings /\
    map_M (fun kv => createSiteSettingsData (JStr (fst kv)) (snd kv))
      (syncable_settings settings) w2 = (Ok records, w3) /\
    sendSyncRecords CATEGORY_MAP UPDATE (map Some records) w3 = (Ok tt, w4) /\
    w' = with_pollIntervalId (Some fetchInterval)
           (snd (poll categoryNames
                   (with_startAt
                      (js_or (lastFetchTimestamp (appState w1)) (JNum 0))
                      (with_handlers
                         (handlers w4 ++
                          [GET_EXISTING_OBJECTS; RESOLVED_SYNC_RECORDS])
                         w4)))).
Proof.
  intros H. unfold onSyncReady in H.
  apply bind_ok in H as ([] & w0 & H0 & H).
  unfold modify in H0. injection H0 as <-.
  apply bind_ok in H as ([] & w1 & H1 & H).
  apply bind_ok in H as (wr & w1' & Hget & H).
  unfold get_world in Hget. injection Hget as <- <-.
  apply bind_ok in H as ([] & w2 & H2 & H).
  destruct (siteSettings (appState w1)) as [settings|] eqn:Hs; [|discriminate].
  apply bind_ok in H as (records & w3 & H3 & H).
  apply bind_ok in H as ([] & w4 & H4 & H).
  apply bind_ok in H as ([] & w5 & H5 & H).
  unfold modify in H5. injection H5 as <-.
  apply bind_ok in H as ([] & w6 & H6 & H).
  unfold modify in H6. injection H6 as <-.
  apply bind_ok in H as ([] & w7 & H7 & H).
  unfold modify in H. injection H as <-.
  exists w1, w2, w3, w4, settings, records.
  repeat (split; [assumption|]).
  now rewrite H7.
Qed.

Lemma last_cons (t d : Z) (r : list Z) : last (t :: r) d = last r t.
Proof.
  revert t d. induction r as [|x r IH]; intros t d; [reflexivity|].
  change (last (t :: x :: r) d) with (last (x :: r) d).
  now rewrite (IH x d), (IH x t).
Qed.

(** What the runs of [poll] at the times [ts] leave behind, the watermark
    before them being that of a run at [t0] *)
Lemma callbacks_at_run (categoryNames : list string) :
  forall (ts : list Z) (w : world) (t0 : Z),
    startAt w = JNum (t0 / 1000) ->
    exists wk,
      callbacks_at categoryNames ts w = (Ok tt, wk) /\
      startAt wk = JNum (last ts t0 / 1000) /\
      channel wk
      = (channel w ++
         map (fun t => fetch_message categoryNames (JNum (t / 1000)))
             (times_before t0 ts))%list /\
      dispatched wk
      = (dispatched w ++
         map (fun t => saveSyncInitData JNull JNull (JNum (t / 1000))) ts)%list /\
      pollIntervalId wk = pollIntervalId w.
Proof.
  induction ts as [|t r IH]; intros w t0 Hs.
  - exists w. cbn. now rewrite !app_nil_r.
  - cbn [callbacks_at].
    rewrite (bind_run (modify (with_clock t)) _ w (with_clock t w) tt eq_refl).
    rewrite (bind_run _ _ _ _ _ (poll_run categoryNames (with_clock t w))).
    cbn [clock startAt channel dispatched with_clock].
    match goal with
    | |- exists wk, callbacks_at _ _ ?w1 = _ /\ _ =>
        destruct (IH w1 t eq_refl) as (wk & Hrun & Hst & Hch & Hd & Hp)
    end.
    exists wk. split; [exact Hrun|].
    rewrite last_cons. split; [exact Hst|].
    cbn [times_before map]. rewrite Hch, Hd, Hp, Hs. cbn.
    now rewrite <- !app_assoc.
Qed.

(** What a completed [onSyncReady] leaves behind, and the runs of [poll]
    after it *)
Lemma poll_after_ready
    (CATEGORY_MAP : props) (CREATE UPDATE : val)
    (categoryNames : list string) (fetchInterval : Z) (isFirstRun : bool)
    (w w' : world) :
  onSyncReady CATEGORY_MAP CREATE UPDATE categoryNames fetchInterval
    isFirstRun w = (Ok tt, w') ->
  ((exists earlier,
       channel w'
       = (earlier ++
          [fetch_message categoryNames
             (js_or (lastFetchTimestamp (appState w)) (JNum 0))])%list) /\
   (exists earlier,
       dispatched w'
       = (earlier ++
          [saveSyncInitData JNull JNull (JNum (clock w / 1000))])%list) /\
   startAt w' = JNum (clock w / 1000) /\
   pollIntervalId w' = Some fetchInterval) /\
  forall ts : list Z,
    exists wk,
      callbacks_at categoryNames ts w' = (Ok tt, wk) /\
      startAt wk = JNum (last ts (clock w) / 1000) /\
      channel wk
      = (channel w' ++
         map (fun t => fetch_message categoryNames (JNum (t / 1000)))
             (times_before (clock w) ts))%list /\
      dispatched wk
      = (dispatched w' ++
         map (fun t => saveSyncInitData JNull JNull (JNum (t / 1000))) ts)%list /\
      pollIntervalId wk = Some fetchInterval.
Proof.
  intros H.
  destruct (onSyncReady_phases _ _ _ _ _ _ _ _ H)
    as (w1 & w2 & w3 & w4 & settings & records
        & H1 & H2 & Hs & H3 & H4 & Hw').
  assert (Q1 : same_engine (with_registered (S (registered w)) w) w1).
  { assert (Hq : quiet (if isFirstRun
                        then bind (newObjectId [JStr "sync"])
                               (fun id => sendSyncRecords CATEGORY_MAP CREATE
                                            [Some (device_record id)])
                        else ret tt)) by quiet_steps.
    specialize (Hq (with_registered (S (registered w)) w)).
    now rewrite H1 in Hq. }
  assert (Q2 : same_engine w1 w2).
  { assert (Hq := quiet_for_each_from _
                    (quiet_backfill_site CATEGORY_MAP CREATE)
                    (sites_of (appState w1)) 0 w1).
    now rewrite H2 in Hq. }
  assert (Q3 : same_engine w2 w3).
  { assert (Hq := quiet_map_M
                    (fun kv => createSiteSettingsData (JStr (fst kv)) (snd kv))
                    (fun kv => quiet_createSiteSettingsData _ _)
                    (syncable_settings settings) w2).
    now rewrite H3 in Hq. }
  assert (Q4 : same_engine w3 w4).
  { assert (Hq := quiet_sendSyncRecords CATEGORY_MAP UPDATE
                    (map Some records) w3).
    now rewrite H4 in Hq. }
  assert (Q : same_engine (with_registered (S (registered w)) w) w4).
  { eapply same_engine_trans; [exact Q1|].
    eapply same_engine_trans; [exact Q2|].
    eapply same_engine_trans; [exact Q3 | exact Q4]. }
  destruct Q as (_ & _ & _ & _ & _ & _ & _ & Eclock).
  destruct Q1 as (_ & _ & _ & _ & _ & Estate & _ & _).
  cbn in Eclock, Estate.
  rewrite poll_run in Hw'. cbn [snd] in Hw'.
  assert (Hready :
            startAt w' = JNum (clock w / 1000) /\
            pollIntervalId w' = Some fetchInterval).
  { subst w'. cbn. now rewrite Eclock. }
  split.
  - split; [|split; [|exact Hready]].
    + subst w'. cbn. rewrite Estate. eexists. reflexivity.
    + subst w'. cbn. rewrite Eclock. eexists. reflexivity.
  - intros ts. destruct Hready as (Hstart & Hperiod).
    destruct (callbacks_at_run categoryNames ts w' (clock w) Hstart)
      as (wk & Hrun & Hst & Hch & Hd & Hp).
    exists wk. rewrite Hp. auto.
Qed.



(** ** Engine start goes through *)

Lemma settings_records_return :
  forall (l : list (string * props)) (w : world),
    Forall setting_well_formed l ->
    exists records w',
      map_M (fun kv => createSiteSettingsData (JStr (fst kv)) (snd kv)) l w
      = (Ok records, w').
Proof.
  induction l as [|kv l IH]; intros w Hwf; cbn [map_M].
  - eexists. eexists. reflexivity.
  - inversion Hwf as [|? ? [Ha Hc] Hl]; subst.
    destruct (siteSettings_value_returns (JStr (fst kv)) (snd kv) Ha Hc)
      as [fields Hfields].
    assert (Hr : createSiteSettingsData (JStr (fst kv)) (snd kv) w
                 = (Ok {| name := "siteSetting";
                          objectId := assigned_id (snd kv) w;
                          value := JObject fields |},
                    after_assignment (snd kv)
                      [JStr "siteSettings"; JStr (fst kv)] w)).
    { unfold createSiteSettingsData, bind, lift.
      now rewrite Hfields, objectId_or_new_spec. }
    rewrite (bind_run _ _ _ _ _ Hr).
    destruct (IH (after_assignment (snd kv)
                    [JStr "siteSettings"; JStr (fst kv)] w) Hl)
      as (records & w' & Hrest).
    rewrite (bind_run _ _ _ _ _ Hrest).
    eexists. eexists. reflexivity.
Qed.

Lemma sendSyncRecords_settings_returns (CATEGORY_MAP : props) (UPDATE : val)
    (records : list record_data) (w : world) :
  truthy (deviceId w) = true ->
  Forall (fun r => name r = "siteSetting") records ->
  exists w', sendSyncRecords CATEGORY_MAP UPDATE (map Some records) w
             = (Ok tt, w').
Proof.
  intros Hdev Hall. unfold sendSyncRecords. run. rewrite Hdev. cbn [negb].
  destruct Hall as [|r rs Hr _]; cbn [map].
  - eexists. reflexivity.
  - rewrite Hr, member_named by reflexivity. eexists. reflexivity.
Qed.

(** With a device id and a state that is ready, [onSyncReady] runs to its
    end. *)
Lemma onSyncReady_returns (CATEGORY_MAP : props) (CREATE UPDATE : val)
    (categoryNames : list string) (fetchInterval : Z) (isFirstRun : bool)
    (w : world) :
  truthy (deviceId w) = true -> state_ready (appState w) ->
  exists w', onSyncReady CATEGORY_MAP CREATE UPDATE categoryNames
               fetchInterval isFirstRun w = (Ok tt, w').
Proof.
  intros Hdev ((_ & settings & Hsettings & Hwf) & Hsites).
  unfold onSyncReady.
  rewrite (bind_run _ _ w (with_registered (S (registered w)) w) tt eq_refl).
  set (w0 := with_registered (S (registered w)) w).
  assert (H1 : exists w1,
             (if isFirstRun
              then bind (newObjectId [JStr "sync"])
                     (fun id => sendSyncRecords CATEGORY_MAP CREATE
                                  [Some (device_record id)])
              else ret tt) w0 = (Ok tt, w1)).
  { destruct isFirstRun; [|eexists; reflexivity].
    unfold bind. rewrite newObjectId_run.
    rewrite sendSyncRecords_single;
      [eexists; reflexivity | exact Hdev | reflexivity | discriminate
       | reflexivity | reflexivity]. }
  destruct H1 as [w1 H1].
  assert (Q1 : same_engine w0 w1).
  { assert (Hq : quiet (if isFirstRun
                        then bind (newObjectId [JStr "sync"])
                               (fun id => sendSyncRecords CATEGORY_MAP CREATE
                                            [Some (device_record id)])
                        else ret tt)) by quiet_steps.
    specialize (Hq w0). now rewrite H1 in Hq. }
  rewrite (bind_run _ _ _ _ _ H1).
  rewrite (bind_run get_world _ w1 w1 w1 eq_refl).
  destruct Q1 as (Edev1 & _ & _ & _ & _ & Estate1 & _).
  cbn in Edev1, Estate1. rewrite Estate1, Hsettings.
  assert (Hdev1 : truthy (deviceId w1) = true) by now rewrite Edev1.
  destruct (backfill_total CATEGORY_MAP CREATE (sites_of (appState w)) 0 w1
              Hdev1 Hsites) as (w2 & H2 & _).
  unfold sites_of in H2. rewrite (bind_run _ _ _ _ _ H2).
  assert (Q2 : same_engine w1 w2).
  { assert (Hq := quiet_for_each_from _
                    (quiet_backfill_site CATEGORY_MAP CREATE)
                    (match sites (appState w) with Some l => l | None => [] end)
                    0 w1).
    now rewrite H2 in Hq. }
  assert (Hwf' : Forall setting_well_formed (syncable_settings settings)).
  { apply Forall_forall. intros kv Hin. unfold syncable_settings in Hin.
    apply filter_In in Hin as [Hin _].
    rewrite Forall_forall in Hwf. now apply Hwf. }
  destruct (settings_records_return (syncable_settings settings) w2 Hwf')
    as (records & w3 & H3).
  rewrite (bind_run _ _ _ _ _ H3).
  destruct (settings_records_run _ _ _ _ H3) as (Hnames & _).
  assert (Q3 : same_engine w2 w3).
  { assert (Hq := quiet_map_M
                    (fun kv => createSiteSettingsData (JStr (fst kv)) (snd kv))
                    (fun kv => quiet_createSiteSettingsData _ _)
                    (syncable_settings settings) w2).
    now rewrite H3 in Hq. }
  assert (Hdev3 : truthy (deviceId w3) = true).
  { destruct Q3 as (E3 & _). destruct Q2 as (E2 & _). cbn [snd] in E2, E3.
    now rewrite E3, E2. }
  destruct (sendSyncRecords_settings_returns CATEGORY_MAP UPDATE records w3
              Hdev3 Hnames) as [w4 H4].
  rewrite (bind_run _ _ _ _ _ H4).
  eexists. reflexivity.
Qed.

(** C7, as the code has it.  With a device id and a state that is ready,
    [onSyncReady] at time [t0] runs through and calls [poll] once itself: its
    fetch request, which names the stored watermark (or 0), is the last
    message sent; the watermark is then [t0] in whole seconds and has been
    handed to [saveSyncInitData]; and [poll] has been given to [setInterval]
    with the configured period.  Whenever the runtime then runs [poll], at
    whatever times, each run requests the records since the time of the run
    before it and leaves as the watermark, stored and handed to
    [saveSyncInitData] in that same call, the time of this very run in whole
    seconds; no answer is waited for in between. *)
Theorem poll_fires_and_advances_watermark
    (CATEGORY_MAP : props) (CREATE UPDATE : val)
    (categoryNames : list string) (fetchInterval : Z) (isFirstRun : bool)
    (w : world) :
  truthy (deviceId w) = true -> state_ready (appState w) ->
  exists w',
    onSyncReady CATEGORY_MAP CREATE UPDATE categoryNames fetchInterval
      isFirstRun w = (Ok tt, w') /\
    ((exists earlier,
         channel w'
         = (earlier ++
            [fetch_message categoryNames
               (js_or (lastFetchTimestamp (appState w)) (JNum 0))])%list) /\
     (exists earlier,
         dispatched w'
         = (earlier ++
            [saveSyncInitData JNull JNull (JNum (clock w / 1000))])%list) /\
     startAt w' = JNum (clock w / 1000) /\
     pollIntervalId w' = Some fetchInterval) /\
    forall ts : list Z,
      exists wk,
        callbacks_at categoryNames ts w' = (Ok tt, wk) /\
        startAt wk = JNum (last ts (clock w) / 1000) /\
        channel wk
        = (channel w' ++
           map (fun t => fetch_message categoryNames (JNum (t / 1000)))
               (times_before (clock w) ts))%list /\
        dispatched wk
        = (dispatched w' ++
           map (fun t => saveSyncInitData JNull JNull (JNum (t / 1000)))
               ts)%list /\
        pollIntervalId wk = Some fetchInterval.
Proof.
  intros Hdev Hready.
  destruct (onSyncReady_returns CATEGORY_MAP CREATE UPDATE categoryNames
              fetchInterval isFirstRun w Hdev Hready) as [w' H].
  exists w'. split; [exact H|].
  exact (poll_after_ready _ _ _ _ _ _ _ _ H).
Qed.

Lemma sample_state_well_formed : state_well_formed sample_state.
Proof.
  split.
  - apply Forall_cons; [right; left; reflexivity|].
    apply Forall_cons; [exact I|].
    apply Forall_cons; [right; right; eexists; reflexivity|].
    apply Forall_cons; [left; reflexivity|].
    apply Forall_nil.
  - eexists. split; [reflexivity|].
    apply Forall_cons; [split; left; reflexivity|].
    apply Forall_cons; [split; left; reflexivity|].
    apply Forall_nil.
Defined.

Lemma sample_state_ready : state_ready sample_state.
Proof.
  split; [exact sample_state_well_formed|].
  apply Forall_cons;
    [split; [right; left; reflexivity | intros H; discriminate]|].
  apply Forall_cons; [split; exact I|].
  apply Forall_cons.
  { split; [right; right; eexists; reflexivity|].
    intros _ k Hin. simpl in Hin.
    repeat (destruct Hin as [<-|Hin]; [reflexivity|]). contradiction. }
  apply Forall_cons;
    [split; [left; reflexivity | intros H; discriminate]|].
  apply Forall_nil.
Defined.

Lemma poll_fires_witness :
  exists w' wk,
    onSyncReady sample_CATEGORY_MAP (JNum 0) (JNum 1) sample_categoryNames
      60000 true (sample_world sample_device) = (Ok tt, w') /\
    startAt w' = JNum 1480000123 /\
    callbacks_at sample_categoryNames [1480000183456; 1480000243456]%Z w'
    = (Ok tt, wk) /\
    startAt wk = JNum 1480000243 /\
    channel wk
    = (channel w' ++
       [ fetch_message sample_categoryNames (JNum 1480000123);
         fetch_message sample_categoryNames (JNum 1480000183) ])%list.
Proof.
  destruct (poll_fires_and_advances_watermark
              sample_CATEGORY_MAP (JNum 0) (JNum 1) sample_categoryNames
              60000 true (sample_world sample_device)
              eq_refl sample_state_ready)
    as (w' & H & (_ & _ & Hs & _) & Hk).
  destruct (Hk [1480000183456; 1480000243456]%Z)
    as (wk & Hrun & Hst & Hch & _).
  exists w', wk. split; [exact H|]. split; [exact Hs|].
  split; [exact Hrun|]. split; [exact Hst | exact Hch].
Defined.

(** C7 as the specification words it fails: being ready is not enough.  On a
    first run without a device id [onSyncReady] throws on the device record,
    before [poll] is ever called: no fetch request is sent, no watermark is
    set or saved, and no interval is set. *)
Lemma poll_does_not_start_without_device_id :
  let run := onSyncReady sample_CATEGORY_MAP (JNum 0) (JNum 1)
               sample_categoryNames 60000 true (sample_world JNull) in
  fst run
  = Throw (Error "Cannot build a sync record because deviceId is not set") /\
  channel (snd run) = [] /\
  startAt (snd run) = JUndefined /\
  pollIntervalId (snd run) = None /\
  dispatched (snd run)
  = [setObjectId_request (bytes_at sample_entropy 0 16) [JStr "sync"]].
Proof.
  cbv zeta. repeat split; vm_compute; reflexivity.
Qed.




(** * Further properties *)

(** ** What is syncable *)

(** X1.  A site setting is syncable exactly when it has at least one field of
    the site-setting schema; one without any field is not. *)
Theorem isSyncable_siteSetting_iff (setting : props) :
  exists b,
    isSyncable "siteSetting" setting = Ok b /\
    (b = true <->
     exists field, In field schema_fields /\ has_own field setting = true) /\
    isSyncable "siteSetting" [] = Ok false.
Proof.
  exists (existsb (fun field => has_own field setting) schema_fields).
  split; [reflexivity|]. split; [|reflexivity].
  apply existsb_exists.
Qed.

(** ** What the builders do to the state *)

(** X2.  [createSiteData] sends nothing and writes no console line, whatever
    its outcome.  It leaves the state as it was, or, for a site without an
    id, with one id drawn and requested under [['sites', siteIndex]]. *)
Theorem createSiteData_effects (site : props) (siteIndex : val) (w : world) :
  let w' := snd (createSiteData site siteIndex w) in
  (w' = w \/
   (truthy (obj_get "objectId" site) = false /\
    w' = id_requested [JStr "sites"; siteIndex] w)) /\
  channel w' = channel w /\ console w' = console w.
Proof.
  cbv zeta.
  assert (H : snd (createSiteData site siteIndex w) = w \/
              (truthy (obj_get "objectId" site) = false /\
               snd (createSiteData site siteIndex w)
               = id_requested [JStr "sites"; siteIndex] w)).
  { assert (Hid : forall {A} (k : val -> M A),
               (forall v x, snd (k v x) = x) ->
               snd (bind (objectId_or_new site [JStr "sites"; siteIndex]) k w)
                 = w \/
               (truthy (obj_get "objectId" site) = false /\
                snd (bind (objectId_or_new site [JStr "sites"; siteIndex]) k w)
                = id_requested [JStr "sites"; siteIndex] w)).
    { intros A k Hk. unfold bind. rewrite objectId_or_new_spec, Hk.
      unfold after_assignment.
      destruct (truthy (obj_get "objectId" site)); auto. }
    unfold createSiteData. unfold bind at 1. unfold lift at 1.
    destruct (isSyncable_fromJS site) as [[|]|e]; [| |now left].
    - destruct (negb (truthy (obj_get "objectId" site))
                && negb (is_number siteIndex)); [now left|].
      apply Hid. intros v x. unfold bind, lift.
      now destruct (plain_includes (obj_get "tags" site) "bookmark-folder").
    - destruct (negb (truthy (obj_get "tags" site))
                || negb (truthy (js_length (obj_get "tags" site))));
        [|now left].
      destruct (negb (truthy (obj_get "objectId" site))
                && negb (is_number siteIndex)); [now left|].
      apply Hid. reflexivity. }
  split; [exact H|].
  destruct H as [->|[_ ->]]; split; reflexivity.
Qed.

(** X3.  [createSiteSettingsData] sends nothing and writes no console line.
    It leaves the state as it was when the loop over the fields throws or the
    setting has an id, and otherwise with one id drawn and requested under
    [['siteSettings', hostPattern]]. *)
Theorem createSiteSettingsData_effects (hostPattern : val) (setting : props)
    (w : world) :
  let w' := snd (createSiteSettingsData hostPattern setting w) in
  (w' = w \/
   (truthy (obj_get "objectId" setting) = false /\
    w' = id_requested [JStr "siteSettings"; hostPattern] w)) /\
  channel w' = channel w /\ console w' = console w.
Proof.
  cbv zeta.
  assert (H : snd (createSiteSettingsData hostPattern setting w) = w \/
              (truthy (obj_get "objectId" setting) = false /\
               snd (createSiteSettingsData hostPattern setting w)
               = id_requested [JStr "siteSettings"; hostPattern] w)).
  { unfold createSiteSettingsData, bind, lift.
    destruct (siteSettings_value hostPattern setting); [|now left].
    rewrite objectId_or_new_spec. unfold after_assignment, ret.
    destruct (truthy (obj_get "objectId" setting)); auto. }
  split; [exact H|].
  destruct H as [->|[_ ->]]; split; reflexivity.
Qed.

(** ** Ids *)

Lemma bytes_are_bytes (source : nat -> byte) (p n : nat) :
  Forall (fun v => exists k, v = JNum k /\ (0 <= k < 256)%Z)
         (map byte_num (bytes_at source p n)).
Proof.
  apply Forall_forall. intros v Hin.
  apply in_map_iff in Hin as (b & <- & _).
  exists (Z.of_N (Byte.to_N b)). split; [reflexivity|].
  pose proof (Byte.to_N_bounded b) as Hb. lia.
Qed.

(** X4.  [newObjectId] answers sixteen numbers between 0 and 255, the very
    bytes of the request it puts on the action bus.  It keeps no record of
    the paths it served: a second call for the same path draws the next
    sixteen bytes and issues a second request. *)
Theorem newObjectId_twice (path : list val) (w : world) :
  let first := bytes_at (entropy w) (drawn w) 16 in
  let second := bytes_at (entropy w) (drawn w + 16) 16 in
  exists w1 w2,
    newObjectId path w = (Ok (JArray (map byte_num first)), w1) /\
    newObjectId path w1 = (Ok (JArray (map byte_num second)), w2) /\
    List.length first = 16 /\
    Forall (fun v => exists k, v = JNum k /\ (0 <= k < 256)%Z)
           (map byte_num first) /\
    dispatched w2
    = (dispatched w ++ [setObjectId_request first path;
                        setObjectId_request second path])%list /\
    drawn w2 = drawn w + 32 /\
    channel w2 = channel w.
Proof.
  cbv zeta. eexists. eexists.
  split; [apply newObjectId_run|]. split; [apply newObjectId_run|].
  split; [reflexivity|]. split; [apply bytes_are_bytes|].
  cbn. rewrite <- app_assoc. repeat split. lia.
Qed.

(** ** The fields of a site *)

(** X5.  Unless the site has a field named like a member of
    [Object.prototype], the site data of a record has the five site fields
    and nothing else: tags, ids and any other field of the site stay out. *)
Theorem site_data_has_five_fields (site : props) :
  (forall k, In k (keys site) -> inherited k = false) ->
  keys (copy_site_fields site)
  = ["location"; "title"; "customTitle"; "lastAccessedTime"; "creationTime"].
Proof.
  intros Hinh. unfold copy_site_fields.
  now rewrite (copy_fields_keys site (keys site) siteData_defaults Hinh).
Qed.

Lemma site_data_has_five_fields_witness :
  keys (copy_site_fields sample_plain_site)
  = ["location"; "title"; "customTitle"; "lastAccessedTime"; "creationTime"] /\
  has_own "favicon" sample_plain_site = true.
Proof.
  split; [|reflexivity].
  apply (site_data_has_five_fields sample_plain_site).
  intros k Hin. simpl in Hin.
  repeat (destruct Hin as [<-|Hin]; [reflexivity|]). contradiction.
Defined.

(** X6.  A site that would give a record but has no id makes
    [createSiteData] throw when no numeric index comes with it, and nothing
    is drawn or requested: the error names the kind of record it would have
    been, unless the site has a [constructor] field that keeps [fromJS] from
    converting it, in which case a [TypeError] comes first. *)
Theorem createSiteData_needs_id_or_index (site : props) (siteIndex : val)
    (w : world) :
  truthy (obj_get "objectId" site) = false -> is_number siteIndex = false ->
  (forall ts, obj_get "tags" site = JArray ts ->
     existsb (is_str "bookmark") ts || existsb (is_str "bookmark-folder") ts
       = true ->
     createSiteData site siteIndex w
     = (Throw (if own_constructor site then TypeError
               else Error "Missing bookmark objectId."), w)) /\
  (truthy (obj_get "tags" site) = false \/ obj_get "tags" site = JArray [] ->
     createSiteData site siteIndex w
     = (Throw (if own_constructor site then TypeError
               else Error "Missing historySite objectId."), w)).
Proof.
  intros Hid Hidx.
  destruct (own_constructor site) eqn:Hp.
  - split; intros; apply createSiteData_unconverted; now apply unconverted.
  - exact (createSiteData_missing_id site siteIndex w (converted site Hp)
             Hid Hidx).
Qed.

Lemma createSiteData_needs_id_witness :
  createSiteData sample_new_bookmark JUndefined (sample_world sample_device)
    = (Throw (Error "Missing bookmark objectId."), sample_world sample_device) /\
  createSiteData [("location", JStr "https://a.example/")] (JStr "0")
      (sample_world sample_device)
    = (Throw (Error "Missing historySite objectId."),
       sample_world sample_device) /\
  createSiteData [("constructor", JStr "K")] JUndefined
      (sample_world sample_device)
    = (Throw TypeError, sample_world sample_device).
Proof.
  split; [|split].
  - apply (proj1 (createSiteData_needs_id_or_index sample_new_bookmark
                    JUndefined (sample_world sample_device)
                    eq_refl eq_refl) [JStr "bookmark"]); reflexivity.
  - apply (proj2 (createSiteData_needs_id_or_index
                    [("location", JStr "https://a.example/")] (JStr "0")
                    (sample_world sample_device) eq_refl eq_refl)).
    left. reflexivity.
  - apply (proj2 (createSiteData_needs_id_or_index
                    [("constructor", JStr "K")] JUndefined
                    (sample_world sample_device) eq_refl eq_refl)).
    left. reflexivity.
Defined.

(** ** The value of a site-setting record *)



(** X8.  For a setting whose enum fields are in order and none of whose
    fields is named like a member of [Object.prototype], the builder returns
    a [siteSetting] record whose value has the eleven schema fields in the
    order of the defaults and no other: a schema field the setting lacks has
    its default ([hostPattern]: the argument), one it has, other than the two
    enums, has the setting's value (so a [hostPattern] field of the setting
    wins over the argument); fields outside the schema are left out. *)
Theorem site_setting_record_follows_schema (hostPattern : val)
    (setting : props) (w : world) :
  enum_field_ok setting "adControl" ->
  enum_field_ok setting "cookieControl" ->
  (forall k, In k (keys setting) -> inherited k = false) ->
  exists fields,
    createSiteSettingsData hostPattern setting w
    = (Ok {| name := "siteSetting"; objectId := assigned_id setting w;
             value := JObject fields |},
       after_assignment setting [JStr "siteSettings"; hostPattern] w) /\
    keys fields = schema_fields /\
    (forall f, In f schema_fields -> has_own f setting = false ->
               obj_get f fields = obj_get f (initial_value hostPattern)) /\
    (forall f, In f schema_fields -> has_own f setting = true ->
               is_enum_field f = false ->
               obj_get f fields = obj_get f setting).
Proof.
  intros Ha Hc Hinh.
  destruct (siteSettings_value_returns hostPattern setting Ha Hc)
    as [fields Hfields].
  assert (Hrun : createSiteSettingsData hostPattern setting w
                 = (Ok {| name := "siteSetting";
                          objectId := assigned_id setting w;
                          value := JObject fields |},
                    after_assignment setting
                      [JStr "siteSettings"; hostPattern] w)).
  { unfold createSiteSettingsData, bind, lift.
    now rewrite Hfields, objectId_or_new_spec. }
  destruct (createSiteSettingsData_schema _ _ _ _ _ Hrun Hinh)
    as (fields' & Hv & _ & Hkeys & Habs & Hpres).
  cbn in Hv. injection Hv as <-.
  exists fields. split; [exact Hrun|]. split; [exact Hkeys|].
  split; [exact Habs|].
  intros f Hf Hown Henum. apply (Hpres f _ Hf Hown).
  unfold is_enum_field in Henum. apply orb_false_iff in Henum as [E1 E2].
  unfold assigned. now rewrite E1, E2.
Qed.

Lemma site_setting_record_follows_schema_witness :
  exists fields,
    createSiteSettingsData sample_host sample_setting_known
      (sample_world sample_device)
    = (Ok {| name := "siteSetting"; objectId := sample_id;
             value := JObject fields |},
       sample_world sample_device) /\
    keys fields = schema_fields /\
    obj_get "hostPattern" fields = sample_host /\
    obj_get "shieldsUp" fields = JBool true /\
    obj_get "zoomLevel" fields = JNum 3 /\
    has_own "flash" fields = false.
Proof.
  destruct (site_setting_record_follows_schema sample_host
              sample_setting_known (sample_world sample_device))
    as (fields & Hrun & Hkeys & Habs & Hpres).
  - right. eexists. split; reflexivity.
  - right. eexists. split; reflexivity.
  - intros k Hin. simpl in Hin.
    repeat (destruct Hin as [<-|Hin]; [reflexivity|]). contradiction.
  - exists fields. split; [exact Hrun|]. split; [exact Hkeys|].
    split; [apply (Habs "hostPattern"); [simpl; tauto | reflexivity]|].
    split; [apply (Habs "shieldsUp"); [simpl; tauto | reflexivity]|].
    split; [apply (Hpres "zoomLevel"); [simpl; tauto | reflexivity
                                        | reflexivity]|].
    destruct (has_own "flash" fields) eqn:E; [|reflexivity].
    apply has_own_keys in E. rewrite Hkeys in E. simpl in E.
    repeat (destruct E as [E|E]; [discriminate|]). contradiction.
Defined.

(** ** Batches *)

Lemma sendSyncRecords_world (CATEGORY_MAP : props) (action : val)
    (data : list (option record_data)) (w : world) :
  snd (sendSyncRecords CATEGORY_MAP action data w) = w \/
  (truthy (deviceId w) = true /\
   exists category,
     snd (sendSyncRecords CATEGORY_MAP action data w)
     = with_channel
         (channel w ++
          [(SEND_SYNC_RECORDS,
            [category; JArray (map (sync_record action (deviceId w)) data)])])
         w).
Proof.
  unfold sendSyncRecords. run.
  destruct (truthy (deviceId w)) eqn:Hdev; cbn [negb]; [|now left].
  destruct data as [|[d|] rest]; [now left| |now left].
  destruct (member CATEGORY_MAP (JStr (name d))) as [category|e];
    [|now left].
  right. split; [reflexivity|]. now exists category.
Qed.

(** X9.  With a device id, [sendSyncRecords] sends nothing for an empty
    batch, and for a batch whose first element is a record it sends one
    message: the category is the one of the first record's name, whatever
    the others are, and the array has one entry per element of the batch, in
    order, a record of its own name carrying the action, the device id and
    its id, or [undefined] for an element without a name or a value. *)
Theorem sendSyncRecords_batch (CATEGORY_MAP : props) (action : val)
    (d : record_data) (rest : list (option record_data)) (w : world) :
  truthy (deviceId w) = true -> inherited (name d) = false ->
  sendSyncRecords CATEGORY_MAP action [] w = (Ok tt, w) /\
  sendSyncRecords CATEGORY_MAP action (Some d :: rest) w
  = (Ok tt,
     with_channel
       (channel w ++
        [(SEND_SYNC_RECORDS,
          [obj_get (name d) CATEGORY_MAP;
           JArray (map (sync_record action (deviceId w)) (Some d :: rest))])])
       w) /\
  List.length (map (sync_record action (deviceId w)) (Some d :: rest))
  = S (List.length rest) /\
  (forall it : record_data,
      name it <> "" -> truthy (value it) = true ->
      has_own (name it) [("action", action); ("deviceId", deviceId w);
                         ("objectId", objectId it)] = false ->
      sync_record action (deviceId w) (Some it)
      = record_of action (deviceId w) (objectId it) (name it) (value it)) /\
  (forall it : record_data,
      name it = "" \/ truthy (value it) = false ->
      sync_record action (deviceId w) (Some it) = JUndefined) /\
  sync_record action (deviceId w) None = JUndefined.
Proof.
  intros Hdev Hinh.
  split; [unfold sendSyncRecords; run; now rewrite Hdev|].
  split.
  { unfold sendSyncRecords. run. rewrite Hdev. cbn [negb].
    now rewrite member_named. }
  split; [now rewrite length_map|].
  split; [|split; [|reflexivity]].
  - intros it Hname Hval Hfresh. unfold sync_record.
    apply String.eqb_neq in Hname. cbn [truthy]. rewrite Hname, Hval.
    cbn [negb orb]. cbn in Hfresh.
    apply orb_false_iff in Hfresh as [E1 Hfresh].
    apply orb_false_iff in Hfresh as [E2 Hfresh].
    apply orb_false_iff in Hfresh as [E3 _].
    cbn. now rewrite E1, E2, E3.
  - intros it [Hname|Hval]; unfold sync_record.
    + now rewrite Hname.
    + rewrite Hval. now destruct (negb (truthy (JStr (name it)))).
Qed.

Lemma sendSyncRecords_batch_witness :
  sendSyncRecords sample_CATEGORY_MAP (JNum 1)
    [ Some {| name := "siteSetting"; objectId := sample_id;
              value := JObject [("zoomLevel", JNum 1)] |};
      None;
      Some {| name := "bookmark"; objectId := sample_id;
              value := JObject [("isFolder", JBool false)] |} ]
    (sample_world sample_device)
  = (Ok tt,
     with_channel
       [(SEND_SYNC_RECORDS,
         [ JStr "PREFERENCES";
           JArray
             [ record_of (JNum 1) sample_device sample_id "siteSetting"
                 (JObject [("zoomLevel", JNum 1)]);
               JUndefined;
               record_of (JNum 1) sample_device sample_id "bookmark"
                 (JObject [("isFolder", JBool false)]) ] ])]
       (sample_world sample_device)).
Proof.
  apply (proj1 (proj2 (sendSyncRecords_batch sample_CATEGORY_MAP (JNum 1)
                         {| name := "siteSetting"; objectId := sample_id;
                            value := JObject [("zoomLevel", JNum 1)] |}
                         [ None;
                           Some {| name := "bookmark"; objectId := sample_id;
                                   value := JObject [("isFolder", JBool false)] |} ]
                         (sample_world sample_device) eq_refl eq_refl))).
Defined.

(** ** The handler of the action bus *)

Lemma createSiteData_with_id_keeps_state (site : props) (siteIndex : val)
    (w : world) :
  truthy (obj_get "objectId" site) = true ->
  snd (createSiteData site siteIndex w) = w.
Proof.
  intros Hid. unfold createSiteData. unfold bind at 1. unfold lift at 1.
  destruct (isSyncable_fromJS site) as [[|]|e]; [| |reflexivity].
  - rewrite Hid. cbn [negb andb]. unfold bind at 1.
    rewrite objectId_or_new_present by exact Hid. unfold bind, lift.
    now destruct (plain_includes (obj_get "tags" site) "bookmark-folder").
  - destruct (negb (truthy (obj_get "tags" site))
              || negb (truthy (js_length (obj_get "tags" site))));
      [|reflexivity].
    rewrite Hid. cbn [negb andb]. unfold bind.
    now rewrite objectId_or_new_present by exact Hid.
Qed.

Lemma createSiteSettingsData_with_id_keeps_state (hostPattern : val)
    (setting : props) (w : world) :
  truthy (obj_get "objectId" setting) = true ->
  snd (createSiteSettingsData hostPattern setting w) = w.
Proof.
  intros Hid. unfold createSiteSettingsData. unfold bind at 1.
  unfold lift at 1.
  destruct (siteSettings_value hostPattern setting); [|reflexivity].
  unfold bind. now rewrite objectId_or_new_present by exact Hid.
Qed.

Lemma isSyncable_siteSetting_none (setting : props) :
  (forall field, In field schema_fields -> has_own field setting = false) ->
  isSyncable "siteSetting" setting = Ok false.
Proof.
  intros Hnone.
  change (isSyncable "siteSetting" setting)
    with (Ok (existsb (fun field => has_own field setting) schema_fields)).
  f_equal.
  destruct (existsb (fun field => has_own field setting) schema_fields) eqn:E;
    [|reflexivity].
  apply existsb_exists in E as (field & Hin & Hown).
  rewrite (Hnone field Hin) in Hown. discriminate.
Qed.

(** X10.  Whatever the action, [doAction] draws no random byte and puts no
    request on the action bus, hence assigns no id; and it does one of three
    things: nothing, write one console line, or send one message.  A message
    of records goes out only under an established device id. *)
Theorem doAction_effects (CATEGORY_MAP : props) (CREATE UPDATE DELETE : val)
    (a : action) (w : world) :
  let w' := snd (doAction CATEGORY_MAP CREATE UPDATE DELETE a w) in
  (w' = w \/
   (exists line, w' = with_console (console w ++ [line]) w) \/
   (exists m, w' = with_channel (channel w ++ [m]) w /\
              (fst m = SEND_SYNC_RECORDS -> truthy (deviceId w) = true))) /\
  drawn w' = drawn w /\ dispatched w' = dispatched w.
Proof.
  cbv zeta.
  assert (Hsend : forall act data,
             snd (sendSyncRecords CATEGORY_MAP act data w) = w \/
             (exists line,
                 snd (sendSyncRecords CATEGORY_MAP act data w)
                 = with_console (console w ++ [line]) w) \/
             (exists m,
                 snd (sendSyncRecords CATEGORY_MAP act data w)
                 = with_channel (channel w ++ [m]) w /\
                 (fst m = SEND_SYNC_RECORDS -> truthy (deviceId w) = true))).
  { intros act data.
    destruct (sendSyncRecords_world CATEGORY_MAP act data w)
      as [H|(Hdev & category & H)]; [now left|].
    right. right. eexists. split; [exact H|]. intros _. exact Hdev. }
  assert (H : snd (doAction CATEGORY_MAP CREATE UPDATE DELETE a w) = w \/
              (exists line,
                  snd (doAction CATEGORY_MAP CREATE UPDATE DELETE a w)
                  = with_console (console w ++ [line]) w) \/
              (exists m,
                  snd (doAction CATEGORY_MAP CREATE UPDATE DELETE a w)
                  = with_channel (channel w ++ [m]) w /\
                  (fst m = SEND_SYNC_RECORDS -> truthy (deviceId w) = true))).
  { unfold doAction. destruct (action_item a) as [v|o].
    { destruct (not_immutable v); now left. }
    destruct (truthy (obj_get "objectId" o)) eqn:Hid; cbn [negb].
    { assert (Hsite : forall act,
                 snd (bind (createSiteData o JUndefined)
                        (fun d => sendSyncRecords CATEGORY_MAP act [d]) w) = w \/
                 (exists line,
                     snd (bind (createSiteData o JUndefined)
                            (fun d => sendSyncRecords CATEGORY_MAP act [d]) w)
                     = with_console (console w ++ [line]) w) \/
                 (exists m,
                     snd (bind (createSiteData o JUndefined)
                            (fun d => sendSyncRecords CATEGORY_MAP act [d]) w)
                     = with_channel (channel w ++ [m]) w /\
                     (fst m = SEND_SYNC_RECORDS ->
                      truthy (deviceId w) = true))).
      { intros act.
        assert (Hw := createSiteData_with_id_keeps_state o JUndefined w Hid).
        unfold bind. destruct (createSiteData o JUndefined w) as [[d|e] w1].
        - cbn [snd] in Hw. subst w1. apply Hsend.
        - left. exact Hw. }
      assert (Hset : forall act,
                 snd (bind (createSiteSettingsData (hostPattern a) o)
                        (fun d => sendSyncRecords CATEGORY_MAP act [Some d]) w)
                 = w \/
                 (exists line,
                     snd (bind (createSiteSettingsData (hostPattern a) o)
                            (fun d => sendSyncRecords CATEGORY_MAP act [Some d])
                            w)
                     = with_console (console w ++ [line]) w) \/
                 (exists m,
                     snd (bind (createSiteSettingsData (hostPattern a) o)
                            (fun d => sendSyncRecords CATEGORY_MAP act [Some d])
                            w)
                     = with_channel (channel w ++ [m]) w /\
                     (fst m = SEND_SYNC_RECORDS ->
                      truthy (deviceId w) = true))).
      { intros act.
        assert (Hw := createSiteSettingsData_with_id_keeps_state
                        (hostPattern a) o w Hid).
        unfold bind.
        destruct (createSiteSettingsData (hostPattern a) o w) as [[d|e] w1].
        - cbn [snd] in Hw. subst w1. apply Hsend.
        - left. exact Hw. }
      destruct (actionType a); try apply Hsite; try (now left).
      - right. right. eexists. split; [reflexivity|]. discriminate.
      - unfold bind at 1. unfold lift at 1.
        destruct (isSyncable "siteSetting" o) as [[|]|e];
          [apply Hset | now left | now left].
      - unfold bind at 1. unfold lift at 1.
        destruct (isSyncable "siteSetting" o) as [[|]|e];
          [apply Hset | now left | now left].
      - apply Hset.
      - right. right. eexists. split; [reflexivity|]. discriminate. }
    unfold bind, lift, log.
    destruct (to_string (JObject o)) as [shown|e]; [|now left].
    right. left. eexists. reflexivity. }
  split; [exact H|].
  destruct H as [->|[[line ->]|(m & -> & _)]]; split; reflexivity.
Qed.

(** X11.  Given a device id, an add, update or remove of a site that has an
    id and that [fromJS] converts sends exactly one record, under CREATE,
    UPDATE or DELETE respectively, and changes nothing else: a [bookmark]
    record, with [isFolder] telling whether the tags include the folder tag,
    when the tags include a bookmark tag, a [historySite] record of the site
    data when the site has no tags.  The record carries the site's own id,
    and the site data holds the five site fields.  For a site with a
    [constructor] field that [fromJS] does not convert, a [TypeError]
    escapes and nothing is sent. *)
Theorem doAction_sends_site_record
    (CATEGORY_MAP : props) (CREATE UPDATE DELETE : val)
    (a : action) (site : props) (act : val) (w : world) :
  action_item a = ImmMap site ->
  site_write CREATE UPDATE DELETE (actionType a) = Some act ->
  truthy (obj_get "objectId" site) = true ->
  truthy (deviceId w) = true ->
  (own_constructor site = false ->
   exists sd,
     site_data_of site sd /\
     (forall ts,
         obj_get "tags" site = JArray ts ->
         existsb (is_str "bookmark") ts || existsb (is_str "bookmark-folder") ts
           = true ->
         doAction CATEGORY_MAP CREATE UPDATE DELETE a w
         = (Ok tt,
            with_channel
              (channel w ++
               [single_record_message CATEGORY_MAP act (deviceId w)
                  (obj_get "objectId" site) "bookmark"
                  (JObject
                     [ ("site", JObject sd);
                       ("isFolder",
                        JBool (existsb (is_str "bookmark-folder") ts));
                       ("folderId",
                        js_or (obj_get "folderId" site) (JNum 0));
                       ("parentFolderId",
                        js_or (obj_get "parentFolderId" site) (JNum 0)) ])])
              w)) /\
     (truthy (obj_get "tags" site) = false \/ obj_get "tags" site = JArray [] ->
      doAction CATEGORY_MAP CREATE UPDATE DELETE a w
      = (Ok tt,
         with_channel
           (channel w ++
            [single_record_message CATEGORY_MAP act (deviceId w)
               (obj_get "objectId" site) "historySite" (JObject sd)]) w))) /\
  (own_constructor site = true ->
   doAction CATEGORY_MAP CREATE UPDATE DELETE a w = (Throw TypeError, w)).
Proof.
  intros Hitem Hact Hid Hdev.
  assert (Hstep : forall d,
             createSiteData site JUndefined w = (Ok (Some d), w) ->
             inherited (name d) = false -> name d <> "" ->
             truthy (value d) = true ->
             has_own (name d) [("action", act); ("deviceId", deviceId w);
                               ("objectId", objectId d)] = false ->
             doAction CATEGORY_MAP CREATE UPDATE DELETE a w
             = (Ok tt,
                with_channel
                  (channel w ++
                   [single_record_message CATEGORY_MAP act (deviceId w)
                      (objectId d) (name d) (value d)]) w)).
  { intros d Hd H1 H2 H3 H4. unfold doAction. rewrite Hitem, Hid. cbn [negb].
    destruct (actionType a); try discriminate; injection Hact as <-;
      rewrite (bind_run _ _ _ _ _ Hd); now apply sendSyncRecords_single. }
  assert (Hassigned : assigned_id site w = obj_get "objectId" site)
    by (unfold assigned_id; now rewrite Hid).
  assert (Hafter : forall path, after_assignment site path w = w)
    by (intros path; unfold after_assignment; now rewrite Hid).
  split.
  - intros Hp. apply converted in Hp. exists (copy_site_fields site).
    split; [apply copy_site_fields_data|]. split.
    + intros ts Htags Hsync.
      rewrite <- Hassigned.
      apply (Hstep {| name := "bookmark"; objectId := assigned_id site w;
                      value := bookmark_record site (copy_site_fields site)
                                 (existsb (is_str "bookmark-folder") ts) |});
        try reflexivity; [|discriminate].
      rewrite (createSiteData_bookmark site ts JUndefined w Hp
                 (or_introl Hid) Htags Hsync).
      now rewrite Hafter.
    + intros Htags.
      rewrite <- Hassigned.
      apply (Hstep {| name := "historySite"; objectId := assigned_id site w;
                      value := JObject (copy_site_fields site) |});
        try reflexivity; [|discriminate].
      rewrite (createSiteData_history site JUndefined w Hp (or_introl Hid)
                 Htags).
      now rewrite Hafter.
  - intros Hp. apply unconverted in Hp.
    unfold doAction. rewrite Hitem, Hid. cbn [negb].
    destruct (actionType a); try discriminate;
      apply bind_throw; now apply createSiteData_unconverted.
Qed.

Lemma doAction_sends_site_record_witness :
  (exists sd,
      doAction sample_CATEGORY_MAP (JNum 0) (JNum 1) (JNum 2)
        sample_remove_action (sample_world sample_device)
      = (Ok tt,
         with_channel
           [single_record_message sample_CATEGORY_MAP (JNum 2) sample_device
              sample_id "bookmark"
              (JObject [ ("site", JObject sd);
                         ("isFolder", JBool false);
                         ("folderId", JNum 0);
                         ("parentFolderId", JNum 0) ])]
           (sample_world sample_device)) /\
      obj_get "title" sd = JStr "E") /\
  (exists sd,
      doAction sample_CATEGORY_MAP (JNum 0) (JNum 1) (JNum 2)
        sample_history_action (sample_world sample_device)
      = (Ok tt,
         with_channel
           [single_record_message sample_CATEGORY_MAP (JNum 0) sample_device
              sample_id "historySite" (JObject sd)]
           (sample_world sample_device)) /\
      obj_get "location" sd = JStr "https://h.example/") /\
  doAction sample_CATEGORY_MAP (JNum 0) (JNum 1) (JNum 2)
    {| actionType := SYNC_UPDATE_SITE;
       action_item := ImmMap sample_constructor_bookmark;
       hostPattern := JUndefined |} (sample_world sample_device)
  = (Throw TypeError, sample_world sample_device).
Proof.
  split; [|split].
  - destruct (proj1 (doAction_sends_site_record
                       sample_CATEGORY_MAP (JNum 0) (JNum 1) (JNum 2)
                       sample_remove_action sample_plain_site (JNum 2)
                       (sample_world sample_device)
                       eq_refl eq_refl eq_refl eq_refl) eq_refl)
      as (sd & (_ & Ht & _) & Hb & _).
    exists sd. split; [|exact Ht].
    apply (Hb [JStr "bookmark"]); reflexivity.
  - destruct (proj1 (doAction_sends_site_record
                       sample_CATEGORY_MAP (JNum 0) (JNum 1) (JNum 2)
                       sample_history_action sample_history_site (JNum 0)
                       (sample_world sample_device)
                       eq_refl eq_refl eq_refl eq_refl) eq_refl)
      as (sd & (Hl & _) & _ & Hh).
    exists sd. split; [|exact Hl].
    apply Hh. left. reflexivity.
  - apply (proj2 (doAction_sends_site_record
                    sample_CATEGORY_MAP (JNum 0) (JNum 1) (JNum 2)
                    {| actionType := SYNC_UPDATE_SITE;
                       action_item := ImmMap sample_constructor_bookmark;
                       hostPattern := JUndefined |}
                    sample_constructor_bookmark (JNum 1)
                    (sample_world sample_device)
                    eq_refl eq_refl eq_refl eq_refl)).
    reflexivity.
Defined.

(** X12.  What [doAction] drops.  An action without an Immutable item is
    ignored; an item without an id gets one console line and nothing else,
    whatever the action type (clear actions included); an action of a type
    the switch does not list is ignored; and a site setting without any
    schema field is ignored on add and update. *)
Theorem doAction_drops
    (CATEGORY_MAP : props) (CREATE UPDATE DELETE : val)
    (a : action) (w : world) :
  (forall v, action_item a = Plain v -> not_immutable v = true ->
             doAction CATEGORY_MAP CREATE UPDATE DELETE a w = (Ok tt, w)) /\
  (forall o, action_item a = ImmMap o ->
             truthy (obj_get "objectId" o) = false ->
             has_own "toString" o = false ->
             doAction CATEGORY_MAP CREATE UPDATE DELETE a w
             = (Ok tt,
                with_console
                  (console w ++ ["Missing object ID! [object Object]"]) w)) /\
  (forall o, action_item a = ImmMap o ->
             truthy (obj_get "objectId" o) = true ->
             actionType a = OTHER_ACTION ->
             doAction CATEGORY_MAP CREATE UPDATE DELETE a w = (Ok tt, w)) /\
  (forall o, action_item a = ImmMap o ->
             truthy (obj_get "objectId" o) = true ->
             actionType a = SYNC_ADD_SITE_SETTING \/
             actionType a = SYNC_UPDATE_SITE_SETTING ->
             (forall field, In field schema_fields ->
                            has_own field o = false) ->
             doAction CATEGORY_MAP CREATE UPDATE DELETE a w = (Ok tt, w)).
Proof.
  split; [|split; [|split]].
  - intros v Hitem Hv. unfold doAction. now rewrite Hitem, Hv.
  - intros o Hitem Hid Hts. unfold doAction. rewrite Hitem, Hid.
    cbn [negb]. unfold bind, lift. cbn [to_string]. now rewrite Hts.
  - intros o Hitem Hid Ht. unfold doAction. now rewrite Hitem, Hid, Ht.
  - intros o Hitem Hid Ht Hnone.
    assert (Hsync := isSyncable_siteSetting_none o Hnone).
    unfold doAction. rewrite Hitem, Hid. cbn [negb].
    destruct Ht as [-> | ->]; unfold bind, lift; now rewrite Hsync.
Qed.

Lemma doAction_drops_witness :
  doAction sample_CATEGORY_MAP (JNum 0) (JNum 1) (JNum 2)
    {| actionType := SYNC_ADD_SITE; action_item := Plain JUndefined;
       hostPattern := JUndefined |} (sample_world sample_device)
  = (Ok tt, sample_world sample_device) /\
  doAction sample_CATEGORY_MAP (JNum 0) (JNum 1) (JNum 2)
    {| actionType := SYNC_CLEAR_HISTORY;
       action_item := ImmMap [("location", JStr "https://a.example/")];
       hostPattern := JUndefined |} (sample_world sample_device)
  = (Ok tt,
     with_console ["Missing object ID! [object Object]"]
       (sample_world sample_device)) /\
  doAction sample_CATEGORY_MAP (JNum 0) (JNum 1) (JNum 2)
    (sample_clear_action OTHER_ACTION) (sample_world sample_device)
  = (Ok tt, sample_world sample_device) /\
  doAction sample_CATEGORY_MAP (JNum 0) (JNum 1) (JNum 2)
    sample_unsyncable_setting_action (sample_world sample_device)
  = (Ok tt, sample_world sample_device).
Proof.
  split; [|split; [|split]].
  - apply (proj1 (doAction_drops sample_CATEGORY_MAP (JNum 0) (JNum 1)
                    (JNum 2) _ (sample_world sample_device)) JUndefined);
      reflexivity.
  - apply (proj1 (proj2 (doAction_drops sample_CATEGORY_MAP (JNum 0) (JNum 1)
                           (JNum 2) _ (sample_world sample_device)))
             [("location", JStr "https://a.example/")]); reflexivity.
  - apply (proj1 (proj2 (proj2 (doAction_drops sample_CATEGORY_MAP (JNum 0)
                                  (JNum 1) (JNum 2)
                                  (sample_clear_action OTHER_ACTION)
                                  (sample_world sample_device))))
             [("objectId", sample_id)]); reflexivity.
  - apply (proj2 (proj2 (proj2 (doAction_drops sample_CATEGORY_MAP (JNum 0)
                                  (JNum 1) (JNum 2)
                                  sample_unsyncable_setting_action
                                  (sample_world sample_device))))
             [("flash", JNum 1); ("objectId", sample_id)]).
    + reflexivity.
    + reflexivity.
    + right. reflexivity.
    + intros field Hin. simpl in Hin.
      repeat (destruct Hin as [<-|Hin]; [reflexivity|]). contradiction.
Defined.

(** X13.  The two clear actions build no record and ask for no device id:
    for an item with an id, clear-history sends the category-level delete
    with the history category and clear-site-settings sends its own delete
    message, also while the device id is still [null]. *)
Theorem doAction_clear_needs_no_deviceId
    (CATEGORY_MAP : props) (CREATE UPDATE DELETE : val)
    (a : action) (o : props) (w : world) :
  action_item a = ImmMap o ->
  truthy (obj_get "objectId" o) = true ->
  (actionType a = SYNC_CLEAR_HISTORY ->
   doAction CATEGORY_MAP CREATE UPDATE DELETE a w
   = (Ok tt,
      with_channel
        (channel w ++
         [(DELETE_SYNC_CATEGORY, [obj_get "historySite" CATEGORY_MAP])]) w)) /\
  (actionType a = SYNC_CLEAR_SITE_SETTINGS ->
   doAction CATEGORY_MAP CREATE UPDATE DELETE a w
   = (Ok tt,
      with_channel (channel w ++ [(DELETE_SYNC_SITE_SETTINGS, [])]) w)).
Proof.
  intros Hitem Hid.
  split; intros Ht; unfold doAction; now rewrite Hitem, Hid, Ht.
Qed.

Lemma doAction_clear_witness :
  doAction sample_CATEGORY_MAP (JNum 0) (JNum 1) (JNum 2)
    (sample_clear_action SYNC_CLEAR_HISTORY) (sample_world JNull)
  = (Ok tt,
     with_channel [(DELETE_SYNC_CATEGORY, [JStr "HISTORY_SITES"])]
       (sample_world JNull)) /\
  doAction sample_CATEGORY_MAP (JNum 0) (JNum 1) (JNum 2)
    (sample_clear_action SYNC_CLEAR_SITE_SETTINGS) (sample_world JNull)
  = (Ok tt,
     with_channel [(DELETE_SYNC_SITE_SETTINGS, [])] (sample_world JNull)).
Proof.
  split.
  - apply (proj1 (doAction_clear_needs_no_deviceId
                    sample_CATEGORY_MAP (JNum 0) (JNum 1) (JNum 2)
                    (sample_clear_action SYNC_CLEAR_HISTORY)
                    [("objectId", sample_id)] (sample_world JNull)
                    eq_refl eq_refl)).
    reflexivity.
  - apply (proj2 (doAction_clear_needs_no_deviceId
                    sample_CATEGORY_MAP (JNum 0) (JNum 1) (JNum 2)
                    (sample_clear_action SYNC_CLEAR_SITE_SETTINGS)
                    [("objectId", sample_id)] (sample_world JNull)
                    eq_refl eq_refl)).
    reflexivity.
Defined.

(** ** Later starts, and starts without a device id *)




Lemma backfill_site_without_device (CATEGORY_MAP : props) (CREATE : val)
    (i : nat) (site : option props) (w : world) :
  truthy (deviceId w) = false -> site_well_formed site ->
  backfill_site CATEGORY_MAP CREATE i site w = (Ok tt, w) \/
  exists w' e,
    backfill_site CATEGORY_MAP CREATE i site w = (Throw e, w') /\
    channel w' = channel w /\
    (e = Error "Cannot build a sync record because deviceId is not set" \/
     e = TypeError) /\
    (bookmark_converts site ->
     e = Error "Cannot build a sync record because deviceId is not set").
Proof.
  intros Hdev Hwf. destruct site as [s|]; unfold backfill_site; [|now left].
  cbn [bookmark_converts unsynced_bookmark].
  destruct (truthy (obj_get "objectId" s)) eqn:Eid; [now left|].
  cbn [negb andb].
  destruct Hwf as [Hid|[Hnone|[ts Htags]]]; [congruence| |].
  - rewrite (isSyncable_bookmark_no_tags s Hnone). now left.
  - rewrite (isSyncable_bookmark_tags s ts Htags).
    rewrite !(has_tag_array _ s ts Htags).
    destruct (existsb (is_str "bookmark") ts
              || existsb (is_str "bookmark-folder") ts) eqn:Hsync;
      [|now left].
    right. unfold bind at 1. unfold lift at 1.
    rewrite <- (negb_involutive (own_constructor s)), <- isPlainObj_spec.
    destruct (isPlainObj s) eqn:Hp; cbn [negb].
    + erewrite bind_run
        by (apply (createSiteData_bookmark s ts);
            [exact Hp | right; reflexivity | exact Htags | exact Hsync]).
      unfold after_assignment. rewrite Eid.
      rewrite sendSyncRecords_refuses_deviceId by exact Hdev.
      eexists. eexists. split; [reflexivity|]. split; [reflexivity|].
      split; [now left | reflexivity].
    + rewrite (bind_throw _ _ _ _ _
                 (createSiteData_unconverted s (JNum (Z.of_nat i)) w Hp)).
      eexists. eexists. split; [reflexivity|]. split; [reflexivity|].
      split; [now right|]. intros H. specialize (H eq_refl). discriminate.
Qed.

Lemma backfill_without_device (CATEGORY_MAP : props) (CREATE : val) :
  forall (l : list (option props)) (i : nat) (w : world),
    truthy (deviceId w) = false -> Forall site_well_formed l ->
    for_each_from (backfill_site CATEGORY_MAP CREATE) i l w = (Ok tt, w) \/
    exists w' e,
      for_each_from (backfill_site CATEGORY_MAP CREATE) i l w
      = (Throw e, w') /\
      channel w' = channel w /\
      (e = Error "Cannot build a sync record because deviceId is not set" \/
       e = TypeError) /\
      (Forall bookmark_converts l ->
       e = Error "Cannot build a sync record because deviceId is not set").
Proof.
  induction l as [|site r IH]; intros i w Hdev Hwf; cbn [for_each_from].
  - now left.
  - inversion Hwf as [|? ? Hsite Hr]; subst.
    destruct (backfill_site_without_device CATEGORY_MAP CREATE i site w
                Hdev Hsite) as [H1|(w1 & e & H1 & Hc & He & Hconv)].
    + rewrite (bind_run _ _ _ _ _ H1).
      destruct (IH (S i) w Hdev Hr) as [H2|(w2 & e & H2 & Hc & He & Hconv)];
        [now left|].
      right. exists w2, e. split; [exact H2|]. split; [exact Hc|].
      split; [exact He|]. intros Hall. apply Hconv.
      now inversion Hall.
    + right. exists w1, e. split; [now apply bind_throw|].
      split; [exact Hc|]. split; [exact He|].
      intros Hall. apply Hconv. now inversion Hall.
Qed.

(** X15.  Without a device id, a start on a well-formed state ends in an
    exception before anything is sent and before polling starts: no message,
    no watermark, no timer and no listener on the channel, though the
    handler of the action bus is registered by then.  The exception is the
    device-id error on a first run, and on any run when [fromJS] converts
    every bookmark that still lacks an id; where it does not convert one,
    a later start may end in the [TypeError] of the builder instead. *)
Theorem start_without_device_id_throws
    (CATEGORY_MAP : props) (CREATE UPDATE : val)
    (categoryNames : list string) (fetchInterval : Z) (isFirstRun : bool)
    (w : world) :
  truthy (deviceId w) = false -> state_well_formed (appState w) ->
  exists w' e,
    onSyncReady CATEGORY_MAP CREATE UPDATE categoryNames fetchInterval
      isFirstRun w
    = (Throw e, w') /\
    (isFirstRun = true \/ Forall bookmark_converts (sites_of (appState w)) ->
     e = Error "Cannot build a sync record because deviceId is not set") /\
    (e = Error "Cannot build a sync record because deviceId is not set" \/
     e = TypeError) /\
    channel w' = channel w /\
    startAt w' = startAt w /\
    pollIntervalId w' = pollIntervalId w /\
    handlers w' = handlers w /\
    registered w' = S (registered w).
Proof.
  intros Hdev (Hsites & settings & Hsettings & Hwf).
  set (w0 := with_registered (S (registered w)) w).
  assert (H : exists w' e,
             onSyncReady CATEGORY_MAP CREATE UPDATE categoryNames
               fetchInterval isFirstRun w
             = (Throw e, w') /\
             (isFirstRun = true \/
              Forall bookmark_converts (sites_of (appState w)) ->
              e = Error "Cannot build a sync record because deviceId is not set") /\
             (e = Error "Cannot build a sync record because deviceId is not set" \/
              e = TypeError) /\
             channel w' = channel w0 /\ same_engine w0 w').
  { unfold onSyncReady.
    rewrite (bind_run (modify (fun w => with_registered (S (registered w)) w))
               _ w w0 tt eq_refl).
    destruct isFirstRun.
    { eexists. eexists. split.
      - apply bind_throw. unfold bind. rewrite newObjectId_run.
        apply sendSyncRecords_refuses_deviceId. exact Hdev.
      - split; [reflexivity|]. split; [now left|].
        split; [reflexivity|]. unfold same_engine. cbn. tauto. }
    rewrite (bind_run (ret tt) _ w0 w0 tt eq_refl).
    rewrite (bind_run get_world _ w0 w0 w0 eq_refl).
    change (appState w0) with (appState w). rewrite Hsettings.
    destruct (backfill_without_device CATEGORY_MAP CREATE
                (sites_of (appState w)) 0 w0 Hdev Hsites)
      as [H2|(w2 & e & H2 & Hc2 & He & Hconv)]; unfold sites_of in H2.
    2:{ exists w2, e. split; [now apply bind_throw|].
        split; [intros [Hf|Hall]; [discriminate | now apply Hconv]|].
        split; [exact He|]. split; [exact Hc2|].
        assert (Hq := quiet_for_each_from _
                        (quiet_backfill_site CATEGORY_MAP CREATE)
                        (match sites (appState w) with
                         | Some l => l | None => [] end) 0 w0).
        now rewrite H2 in Hq. }
    rewrite (bind_run _ _ _ _ _ H2).
    assert (Hwf' : Forall setting_well_formed (syncable_settings settings)).
    { apply Forall_forall. intros kv Hin. unfold syncable_settings in Hin.
      apply filter_In in Hin as [Hin _].
      rewrite Forall_forall in Hwf. now apply Hwf. }
    destruct (settings_records_return (syncable_settings settings) w0 Hwf')
      as (records & w3 & H3).
    rewrite (bind_run _ _ _ _ _ H3).
    destruct (settings_records_run _ _ _ _ H3) as (_ & Hc3 & _).
    assert (Q3 : same_engine w0 w3).
    { assert (Hq := quiet_map_M
                      (fun kv => createSiteSettingsData (JStr (fst kv)) (snd kv))
                      (fun kv => quiet_createSiteSettingsData _ _)
                      (syncable_settings settings) w0).
      now rewrite H3 in Hq. }
    exists w3. eexists. split.
    - apply bind_throw. apply sendSyncRecords_refuses_deviceId.
      destruct Q3 as (E3 & _). now rewrite E3.
    - split; [reflexivity|]. split; [now left|].
      split; [exact Hc3 | exact Q3]. }
  destruct H as (w' & e & H & He1 & He2 & Hc & (_ & Es & Ep & Er & Eh & _)).
  exists w', e. split; [exact H|]. cbn in Hc, Es, Ep, Er, Eh.
  split; [exact He1|]. split; [exact He2|]. auto.
Qed.

Lemma start_without_device_id_witness :
  exists w',
    onSyncReady sample_CATEGORY_MAP (JNum 0) (JNum 1) sample_categoryNames
      60000 true (sample_world JNull)
    = (Throw (Error "Cannot build a sync record because deviceId is not set"),
       w') /\
    channel w' = [] /\ pollIntervalId w' = None /\ registered w' = 1.
Proof.
  destruct (start_without_device_id_throws
              sample_CATEGORY_MAP (JNum 0) (JNum 1) sample_categoryNames
              60000 true (sample_world JNull)
              eq_refl sample_state_well_formed)
    as (w' & e & H & He & _ & Hc & _ & Hp & _ & Hr).
  exists w'. rewrite (He (or_introl eq_refl)) in H.
  split; [exact H|]. split; [exact Hc|]. split; [exact Hp|].
  exact Hr.
Defined.

(** ** The shape of a transport-safe copy *)

Lemma no_buffer_on_object_paths (path : list string) :
  forall (v : val) (bs : list byte),
    get_path path (arrayify_field v) <> JUint8Array bs.
Proof.
  induction path as [|k r IH]; intros v bs.
  - cbn [get_path]. destruct v; discriminate.
  - destruct v as [| | | | | | |o];
      cbn [arrayify_field get_path array_of_bytes obj_get];
      try discriminate.
    + rewrite get_path_undefined. discriminate.
    + fold (deepArrayify o). rewrite obj_get_arrayified. apply IH.
Qed.

(** X17.  A transport-safe copy has the properties of the original, by the
    same names in the same order, and no byte buffer where a chain of
    property names leads.  It is shallow on arrays: an array comes out as it
    went in, with whatever it holds; and a [null] comes out as an empty
    object. *)
Theorem ipcSafeObject_shape (object : props) :
  keys (ipcSafeObject object) = keys object /\
  (forall path bs,
      get_path path (JObject (ipcSafeObject object)) <> JUint8Array bs) /\
  (forall k xs, obj_get k object = JArray xs ->
                obj_get k (ipcSafeObject object) = JArray xs) /\
  (forall k, obj_get k object = JNull ->
             obj_get k (ipcSafeObject object) = JObject []).
Proof.
  split; [|split; [|split]].
  - unfold ipcSafeObject, deepArrayify, keys. rewrite map_map.
    apply map_ext. now intros [k v].
  - intros path bs.
    exact (no_buffer_on_object_paths path (JObject object) bs).
  - intros k xs H. unfold ipcSafeObject. now rewrite obj_get_arrayified, H.
  - intros k H. unfold ipcSafeObject. now rewrite obj_get_arrayified, H.
Qed.

Lemma ipcSafeObject_shape_witness :
  obj_get "records"
    (ipcSafeObject [("records", JArray [JUint8Array sample_bytes]);
                    ("parent", JNull)])
  = JArray [JUint8Array sample_bytes] /\
  obj_get "parent"
    (ipcSafeObject [("records", JArray [JUint8Array sample_bytes]);
                    ("parent", JNull)])
  = JObject [].
Proof.
  split.
  - apply (proj1 (proj2 (proj2 (ipcSafeObject_shape
                                  [("records", JArray [JUint8Array sample_bytes]);
                                   ("parent", JNull)])))).
    reflexivity.
  - apply (proj2 (proj2 (proj2 (ipcSafeObject_shape
                                  [("records", JArray [JUint8Array sample_bytes]);
                                   ("parent", JNull)])))).
    reflexivity.
Defined.

(** ** Finding an object by its id *)

Lemma prim_is_eq (a b : val) : prim_is a b = true -> a = b.
Proof.
  destruct a, b; cbn; try discriminate; intros H; try reflexivity.
  - apply Bool.eqb_prop in H. now subst.
  - apply Z.eqb_eq in H. now subst.
  - apply String.eqb_eq in H. now subst.
Qed.

Lemma list_is_eq : forall xs ys, list_is xs ys = true -> xs = ys.
Proof.
  induction xs as [|x xs IH]; intros [|y ys] H; cbn in H;
    try discriminate; [reflexivity|].
  apply andb_true_iff in H as [Hx Hr].
  apply prim_is_eq in Hx. apply IH in Hr. now subst.
Qed.

Lemma list_is_refl (xs : list val) :
  Forall (fun v => is_primitive v = true) xs -> list_is xs xs = true.
Proof.
  induction 1 as [|x xs Hx _ IH]; cbn; [reflexivity|].
  rewrite IH, andb_true_r.
  destruct x; cbn in *; try discriminate; try reflexivity.
  - apply Bool.eqb_reflx.
  - apply Z.eqb_refl.
  - apply String.eqb_refl.
Qed.

Lemma id_matches_true (ids : list val) (s : props) :
  id_matches ids s = Ok true -> obj_get "objectId" s = JArray ids.
Proof.
  unfold id_matches.
  destruct (truthy (obj_get "objectId" s)); [|discriminate].
  destruct (obj_get "objectId" s); cbn; try discriminate.
  intros [= H]. apply list_is_eq in H. now subst.
Qed.

Lemma id_matches_own (ids : list val) (s : props) :
  Forall (fun v => is_primitive v = true) ids ->
  obj_get "objectId" s = JArray ids -> id_matches ids s = Ok true.
Proof.
  intros Hp H. unfold id_matches. rewrite H. cbn.
  now rewrite list_is_refl.
Qed.

Lemma find_site_entry_spec (ids : list val) :
  forall (l : list (option props)) (i : nat),
    Forall site_with_list_id l ->
    exists r,
      find_site_entry ids i l = Ok r /\
      match r with
      | Some (k, s) =>
          exists j, k = JNum (Z.of_nat (i + j)) /\
                    nth_error l j = Some (Some s) /\
                    obj_get "objectId" s = JArray ids /\
                    (forall j' s', j' < j -> nth_error l j' = Some (Some s') ->
                                   id_matches ids s' = Ok false)
      | None => forall j s, nth_error l j = Some (Some s) ->
                            id_matches ids s = Ok false
      end.
Proof.
  induction l as [|site r IH]; intros i Hl; cbn [find_site_entry].
  - exists None. split; [reflexivity|]. intros [|j] s H; discriminate.
  - inversion Hl as [|? ? (s & -> & Hs) Hr]; subst.
    assert (Hm : exists b, id_matches ids s = Ok b).
    { unfold id_matches.
      destruct Hs as [Hf|[[xs Hx]|[o Ho]]].
      - rewrite Hf. now eexists.
      - rewrite Hx. cbn. now eexists.
      - rewrite Ho. cbn. now eexists. }
    destruct Hm as [[|] Hm]; rewrite Hm.
    + exists (Some (JNum (Z.of_nat i), s)). split; [reflexivity|].
      exists 0. rewrite Nat.add_0_r. split; [reflexivity|].
      split; [reflexivity|]. split; [now apply id_matches_true|].
      intros j' s' Hj. lia.
    + destruct (IH (S i) Hr) as (res & Hres & Hspec).
      exists res. split; [exact Hres|].
      destruct res as [[k s0]|].
      * destruct Hspec as (j & Hk & Hn & Hid & Hbefore).
        exists (S j). split; [rewrite Hk; f_equal; f_equal; lia|].
        split; [exact Hn|]. split; [exact Hid|].
        intros [|j'] s' Hj Hn'.
        -- cbn in Hn'. injection Hn' as <-. exact Hm.
        -- apply (Hbefore j' s'); [lia | exact Hn'].
      * intros [|j] s0 Hn.
        -- cbn in Hn. injection Hn as <-. exact Hm.
        -- apply (Hspec j s0 Hn).
Qed.

(** X18.  On a list of sites each of which is there and has a List (or
    nothing) for its id, looking an id up under [BOOKMARKS] or
    [HISTORY_SITES] changes nothing and answers the first site that has that
    very id, with its index, or nothing when no site has it. *)
Theorem getObjectById_finds_first_site (ids : list val) (category : string)
    (l : list (option props)) (w : world) :
  category = "BOOKMARKS" \/ category = "HISTORY_SITES" ->
  sites (appState w) = Some l ->
  Forall site_with_list_id l ->
  Forall (fun v => is_primitive v = true) ids ->
  exists r,
    getObjectById ids (JStr category) w = (Ok r, w) /\
    match r with
    | Some (k, s) =>
        exists j, k = JNum (Z.of_nat j) /\
                  nth_error l j = Some (Some s) /\
                  obj_get "objectId" s = JArray ids /\
                  (forall j' s', j' < j -> nth_error l j' = Some (Some s') ->
                                 obj_get "objectId" s' <> JArray ids)
    | None => forall j s, nth_error l j = Some (Some s) ->
                          obj_get "objectId" s <> JArray ids
    end.
Proof.
  intros Hc Hsites Hl Hp.
  destruct (find_site_entry_spec ids l 0 Hl) as (r & Hr & Hspec).
  exists r. split.
  - unfold getObjectById, bind, get_world, lift. rewrite Hsites, Hr.
    now destruct Hc as [-> | ->].
  - assert (Hno : forall s, id_matches ids s = Ok false ->
                            obj_get "objectId" s <> JArray ids).
    { intros s Hm Heq. rewrite (id_matches_own ids s Hp Heq) in Hm.
      discriminate. }
    destruct r as [[k s]|].
    + destruct Hspec as (j & Hk & Hn & Hid & Hbefore).
      exists j. split; [exact Hk|]. split; [exact Hn|]. split; [exact Hid|].
      intros j' s' Hj Hn'. apply Hno. now apply (Hbefore j' s').
    + intros j s Hn. apply Hno. now apply (Hspec j s).
Qed.

Lemma getObjectById_finds_witness :
  exists r,
    getObjectById sample_ids (JStr "BOOKMARKS") sample_lookup_world
      = (Ok r, sample_lookup_world) /\
    match r with
    | Some (k, s) =>
        exists j, k = JNum (Z.of_nat j) /\
                  nth_error sample_lookup_sites j = Some (Some s) /\
                  obj_get "objectId" s = JArray sample_ids /\
                  (forall j' s', j' < j ->
                                 nth_error sample_lookup_sites j' = Some (Some s') ->
                                 obj_get "objectId" s' <> JArray sample_ids)
    | None => forall j s, nth_error sample_lookup_sites j = Some (Some s) ->
                          obj_get "objectId" s <> JArray sample_ids
    end.
Proof.
  apply (getObjectById_finds_first_site sample_ids "BOOKMARKS"
           sample_lookup_sites sample_lookup_world).
  - left. reflexivity.
  - reflexivity.
  - apply Forall_cons; [eexists; split; [reflexivity|]; left; reflexivity|].
    apply Forall_cons; [|apply Forall_nil].
    eexists. split; [reflexivity|]. right. left. eexists. reflexivity.
  - repeat (apply Forall_cons; [reflexivity|]). apply Forall_nil.
Defined.

Lemma find_site_entry_found (ids : list val) :
  forall (l : list (option props)) (i : nat) (k : val) (s : props),
    find_site_entry ids i l = Ok (Some (k, s)) ->
    obj_get "objectId" s = JArray ids.
Proof.
  induction l as [|[site|] r IH]; intros i k s H; cbn [find_site_entry] in H;
    try discriminate.
  destruct (id_matches ids site) as [[|]|e] eqn:Hm; [| |discriminate].
  - injection H as _ <-. now apply id_matches_true.
  - now apply (IH (S i) k s).
Qed.

Lemma find_setting_entry_found (ids : list val) :
  forall (l : list (string * props)) (k : val) (s : props),
    find_setting_entry ids l = Ok (Some (k, s)) ->
    obj_get "objectId" s = JArray ids.
Proof.
  induction l as [|[h setting] r IH]; intros k s H;
    cbn [find_setting_entry] in H; [discriminate|].
  destruct (id_matches ids setting) as [[|]|e] eqn:Hm; [| |discriminate].
  - injection H as _ <-. now apply id_matches_true.
  - now apply (IH k s).
Qed.

Lemma getObjectById_state (ids : list val) (category : val) (w : world) :
  snd (getObjectById ids category w) = w.
Proof.
  unfold getObjectById. run.
  destruct (is_str "BOOKMARKS" category || is_str "HISTORY_SITES" category).
  - destruct (sites (appState w)); reflexivity.
  - destruct (is_str "PREFERENCES" category).
    + destruct (siteSettings (appState w)); reflexivity.
    + destruct (to_string category); reflexivity.
Qed.

Lemma getObjectById_found (ids : list val) (category k : val) (s : props)
    (w w' : world) :
  getObjectById ids category w = (Ok (Some (k, s)), w') ->
  w' = w /\ obj_get "objectId" s = JArray ids /\
  (is_str "BOOKMARKS" category || is_str "HISTORY_SITES" category
   || is_str "PREFERENCES" category = true).
Proof.
  intros H. split.
  { pose proof (getObjectById_state ids category w) as Hs.
    rewrite H in Hs. exact Hs. }
  unfold getObjectById in H. run.
  destruct (is_str "BOOKMARKS" category || is_str "HISTORY_SITES" category).
  - split; [|reflexivity].
    destruct (sites (appState w)) as [l|]; [|discriminate].
    destruct (find_site_entry ids 0 l) as [[[k0 s0]|]|e] eqn:Hf;
      try discriminate.
    injection H as <- <-. now apply (find_site_entry_found ids l 0 k0).
  - destruct (is_str "PREFERENCES" category).
    + split; [|reflexivity].
      destruct (siteSettings (appState w)) as [l|]; [|discriminate].
      destruct (find_setting_entry ids l) as [[[k0 s0]|]|e] eqn:Hf;
        try discriminate.
      injection H as <- <-. now apply (find_setting_entry_found ids l k0).
    + destruct (to_string category); discriminate.
Qed.

Lemma getExistingObject_state (CREATE dev : val)
    (Immutable_List : val -> result (list val)) (categoryName : val)
    (syncRecord : props) (w : world) :
  snd (getExistingObject CREATE dev Immutable_List categoryName syncRecord w)
  = w.
Proof.
  unfold getExistingObject. unfold bind at 1. unfold lift at 1.
  destruct (Immutable_List (obj_get "objectId" syncRecord)) as [ids|e];
    [|reflexivity].
  unfold bind at 1.
  destruct (getObjectById ids categoryName w) as [[[[k s]|]|e] w1] eqn:Hg.
  - apply getObjectById_found in Hg as (-> & Hid & _).
    assert (Ht : truthy (obj_get "objectId" s) = true) by now rewrite Hid.
    unfold bind at 1.
    destruct (is_str "BOOKMARKS" categoryName
              || is_str "HISTORY_SITES" categoryName).
    + pose proof (createSiteData_with_id_keeps_state s JUndefined w Ht) as Hc.
      destruct (createSiteData s JUndefined w) as [[[d|]|e] w2];
        cbn [snd] in Hc; subst w2; reflexivity.
    + destruct (is_str "PREFERENCES" categoryName).
      * unfold bind at 1.
        pose proof (createSiteSettingsData_with_id_keeps_state k s w Ht) as Hc.
        destruct (createSiteSettingsData k s w) as [[d|e] w2];
          cbn [snd] in Hc; subst w2; reflexivity.
      * unfold bind, lift. destruct (to_string categoryName); reflexivity.
  - pose proof (getObjectById_state ids categoryName w) as Hs.
    rewrite Hg in Hs. cbn [snd] in Hs. now subst.
  - pose proof (getObjectById_state ids categoryName w) as Hs.
    rewrite Hg in Hs. cbn [snd] in Hs. now subst.
Qed.

Lemma createSiteData_with_id_run (site : props) (siteIndex : val) :
  truthy (obj_get "objectId" site) = true ->
  exists r, forall w, createSiteData site siteIndex w = (r, w).
Proof.
  intros Hid.
  destruct (isSyncable_fromJS site) as [[|]|e] eqn:Hs.
  - destruct (plain_includes (obj_get "tags" site) "bookmark-folder")
      as [f|e] eqn:Hf.
    + eexists. intros w. unfold createSiteData. unfold bind at 1.
      unfold lift at 1. rewrite Hs, Hid. cbn [negb andb]. unfold bind at 1.
      rewrite objectId_or_new_present by exact Hid. unfold bind, lift.
      rewrite Hf. reflexivity.
    + eexists. intros w. unfold createSiteData. unfold bind at 1.
      unfold lift at 1. rewrite Hs, Hid. cbn [negb andb]. unfold bind at 1.
      rewrite objectId_or_new_present by exact Hid. unfold bind, lift.
      rewrite Hf. reflexivity.
  - destruct (negb (truthy (obj_get "tags" site))
              || negb (truthy (js_length (obj_get "tags" site)))) eqn:Ht.
    + eexists. intros w. unfold createSiteData. unfold bind at 1.
      unfold lift at 1. rewrite Hs, Ht, Hid. cbn [negb andb]. unfold bind.
      rewrite objectId_or_new_present by exact Hid. reflexivity.
    + eexists. intros w. unfold createSiteData. unfold bind at 1.
      unfold lift at 1. rewrite Hs, Ht. reflexivity.
  - eexists. intros w. unfold createSiteData. unfold bind at 1.
    unfold lift at 1. rewrite Hs. reflexivity.
Qed.

Lemma createSiteData_with_id_result (site : props) (siteIndex : val)
    (w1 w2 : world) :
  truthy (obj_get "objectId" site) = true ->
  fst (createSiteData site siteIndex w1) = fst (createSiteData site siteIndex w2).
Proof.
  intros Hid.
  destruct (createSiteData_with_id_run site siteIndex Hid) as (r & Hr).
  now rewrite !Hr.
Qed.

Lemma createSiteSettingsData_with_id_result (hostPattern : val)
    (setting : props) (w1 w2 : world) :
  truthy (obj_get "objectId" setting) = true ->
  fst (createSiteSettingsData hostPattern setting w1)
  = fst (createSiteSettingsData hostPattern setting w2).
Proof.
  intros Hid.
  assert (H : exists r, forall w,
               createSiteSettingsData hostPattern setting w = (r, w)).
  { destruct (siteSettings_value hostPattern setting) as [v|e] eqn:Hv.
    - eexists. intros w. unfold createSiteSettingsData. unfold bind at 1.
      unfold lift at 1. rewrite Hv. unfold bind.
      rewrite objectId_or_new_present by exact Hid. reflexivity.
    - eexists. intros w. unfold createSiteSettingsData. unfold bind at 1.
      unfold lift at 1. rewrite Hv. reflexivity. }
  destruct H as (r & Hr). now rewrite !Hr.
Qed.

Lemma getObjectById_reads_state (ids : list val) (category : val)
    (w1 w2 : world) :
  appState w1 = appState w2 ->
  fst (getObjectById ids category w1) = fst (getObjectById ids category w2).
Proof.
  intros H. unfold getObjectById. run. rewrite H.
  destruct (is_str "BOOKMARKS" category || is_str "HISTORY_SITES" category).
  - destruct (sites (appState w2)); reflexivity.
  - destruct (is_str "PREFERENCES" category).
    + destruct (siteSettings (appState w2)); reflexivity.
    + destruct (to_string category); reflexivity.
Qed.

Lemma getExistingObject_reads_state (CREATE dev : val)
    (Immutable_List : val -> result (list val)) (categoryName : val)
    (syncRecord : props) (w1 w2 : world) :
  appState w1 = appState w2 ->
  fst (getExistingObject CREATE dev Immutable_List categoryName syncRecord w1)
  = fst (getExistingObject CREATE dev Immutable_List categoryName syncRecord w2).
Proof.
  intros H. unfold getExistingObject, bind, lift, ret, throw.
  destruct (Immutable_List (obj_get "objectId" syncRecord)) as [ids|e];
    [|reflexivity].
  pose proof (getObjectById_reads_state ids categoryName w1 w2 H) as Hr.
  destruct (getObjectById ids categoryName w1) as [r1 u1] eqn:H1.
  destruct (getObjectById ids categoryName w2) as [r2 u2] eqn:H2.
  cbn [fst] in Hr. subst r2.
  destruct r1 as [[[k s]|]|e]; [| reflexivity | reflexivity].
  apply getObjectById_found in H1 as (-> & Hid & _).
  apply getObjectById_found in H2 as (-> & _ & _).
  assert (Ht : truthy (obj_get "objectId" s) = true) by now rewrite Hid.
  destruct (is_str "BOOKMARKS" categoryName
            || is_str "HISTORY_SITES" categoryName).
  - destruct (createSiteData_with_id_run s JUndefined Ht) as (r & Hc).
    rewrite !Hc. now destruct r as [[d|]|e].
  - destruct (is_str "PREFERENCES" categoryName).
    + pose proof (createSiteSettingsData_with_id_result k s w1 w2 Ht) as Hc.
      pose proof (createSiteSettingsData_with_id_keeps_state k s w1 Ht) as K1.
      pose proof (createSiteSettingsData_with_id_keeps_state k s w2 Ht) as K2.
      destruct (createSiteSettingsData k s w1) as [r1 v1].
      destruct (createSiteSettingsData k s w2) as [r2 v2].
      cbn [fst snd] in *. subst. now destruct r2.
    + destruct (to_string categoryName); reflexivity.
Qed.

(** X19.  Answering which object a record names is a pure query on the app
    state: whatever the category, the record and the state,
    [getExistingObject] leaves the state as it found it (no id is drawn or
    requested, nothing is sent, logged or dispatched, also when it throws),
    and its answer is the same in any two states that hold the same app
    state. *)
Theorem getExistingObject_is_a_query (CREATE dev : val)
    (Immutable_List : val -> result (list val)) (categoryName : val)
    (syncRecord : props) (w : world) :
  snd (getExistingObject CREATE dev Immutable_List categoryName syncRecord w)
  = w /\
  forall w',
    appState w' = appState w ->
    fst (getExistingObject CREATE dev Immutable_List categoryName syncRecord w')
    = fst (getExistingObject CREATE dev Immutable_List categoryName syncRecord w).
Proof.
  split; [apply getExistingObject_state|].
  intros w' H. now apply getExistingObject_reads_state.
Qed.

Lemma getExistingObject_is_a_query_witness :
  fst (getExistingObject (JNum 0) sample_device sample_Immutable_List
         (JStr "BOOKMARKS") sample_incoming
         (with_drawn 5 sample_lookup_world))
  = fst (getExistingObject (JNum 0) sample_device sample_Immutable_List
           (JStr "BOOKMARKS") sample_incoming sample_lookup_world).
Proof.
  apply (proj2 (getExistingObject_is_a_query (JNum 0) sample_device
                  sample_Immutable_List (JStr "BOOKMARKS") sample_incoming
                  sample_lookup_world)).
  reflexivity.
Defined.

Lemma getObjectById_first_site (ids : list val) (category : string)
    (l : list (option props)) (w : world) (j : nat) (s : props) :
  category = "BOOKMARKS" \/ category = "HISTORY_SITES" ->
  sites (appState w) = Some l ->
  Forall site_with_list_id l ->
  Forall (fun v => is_primitive v = true) ids ->
  nth_error l j = Some (Some s) ->
  obj_get "objectId" s = JArray ids ->
  (forall j' s', j' < j -> nth_error l j' = Some (Some s') ->
                 obj_get "objectId" s' <> JArray ids) ->
  getObjectById ids (JStr category) w
  = (Ok (Some (JNum (Z.of_nat j), s)), w).
Proof.
  intros Hc Hsites Hl Hp Hn Hid Hfirst.
  destruct (find_site_entry_spec ids l 0 Hl) as (r & Hr & Hspec).
  assert (Hrun : getObjectById ids (JStr category) w = (Ok r, w)).
  { unfold getObjectById, bind, get_world, lift. rewrite Hsites, Hr.
    now destruct Hc as [-> | ->]. }
  rewrite Hrun. destruct r as [[k s0]|].
  - destruct Hspec as (j0 & -> & Hn0 & Hid0 & Hbefore). cbn [Nat.add] in *.
    destruct (Nat.lt_trichotomy j0 j) as [Hlt|[->|Hgt]].
    + exfalso. exact (Hfirst j0 s0 Hlt Hn0 Hid0).
    + rewrite Hn in Hn0. now injection Hn0 as <-.
    + exfalso. pose proof (Hbefore j s Hgt Hn) as Hm.
      rewrite (id_matches_own ids s Hp Hid) in Hm. discriminate.
  - exfalso. pose proof (Hspec j s Hn) as Hm.
    rewrite (id_matches_own ids s Hp Hid) in Hm. discriminate.
Qed.

Lemma assigned_id_present (o : props) (w : world) :
  truthy (obj_get "objectId" o) = true ->
  assigned_id o w = obj_get "objectId" o.
Proof. intros H. unfold assigned_id. now rewrite H. Qed.

Lemma after_assignment_present (o : props) (path : list val) (w : world) :
  truthy (obj_get "objectId" o) = true -> after_assignment o path w = w.
Proof. intros H. unfold after_assignment. now rewrite H. Qed.

(** X20.  For the first site of the state that carries the id of an incoming
    record, [getExistingObject] under either site category answers, without
    touching the state.  When [fromJS] converts the site, the answer is a
    [CREATE] record with that same id and the stored device id, built from
    the site: a bookmark record, with [isFolder] telling whether the tags
    include the folder tag, when the site's tags name a bookmark or a
    folder, a history record when it has no tags, whichever of the two
    categories was asked for; and a [TypeError] when the site has tags that
    name neither.  When the site has a [constructor] field that [fromJS]
    does not convert, the answer is a [TypeError] as well. *)
Theorem getExistingObject_site_record (CREATE dev : val)
    (Immutable_List : val -> result (list val)) (category : string)
    (syncRecord : props) (ids : list val) (l : list (option props))
    (w : world) (j : nat) (s : props) :
  category = "BOOKMARKS" \/ category = "HISTORY_SITES" ->
  Immutable_List (obj_get "objectId" syncRecord) = Ok ids ->
  Forall (fun v => is_primitive v = true) ids ->
  sites (appState w) = Some l ->
  Forall site_with_list_id l ->
  nth_error l j = Some (Some s) ->
  obj_get "objectId" s = JArray ids ->
  (forall j' s', j' < j -> nth_error l j' = Some (Some s') ->
                 obj_get "objectId" s' <> JArray ids) ->
  let answer :=
    getExistingObject CREATE dev Immutable_List (JStr category) syncRecord w in
  (own_constructor s = false ->
   exists sd,
     site_data_of s sd /\
     (forall ts,
         obj_get "tags" s = JArray ts ->
         existsb (is_str "bookmark") ts
         || existsb (is_str "bookmark-folder") ts = true ->
         answer
         = (Ok (JObject
                  [ ("action", CREATE); ("deviceId", dev);
                    ("objectData", JStr "bookmark"); ("objectId", JArray ids);
                    ("bookmark",
                     JObject
                       [ ("site", JObject sd);
                         ("isFolder",
                          JBool (existsb (is_str "bookmark-folder") ts));
                         ("folderId",
                          js_or (obj_get "folderId" s) (JNum 0));
                         ("parentFolderId",
                          js_or (obj_get "parentFolderId" s) (JNum 0)) ]) ]),
            w)) /\
     (truthy (obj_get "tags" s) = false \/ obj_get "tags" s = JArray [] ->
      answer
      = (Ok (JObject
               [ ("action", CREATE); ("deviceId", dev);
                 ("objectData", JStr "historySite"); ("objectId", JArray ids);
                 ("historySite", JObject sd) ]), w)) /\
     (forall ts,
         obj_get "tags" s = JArray ts -> ts <> [] ->
         existsb (is_str "bookmark") ts = false ->
         existsb (is_str "bookmark-folder") ts = false ->
         answer = (Throw TypeError, w))) /\
  (own_constructor s = true -> answer = (Throw TypeError, w)).
Proof.
  intros Hc HL Hp Hsites Hl Hn Hid Hfirst answer.
  assert (Ht : truthy (obj_get "objectId" s) = true) by now rewrite Hid.
  assert (Hrun : forall r,
             createSiteData s JUndefined w = (r, w) ->
             answer = match r with
                      | Ok (Some d) => (Ok (existing_record CREATE dev d), w)
                      | Ok None => (Throw TypeError, w)
                      | Throw e => (Throw e, w)
                      end).
  { intros r Hr. subst answer. unfold getExistingObject.
    unfold bind at 1. unfold lift at 1. rewrite HL.
    unfold bind at 1.
    rewrite (getObjectById_first_site ids category l w j s
               Hc Hsites Hl Hp Hn Hid Hfirst).
    replace (is_str "BOOKMARKS" (JStr category)
             || is_str "HISTORY_SITES" (JStr category)) with true
      by (now destruct Hc as [-> | ->]).
    unfold bind. rewrite Hr. now destruct r as [[d|]|e]. }
  split.
  - intros Hplain. apply converted in Hplain. exists (copy_site_fields s).
    split; [apply copy_site_fields_data|]. split; [|split].
    + intros ts Htags Hb.
      rewrite (Hrun _ (eq_trans
                         (createSiteData_bookmark s ts JUndefined w Hplain
                            (or_introl Ht) Htags Hb)
                         (f_equal (fun x => (_, x))
                            (after_assignment_present s _ w Ht)))).
      rewrite assigned_id_present by exact Ht. rewrite Hid. reflexivity.
    + intros Htags.
      rewrite (Hrun _ (eq_trans
                         (createSiteData_history s JUndefined w Hplain
                            (or_introl Ht) Htags)
                         (f_equal (fun x => (_, x))
                            (after_assignment_present s _ w Ht)))).
      rewrite assigned_id_present by exact Ht. rewrite Hid. reflexivity.
    + intros ts Htags Hne Hb Hf.
      now rewrite (Hrun _ (createSiteData_not_syncable s ts JUndefined w
                             Hplain Htags Hne Hb Hf)).
  - intros Hplain. apply unconverted in Hplain.
    now rewrite (Hrun _ (createSiteData_unconverted s JUndefined w Hplain)).
Qed.

Lemma getExistingObject_site_record_witness :
  (exists sd,
      getExistingObject (JNum 0) sample_device sample_Immutable_List
        (JStr "HISTORY_SITES") sample_incoming sample_lookup_world
      = (Ok (JObject
               [ ("action", JNum 0); ("deviceId", sample_device);
                 ("objectData", JStr "bookmark");
                 ("objectId", JArray sample_ids);
                 ("bookmark",
                  JObject [ ("site", JObject sd);
                            ("isFolder", JBool true);
                            ("folderId", JNum 0);
                            ("parentFolderId", JNum 0) ]) ]),
         sample_lookup_world) /\
      obj_get "location" sd = JStr "https://c.example/") /\
  getExistingObject (JNum 0) sample_device sample_Immutable_List
    (JStr "BOOKMARKS") sample_incoming sample_lookup_constructor_world
  = (Throw TypeError, sample_lookup_constructor_world).
Proof.
  assert (Hids : Forall (fun v => is_primitive v = true) sample_ids).
  { repeat (apply Forall_cons; [reflexivity|]). apply Forall_nil. }
  split.
  - destruct (proj1 (getExistingObject_site_record (JNum 0) sample_device
                       sample_Immutable_List "HISTORY_SITES" sample_incoming
                       sample_ids sample_lookup_sites sample_lookup_world 1
                       [("location", JStr "https://c.example/");
                        ("tags", JArray [JStr "bookmark-folder"]);
                        ("objectId", sample_id)]
                       (or_intror eq_refl) eq_refl Hids eq_refl
                       ltac:(apply Forall_cons;
                             [eexists; split; [reflexivity|]; left;
                              reflexivity|];
                             apply Forall_cons; [|apply Forall_nil];
                             eexists; split; [reflexivity|]; right; left;
                             eexists; reflexivity)
                       eq_refl eq_refl
                       ltac:(intros [|j'] s' Hj Hn; [|lia];
                             cbn in Hn; injection Hn as <-; discriminate))
                eq_refl)
      as (sd & (Hl & _) & Hb & _).
    exists sd. split; [|exact Hl].
    apply (Hb [JStr "bookmark-folder"]); reflexivity.
  - apply (proj2 (getExistingObject_site_record (JNum 0) sample_device
                    sample_Immutable_List "BOOKMARKS" sample_incoming
                    sample_ids sample_lookup_constructor_sites
                    sample_lookup_constructor_world 1
                    sample_constructor_bookmark
                    (or_introl eq_refl) eq_refl Hids eq_refl
                    ltac:(apply Forall_cons;
                          [eexists; split; [reflexivity|]; left;
                           reflexivity|];
                          apply Forall_cons; [|apply Forall_nil];
                          eexists; split; [reflexivity|]; right; left;
                          eexists; reflexivity)
                    eq_refl eq_refl
                    ltac:(intros [|j'] s' Hj Hn; [|lia];
                          cbn in Hn; injection Hn as <-; discriminate))).
    reflexivity.
Defined.

(** X21.  A category that is none of the three is refused by the lookup,
    with the message of [getObjectById], once the id of the record has been
    turned into a List: the [Invalid category] branch of
    [getExistingObject] itself is never reached.  And a state without
    [sites] (or, for preferences, without [siteSettings]) makes the lookup a
    [TypeError]. *)
Theorem getExistingObject_refuses (CREATE dev : val)
    (Immutable_List : val -> result (list val)) (category : string)
    (syncRecord : props) (ids : list val) (w : world) :
  Immutable_List (obj_get "objectId" syncRecord) = Ok ids ->
  (category <> "BOOKMARKS" -> category <> "HISTORY_SITES" ->
   category <> "PREFERENCES" ->
   getExistingObject CREATE dev Immutable_List (JStr category) syncRecord w
   = (Throw (Error ("Invalid object category: " ++ category)), w)) /\
  (category = "BOOKMARKS" \/ category = "HISTORY_SITES" ->
   sites (appState w) = None ->
   getExistingObject CREATE dev Immutable_List (JStr category) syncRecord w
   = (Throw TypeError, w)) /\
  (category = "PREFERENCES" ->
   siteSettings (appState w) = None ->
   getExistingObject CREATE dev Immutable_List (JStr category) syncRecord w
   = (Throw TypeError, w)).
Proof.
  intros HL. unfold getExistingObject. unfold bind at 1. unfold lift at 1.
  rewrite HL. unfold bind at 1. unfold getObjectById. run. cbn [is_str].
  split; [|split].
  - intros Hb Hh Hp.
    apply String.eqb_neq in Hb, Hh, Hp.
    now rewrite Hb, Hh, Hp.
  - intros Hc Hs. rewrite Hs. now destruct Hc as [-> | ->].
  - intros -> Hs. now rewrite Hs.
Qed.

Lemma getExistingObject_refuses_witness :
  getExistingObject (JNum 0) sample_device sample_Immutable_List
    (JStr "DEVICES") sample_incoming sample_lookup_world
  = (Throw (Error "Invalid object category: DEVICES"), sample_lookup_world).
Proof.
  refine (proj1 (getExistingObject_refuses (JNum 0) sample_device
                   sample_Immutable_List "DEVICES" sample_incoming
                   sample_ids sample_lookup_world _) _ _ _).
  - reflexivity.
  - discriminate.
  - discriminate.
  - discriminate.
Defined.

(** ** Answering [GET_EXISTING_OBJECTS] *)

Lemma map_M_query {A B} (f : A -> M B) (g : A -> B) (w : world) :
  forall l : list A,
    (forall x, In x l -> f x w = (Ok (g x), w)) ->
    map_M f l w = (Ok (map g l), w).
Proof.
  induction l as [|x r IH]; intros H; cbn [map_M map]; [reflexivity|].
  unfold bind at 1. rewrite (H x (or_introl eq_refl)).
  unfold bind at 1. rewrite IH by (intros y Hy; apply H; now right).
  reflexivity.
Qed.

Lemma map_M_state {A B} (f : A -> M B) :
  (forall x w, snd (f x w) = w) ->
  forall (l : list A) (w : world), snd (map_M f l w) = w.
Proof.
  intros Hf. induction l as [|x r IH]; intros w; cbn [map_M];
    [reflexivity|].
  unfold bind at 1. pose proof (Hf x w) as Hx.
  destruct (f x w) as [[y|e] w1]; cbn [snd] in Hx; subst w1; [|reflexivity].
  unfold bind at 1. pose proof (IH w) as Hr.
  destruct (map_M f r w) as [[t|e] w1]; cbn [snd] in Hr; subst w1;
    reflexivity.
Qed.

Lemma map_M_length {A B} (f : A -> M B) :
  forall (l : list A) (w w' : world) (ys : list B),
    map_M f l w = (Ok ys, w') -> List.length ys = List.length l.
Proof.
  induction l as [|x r IH]; intros w w' ys H; cbn [map_M] in H.
  - injection H as <- _. reflexivity.
  - apply bind_ok in H as (y & w1 & _ & H).
    apply bind_ok in H as (t & w2 & Ht & H).
    injection H as <- _. cbn [List.length]. f_equal. exact (IH _ _ _ Ht).
Qed.

Lemma known_category (names : list string) (c : string) :
  In c names -> existsb (fun n => is_str n (JStr c)) names = true.
Proof.
  intros H. apply existsb_exists. exists c. split; [exact H|].
  cbn. apply String.eqb_refl.
Qed.

(** X22.  Asked which objects a non-empty batch of records of a known
    category names, the listener logs one line and, when every record can be
    answered, sends exactly one [RESOLVE_SYNC_RECORDS] message for the
    category that pairs, record by record and in order, the transport-safe
    copy of the record with the answer of [getExistingObject] for it.
    Nothing else changes. *)
Theorem resolve_request_pairs_every_record (CREATE dev : val)
    (Immutable_List : val -> result (list val)) (names : list string)
    (c : string) (rs : list props) (existing : props -> val) (w : world) :
  In c names ->
  rs <> [] ->
  (forall r, In r rs ->
             fst (getExistingObject CREATE dev Immutable_List (JStr c) r w)
             = Ok (existing r)) ->
  on_GET_EXISTING_OBJECTS CREATE dev Immutable_List names (JStr c) (Some rs) w
  = (Ok tt,
     with_channel
       (channel w ++
        [(RESOLVE_SYNC_RECORDS,
          [JStr c;
           JArray (map (fun r => resolved_pair r (existing r)) rs)])])
       (with_console
          (console w ++
           ["getting existing objects for "
            ++ string_of_Z (Z.of_nat (List.length rs)) ++ " " ++ c])
          w)).
Proof.
  intros Hc Hne Hex. unfold on_GET_EXISTING_OBJECTS.
  cbn [to_string]. unfold bind at 1. unfold lift at 1.
  unfold bind at 1. unfold log, console_log, modify.
  rewrite (known_category names c Hc). cbn [negb orb].
  destruct rs as [|r0 rest]; [contradiction|].
  set (w1 := with_console _ w).
  unfold bind at 1.
  rewrite (map_M_query _ (fun r => resolved_pair r (existing r)) w1).
  - reflexivity.
  - intros r Hr. unfold bind.
    pose proof (getExistingObject_state CREATE dev Immutable_List (JStr c) r w1)
      as Hs.
    pose proof (getExistingObject_reads_state CREATE dev Immutable_List
                  (JStr c) r w1 w eq_refl) as Hf.
    rewrite (Hex r Hr) in Hf.
    destruct (getExistingObject CREATE dev Immutable_List (JStr c) r w1)
      as [res u]. cbn [fst snd] in Hs, Hf. subst. reflexivity.
Qed.

Lemma resolve_request_witness :
  channel
    (snd (on_GET_EXISTING_OBJECTS (JNum 0) sample_device sample_Immutable_List
            sample_categoryNames (JStr "BOOKMARKS")
            (Some [sample_unknown_incoming; sample_incoming])
            sample_lookup_world))
  = [(RESOLVE_SYNC_RECORDS,
      [JStr "BOOKMARKS";
       JArray
         [resolved_pair sample_unknown_incoming JNull;
          resolved_pair sample_incoming
            (answer_value
               (fst (getExistingObject (JNum 0) sample_device
                       sample_Immutable_List (JStr "BOOKMARKS")
                       sample_incoming sample_lookup_world)))]])].
Proof.
  rewrite (resolve_request_pairs_every_record (JNum 0) sample_device
             sample_Immutable_List sample_categoryNames "BOOKMARKS"
             [sample_unknown_incoming; sample_incoming]
             (fun r => answer_value
                         (fst (getExistingObject (JNum 0) sample_device
                                 sample_Immutable_List (JStr "BOOKMARKS")
                                 r sample_lookup_world)))
             sample_lookup_world).
  - reflexivity.
  - vm_compute. tauto.
  - discriminate.
  - intros r [<-|[<-|[]]]; reflexivity.
Defined.

Lemma ignored_request (names : list string) (c : string) (rs : list props) :
  ~ In c names \/ rs = [] ->
  negb (existsb (fun n => is_str n (JStr c)) names)
  || match rs with [] => true | _ :: _ => false end = true.
Proof.
  intros [Hn| ->]; [|apply orb_true_r].
  destruct (existsb (fun n => is_str n (JStr c)) names) eqn:E; [|reflexivity].
  apply existsb_exists in E as (n & Hin & E). cbn in E.
  apply String.eqb_eq in E. subst. contradiction.
Qed.

Lemma resolve_request_cases (CREATE dev : val)
    (Immutable_List : val -> result (list val)) (names : list string)
    (categoryName : val) (rs : list props) (w : world) :
  let out :=
    on_GET_EXISTING_OBJECTS CREATE dev Immutable_List names categoryName
      (Some rs) w in
  let skip :=
    negb (existsb (fun n => is_str n categoryName) names)
    || match rs with [] => true | _ :: _ => false end in
  (exists e, to_string categoryName = Throw e /\ out = (Throw e, w)) \/
  (exists line,
      skip = true /\ out = (Ok tt, with_console (console w ++ [line]) w)) \/
  (exists line e,
      skip = false /\
      out = (Throw e, with_console (console w ++ [line]) w)) \/
  (exists line pairs,
      skip = false /\ List.length pairs = List.length rs /\
      out = (Ok tt,
             with_channel
               (channel w ++
                [(RESOLVE_SYNC_RECORDS, [categoryName; JArray pairs])])
               (with_console (console w ++ [line]) w))).
Proof.
  intros out skip.
  destruct (to_string categoryName) as [shown|e] eqn:Hshown.
  2:{ left. exists e. split; [reflexivity|]. subst out.
      unfold on_GET_EXISTING_OBJECTS, bind, lift. now rewrite Hshown. }
  right.
  set (line := "getting existing objects for "
               ++ string_of_Z (Z.of_nat (List.length rs)) ++ " " ++ shown).
  set (w1 := with_console (console w ++ [line]) w).
  set (f := fun record : props =>
              existingObject <-
                getExistingObject CREATE dev Immutable_List categoryName record ;;
              ret (JArray [JObject (ipcSafeObject record); existingObject])).
  assert (Hrun : out = if skip then (Ok tt, w1)
                       else match map_M f rs w1 with
                            | (Ok pairs, u) =>
                                (Ok tt,
                                 with_channel
                                   (channel u ++
                                    [(RESOLVE_SYNC_RECORDS,
                                      [categoryName; JArray pairs])]) u)
                            | (Throw e, u) => (Throw e, u)
                            end).
  { subst out skip. unfold on_GET_EXISTING_OBJECTS.
    unfold bind at 1. unfold lift at 1. rewrite Hshown.
    unfold bind at 1. unfold log, console_log, modify.
    fold line. fold w1.
    destruct (negb (existsb (fun n => is_str n categoryName) names)
              || match rs with [] => true | _ :: _ => false end);
      [reflexivity|].
    unfold bind at 1. fold f.
    destruct (map_M f rs w1) as [[pairs|e] u]; reflexivity. }
  assert (Hf : forall x u, snd (f x u) = u).
  { intros x u. unfold f, bind.
    pose proof (getExistingObject_state CREATE dev Immutable_List
                  categoryName x u) as Hs.
    destruct (getExistingObject CREATE dev Immutable_List categoryName x u)
      as [[v|e] u']; cbn [snd] in Hs; subst; reflexivity. }
  destruct skip eqn:Hskip.
  { left. exists line. split; [reflexivity | exact Hrun]. }
  right.
  pose proof (map_M_state f Hf rs w1) as Hs.
  destruct (map_M f rs w1) as [[pairs|e] u] eqn:Hm; cbn [snd] in Hs; subst u.
  - right. apply map_M_length in Hm. exists line, pairs.
    split; [reflexivity|]. split; [exact Hm | exact Hrun].
  - left. exists line, e. split; [reflexivity | exact Hrun].
Qed.

(** X23.  Whatever it is asked, the listener of [GET_EXISTING_OBJECTS]
    requests no id, draws no random bytes and dispatches nothing; it sends at
    most one message, a [RESOLVE_SYNC_RECORDS] holding as many pairs as there
    were records.  A request without records throws before anything is
    logged; one for a category the protocol does not name, or with no record,
    is logged and otherwise ignored. *)
Theorem resolve_request_frame (CREATE dev : val)
    (Immutable_List : val -> result (list val)) (names : list string)
    (categoryName : val) (records : option (list props)) (w : world) :
  let out :=
    on_GET_EXISTING_OBJECTS CREATE dev Immutable_List names categoryName
      records w in
  same_engine w (snd out) /\
  dispatched (snd out) = dispatched w /\
  drawn (snd out) = drawn w /\
  (channel (snd out) = channel w \/
   exists rs pairs,
     records = Some rs /\ fst out = Ok tt /\
     List.length pairs = List.length rs /\
     channel (snd out)
     = (channel w ++ [(RESOLVE_SYNC_RECORDS, [categoryName; JArray pairs])])%list) /\
  (records = None -> out = (Throw TypeError, w)) /\
  (forall c rs,
      categoryName = JStr c -> records = Some rs ->
      ~ In c names \/ rs = [] ->
      fst out = Ok tt /\ channel (snd out) = channel w /\
      exists line, console (snd out) = (console w ++ [line])%list).
Proof.
  intros out. destruct records as [rs|].
  2:{ subst out. cbn. split; [apply same_engine_refl|].
      do 2 (split; [reflexivity|]). split; [now left|].
      split; [reflexivity|]. intros c rs _ H. discriminate. }
  destruct (resolve_request_cases CREATE dev Immutable_List names
              categoryName rs w)
    as [(e & Hs & H)|[(line & Hskip & H)|[(line & e & Hskip & H)
       |(line & pairs & Hskip & Hlen & H)]]];
    fold out in H; rewrite H; cbn [fst snd].
  - split; [apply same_engine_refl|]. do 2 (split; [reflexivity|]).
    split; [now left|]. split; [discriminate|].
    intros c rs0 -> _ _. cbn in Hs. discriminate.
  - split; [repeat split|]. do 2 (split; [reflexivity|]).
    split; [now left|]. split; [discriminate|].
    intros c rs0 _ _ _. split; [reflexivity|]. split; [reflexivity|].
    now exists line.
  - split; [repeat split|]. do 2 (split; [reflexivity|]).
    split; [now left|]. split; [discriminate|].
    intros c rs0 -> [= <-] Hi.
    rewrite (ignored_request names c rs Hi) in Hskip. discriminate.
  - split; [repeat split|]. do 2 (split; [reflexivity|]).
    split; [right; exists rs, pairs; repeat split; exact Hlen|].
    split; [discriminate|].
    intros c rs0 -> [= <-] Hi.
    rewrite (ignored_request names c rs Hi) in Hskip. discriminate.
Qed.

Lemma resolve_request_frame_witness :
  on_GET_EXISTING_OBJECTS (JNum 0) sample_device sample_Immutable_List
    sample_categoryNames (JStr "BOOKMARKS") None sample_lookup_world
  = (Throw TypeError, sample_lookup_world) /\
  channel
    (snd (on_GET_EXISTING_OBJECTS (JNum 0) sample_device sample_Immutable_List
            sample_categoryNames (JStr "DEVICES") (Some [sample_incoming])
            sample_lookup_world))
  = channel sample_lookup_world.
Proof.
  split.
  - refine (proj1 (proj2 (proj2 (proj2 (proj2
             (resolve_request_frame (JNum 0) sample_device
                sample_Immutable_List sample_categoryNames (JStr "BOOKMARKS")
                None sample_lookup_world))))) eq_refl).
  - refine (proj1 (proj2
             (proj2 (proj2 (proj2 (proj2 (proj2
                (resolve_request_frame (JNum 0) sample_device
                   sample_Immutable_List sample_categoryNames (JStr "DEVICES")
                   (Some [sample_incoming]) sample_lookup_world)))))
                "DEVICES" [sample_incoming] eq_refl eq_refl _))).
    left. cbn. intros [H|[H|[H|[]]]]; discriminate.
Defined.

(** ** Bootstrap *)

Lemma on_SAVE_INIT_DATA_run (Array_from Immutable_List : val -> result (list val))
    (seed newDeviceId : val) (w : world) :
  on_SAVE_INIT_DATA Array_from Immutable_List seed newDeviceId w
  = if negb (truthy (deviceId w)) && truthy newDeviceId
    then match Array_from newDeviceId with
         | Throw e => (Throw e, w)
         | Ok xs =>
             match Immutable_List seed, Immutable_List newDeviceId with
             | Ok s, Ok d =>
                 (Ok tt,
                  with_dispatched
                    (dispatched w ++
                     [saveSyncInitData (JArray s) (JArray d) JUndefined])
                    (with_deviceId (JArray xs) w))
             | Throw e, _ => (Throw e, with_deviceId (JArray xs) w)
             | Ok _, Throw e => (Throw e, with_deviceId (JArray xs) w)
             end
         end
    else match Immutable_List seed, Immutable_List newDeviceId with
         | Ok s, Ok d =>
             (Ok tt,
              with_dispatched
                (dispatched w ++
                 [saveSyncInitData (JArray s) (JArray d) JUndefined]) w)
         | Throw e, _ => (Throw e, w)
         | Ok _, Throw e => (Throw e, w)
         end.
Proof.
  unfold on_SAVE_INIT_DATA. run.
  destruct (negb (truthy (deviceId w)) && truthy newDeviceId).
  - destruct (Array_from newDeviceId) as [xs|e]; [|reflexivity].
    destruct (Immutable_List seed) as [s|e]; [|reflexivity].
    destruct (Immutable_List newDeviceId) as [d|e]; reflexivity.
  - destruct (Immutable_List seed) as [s|e]; [|reflexivity].
    destruct (Immutable_List newDeviceId) as [d|e]; reflexivity.
Qed.

(** X24.  [SAVE_INIT_DATA] establishes the device id at most once: an id the
    module already holds is kept whatever arrives, an empty arrival changes
    nothing, and only when none is held does the arriving one become, as an
    array, the module's id, which from then on lets records be built.  When
    the two Lists can be made the arrival is passed to the store in one
    [saveSyncInitData] without a timestamp, also when the module kept its
    own id; nothing is sent on the channel. *)
Theorem save_init_data_sets_device_id_once
    (Array_from Immutable_List : val -> result (list val))
    (seed newDeviceId : val) (w : world) :
  let out := on_SAVE_INIT_DATA Array_from Immutable_List seed newDeviceId w in
  (truthy (deviceId w) = true \/ truthy newDeviceId = false ->
   deviceId (snd out) = deviceId w) /\
  (forall xs,
      truthy (deviceId w) = false -> truthy newDeviceId = true ->
      Array_from newDeviceId = Ok xs ->
      deviceId (snd out) = JArray xs /\ truthy (deviceId (snd out)) = true) /\
  (forall xs s d,
      Array_from newDeviceId = Ok xs ->
      Immutable_List seed = Ok s -> Immutable_List newDeviceId = Ok d ->
      fst out = Ok tt /\
      dispatched (snd out)
      = (dispatched w ++
         [saveSyncInitData (JArray s) (JArray d) JUndefined])%list) /\
  channel (snd out) = channel w /\
  appState (snd out) = appState w /\
  pollIntervalId (snd out) = pollIntervalId w.
Proof.
  intros out. subst out. rewrite on_SAVE_INIT_DATA_run.
  split; [|split; [|split]].
  - intros [H|H]; rewrite H; cbn [negb andb]; [|rewrite andb_false_r];
      destruct (Immutable_List seed), (Immutable_List newDeviceId);
      reflexivity.
  - intros xs Hd Hn Hx. rewrite Hd, Hn, Hx. cbn [negb andb].
    destruct (Immutable_List seed), (Immutable_List newDeviceId);
      split; reflexivity.
  - intros xs s d Hx Hs Hd. rewrite Hx, Hs, Hd.
    destruct (negb (truthy (deviceId w)) && truthy newDeviceId);
      split; reflexivity.
  - destruct (negb (truthy (deviceId w)) && truthy newDeviceId);
      [destruct (Array_from newDeviceId)|];
      destruct (Immutable_List seed), (Immutable_List newDeviceId);
      repeat split.
Qed.

Lemma save_init_data_witness :
  deviceId
    (snd (on_SAVE_INIT_DATA sample_Array_from sample_Immutable_List
            (JUint8Array sample_bytes) (JArray [JNum 9; JNum 9])
            (sample_world sample_device)))
  = sample_device /\
  deviceId
    (snd (on_SAVE_INIT_DATA sample_Array_from sample_Immutable_List
            (JUint8Array sample_bytes) (JUint8Array sample_bytes)
            (sample_world JNull)))
  = array_of_bytes sample_bytes.
Proof.
  split.
  - refine (proj1 (save_init_data_sets_device_id_once sample_Array_from
                     sample_Immutable_List (JUint8Array sample_bytes)
                     (JArray [JNum 9; JNum 9]) (sample_world sample_device))
              _).
    left. reflexivity.
  - refine (proj1 (proj1 (proj2 (save_init_data_sets_device_id_once
                     sample_Array_from sample_Immutable_List
                     (JUint8Array sample_bytes) (JUint8Array sample_bytes)
                     (sample_world JNull)))
                   (map byte_num sample_bytes) _ _ _)); reflexivity.
Defined.

Lemma on_GET_INIT_DATA_first_run (config initialState : props) (w : world) :
  is_first_run initialState = true ->
  on_GET_INIT_DATA config initialState w
  = (Ok tt,
     with_channel
       (channel w ++ [(GOT_INIT_DATA, [JNull; JNull; JObject config])])
       (with_deviceId JNull w)).
Proof.
  unfold is_first_run. intros H. apply andb_true_iff in H as [Hs Hd].
  apply negb_true_iff in Hs, Hd.
  unfold on_GET_INIT_DATA, js_or. rewrite Hs, Hd. reflexivity.
Qed.

Lemma fresh_record_name (n : string) (a b c : val) :
  ~ In n ["action"; "deviceId"; "objectId"] ->
  has_own n [("action", a); ("deviceId", b); ("objectId", c)] = false.
Proof.
  intros H. apply not_true_is_false. intros Hown.
  apply has_own_keys in Hown. exact (H Hown).
Qed.

(** X25.  The handshake of a first run.  [GET_INIT_DATA] answers with no
    seed and no device id and leaves the module without one, whatever it held
    before, so a record built right then is refused; once [SAVE_INIT_DATA]
    has brought a device id, that id is passed to the store and a record is
    sent carrying it. *)
Theorem first_run_handshake (config CATEGORY_MAP : props)
    (Array_from Immutable_List : val -> result (list val))
    (action : val) (initialState : props) (seed dev : val)
    (xs s dl : list val) (d : record_data) (w : world) :
  is_first_run initialState = true ->
  truthy dev = true ->
  Array_from dev = Ok xs ->
  Immutable_List seed = Ok s ->
  Immutable_List dev = Ok dl ->
  inherited (name d) = false -> name d <> "" -> truthy (value d) = true ->
  ~ In (name d) ["action"; "deviceId"; "objectId"] ->
  (exists w',
      (on_GET_INIT_DATA config initialState ;;
       sendSyncRecords CATEGORY_MAP action [Some d]) w
      = (Throw (Error "Cannot build a sync record because deviceId is not set"),
         w') /\
      channel w'
      = (channel w ++ [(GOT_INIT_DATA, [JNull; JNull; JObject config])])%list) /\
  (exists w',
      (on_GET_INIT_DATA config initialState ;;
       on_SAVE_INIT_DATA Array_from Immutable_List seed dev ;;
       sendSyncRecords CATEGORY_MAP action [Some d]) w
      = (Ok tt, w') /\
      deviceId w' = JArray xs /\
      dispatched w'
      = (dispatched w ++
         [saveSyncInitData (JArray s) (JArray dl) JUndefined])%list /\
      channel w'
      = (channel w ++
         [ (GOT_INIT_DATA, [JNull; JNull; JObject config]);
           single_record_message CATEGORY_MAP action (JArray xs) (objectId d)
             (name d) (value d) ])%list).
Proof.
  intros Hfirst Hdev Hxs Hs Hdl Hinh Hname Hval Hfresh.
  pose proof (on_GET_INIT_DATA_first_run config initialState w Hfirst) as Hget.
  split.
  - eexists. split.
    + rewrite (bind_run _ _ _ _ _ Hget). unfold sendSyncRecords. run.
      reflexivity.
    + reflexivity.
  - set (w1 := with_channel
                  (channel w ++ [(GOT_INIT_DATA, [JNull; JNull; JObject config])])
                  (with_deviceId JNull w)) in Hget.
    assert (Hsave : on_SAVE_INIT_DATA Array_from Immutable_List seed dev w1
                    = (Ok tt,
                       with_dispatched
                         (dispatched w1 ++
                          [saveSyncInitData (JArray s) (JArray dl) JUndefined])
                         (with_deviceId (JArray xs) w1))).
    { rewrite on_SAVE_INIT_DATA_run. cbn [deviceId w1 with_channel
        with_deviceId truthy negb andb]. rewrite Hdev, Hxs, Hs, Hdl.
      reflexivity. }
    eexists. split; [|split; [|split]].
    + rewrite (bind_run _ _ _ _ _ Hget).
      rewrite (bind_run _ _ _ _ _ Hsave).
      apply sendSyncRecords_single; try assumption; [reflexivity|].
      now apply fresh_record_name.
    + reflexivity.
    + reflexivity.
    + cbn. rewrite <- app_assoc. reflexivity.
Qed.

Lemma first_run_handshake_witness :
  exists w',
    (on_GET_INIT_DATA sample_config [] ;;
     on_SAVE_INIT_DATA sample_Array_from sample_Immutable_List
       (JUint8Array sample_bytes) (JUint8Array [x07; x08]) ;;
     sendSyncRecords sample_CATEGORY_MAP (JNum 0)
       [Some {| name := "device"; objectId := sample_id;
                value := JObject [("name", JStr "browser-laptop")] |}])
      (sample_world sample_device)
    = (Ok tt, w') /\
    deviceId w' = JArray [JNum 7; JNum 8].
Proof.
  destruct (proj2 (first_run_handshake sample_config sample_CATEGORY_MAP
                     sample_Array_from sample_Immutable_List (JNum 0) []
                     (JUint8Array sample_bytes) (JUint8Array [x07; x08])
                     [JNum 7; JNum 8] (map byte_num sample_bytes)
                     [JNum 7; JNum 8]
                     {| name := "device"; objectId := sample_id;
                        value := JObject [("name", JStr "browser-laptop")] |}
                     (sample_world sample_device)
                     eq_refl eq_refl eq_refl eq_refl eq_refl eq_refl
                     ltac:(discriminate) eq_refl
                     ltac:(cbn; intros [H|[H|[H|[]]]]; discriminate)))
    as (w' & Hrun & Hdev & _).
  exists w'. split; [exact Hrun | exact Hdev].
Defined.

(** ** Finding a site setting *)

Lemma id_matches_typed (ids : list val) (s : props) :
  site_with_list_id (Some s) -> exists b, id_matches ids s = Ok b.
Proof.
  intros (s0 & [= <-] & Hs). unfold id_matches.
  destruct Hs as [Hf|[[xs Hx]|[o Ho]]].
  - rewrite Hf. now eexists.
  - rewrite Hx. cbn. now eexists.
  - rewrite Ho. cbn. now eexists.
Qed.

Lemma find_setting_entry_first (ids : list val) :
  Forall (fun v => is_primitive v = true) ids ->
  forall (l : list (string * props)) (j : nat) (h : string) (st : props),
    Forall (fun hs => site_with_list_id (Some (snd hs))) l ->
    nth_error l j = Some (h, st) ->
    obj_get "objectId" st = JArray ids ->
    (forall j' h' st', j' < j -> nth_error l j' = Some (h', st') ->
                       obj_get "objectId" st' <> JArray ids) ->
    find_setting_entry ids l = Ok (Some (JStr h, st)).
Proof.
  intros Hp. induction l as [|[h0 st0] r IH]; intros j h st Hl Hn Hid Hfirst.
  - destruct j; discriminate.
  - inversion Hl as [|? ? Hst0 Hr]; subst. cbn [snd] in Hst0.
    cbn [find_setting_entry]. destruct j as [|j].
    + cbn in Hn. injection Hn as <- <-.
      now rewrite (id_matches_own ids st0 Hp Hid).
    + destruct (id_matches_typed ids st0 Hst0) as [[|] Hm]; rewrite Hm.
      * exfalso. apply (Hfirst 0 h0 st0); [lia | reflexivity |].
        now apply id_matches_true.
      * apply (IH j h st Hr Hn Hid).
        intros j' h' st' Hj Hn'. apply (Hfirst (S j') h' st'); [lia|exact Hn'].
Qed.

(** X27.  For the first site setting of the state that carries the id of an
    incoming record, [getExistingObject] under [PREFERENCES] answers,
    without touching the state, a [CREATE] record of kind [siteSetting] with
    that same id and the stored device id, whose value is what
    [createSiteSettingsData] makes of the setting under its host pattern;
    when a field of the setting cannot be converted, the error of the
    conversion is the answer. *)
Theorem getExistingObject_setting_record (CREATE dev : val)
    (Immutable_List : val -> result (list val)) (syncRecord : props)
    (ids : list val) (l : list (string * props)) (w : world) (j : nat)
    (h : string) (st : props) :
  Immutable_List (obj_get "objectId" syncRecord) = Ok ids ->
  Forall (fun v => is_primitive v = true) ids ->
  siteSettings (appState w) = Some l ->
  Forall (fun hs => site_with_list_id (Some (snd hs))) l ->
  nth_error l j = Some (h, st) ->
  obj_get "objectId" st = JArray ids ->
  (forall j' h' st', j' < j -> nth_error l j' = Some (h', st') ->
                     obj_get "objectId" st' <> JArray ids) ->
  getExistingObject CREATE dev Immutable_List (JStr "PREFERENCES") syncRecord w
  = match siteSettings_value (JStr h) st with
    | Ok fields =>
        (Ok (JObject
               [ ("action", CREATE); ("deviceId", dev);
                 ("objectData", JStr "siteSetting"); ("objectId", JArray ids);
                 ("siteSetting", JObject fields) ]), w)
    | Throw e => (Throw e, w)
    end.
Proof.
  intros HL Hp Hset Hl Hn Hid Hfirst.
  assert (Ht : truthy (obj_get "objectId" st) = true) by now rewrite Hid.
  assert (E1 : is_str "BOOKMARKS" (JStr "PREFERENCES")
               || is_str "HISTORY_SITES" (JStr "PREFERENCES") = false)
    by reflexivity.
  assert (E2 : is_str "PREFERENCES" (JStr "PREFERENCES") = true)
    by reflexivity.
  pose proof (find_setting_entry_first ids Hp l j h st Hl Hn Hid Hfirst)
    as Hfind.
  unfold getExistingObject, getObjectById, createSiteSettingsData. run.
  rewrite HL. cbv beta iota. rewrite E1, E2, Hset, Hfind. cbv beta iota.
  destruct (siteSettings_value (JStr h) st) as [fields|e]; [|reflexivity].
  rewrite Ht, Hid. reflexivity.
Qed.

Lemma getExistingObject_setting_record_witness :
  exists fields,
    getExistingObject (JNum 0) sample_device sample_Immutable_List
      (JStr "PREFERENCES") sample_incoming sample_settings_world
    = (Ok (JObject
             [ ("action", JNum 0); ("deviceId", sample_device);
               ("objectData", JStr "siteSetting");
               ("objectId", JArray sample_ids);
               ("siteSetting", JObject fields) ]), sample_settings_world) /\
    obj_get "hostPattern" fields = JStr "https?://b.example" /\
    obj_get "adControl" fields = JNum 1.
Proof.
  eexists. split.
  - refine (eq_trans
              (getExistingObject_setting_record (JNum 0) sample_device
                 sample_Immutable_List sample_incoming sample_ids
                 sample_settings_with_id sample_settings_world 1
                 "https?://b.example"
                 [("adControl", JStr "blockAds"); ("objectId", sample_id)]
                 _ _ _ _ _ _ _) _).
    + reflexivity.
    + repeat (apply Forall_cons; [reflexivity|]). apply Forall_nil.
    + reflexivity.
    + apply Forall_cons; [eexists; split; [reflexivity|]; left; reflexivity|].
      apply Forall_cons; [|apply Forall_nil].
      eexists. split; [reflexivity|]. right. left. eexists. reflexivity.
    + reflexivity.
    + reflexivity.
    + intros [|j'] h' st' Hj Hn; [|lia].
      cbn in Hn. injection Hn as <- <-. discriminate.
    + reflexivity.
  - split; reflexivity.
Defined.
